(** * Matchmaking API: a shallow embedding of [main.py] and [schemas.py]

    The backing MongoDB store is a record of five collections, each a list
    of documents in insertion order.  Request handlers are functions in a
    state-and-exception monad over that store: an exception aborts the
    handler but keeps every write made before it was raised, as the Python
    code does. *)

From Stdlib Require Import ZArith NArith List String Ascii Bool Lia Permutation.
Import ListNotations.

Open Scope string_scope.

(** ** Fixed-width positional numerals

    Shared by [str(ObjectId)] (24 hexadecimal digits) and by
    [date.isoformat()] (zero-padded decimal fields). *)

Fixpoint fixed_digits (base : N) (digit : N -> ascii) (k : nat) (n : N) : string :=
  match k with
  | O => ""
  | S k' => fixed_digits base digit k' (n / base)%N ++ String (digit (n mod base)%N) ""
  end.

Definition dec_char (v : N) : ascii := ascii_of_N (48 + v)%N.

(** ** [bson.ObjectId] *)

Module ObjectId.

(** A 12-byte identifier, kept as the 96-bit number its bytes spell in
    big-endian order. *)
Definition t := N.
Bind Scope N_scope with t.

Definition bound : N := (2 ^ 96)%N.

Definition hex_char (v : N) : ascii :=
  if (v <? 10)%N then ascii_of_N (48 + v)%N else ascii_of_N (87 + v)%N.

(** [bytes.fromhex] reads digits of either case. *)
Definition hex_value (c : ascii) : option N :=
  let n := N_of_ascii c in
  if ((48 <=? n) && (n <=? 57))%N then Some (n - 48)%N
  else if ((97 <=? n) && (n <=? 102))%N then Some (n - 87)%N
  else if ((65 <=? n) && (n <=? 70))%N then Some (n - 55)%N
  else None.

Fixpoint fromhex (acc : N) (s : string) : option N :=
  match s with
  | "" => Some acc
  | String c s' =>
      match hex_value c with
      | Some v => fromhex (16 * acc + v)%N s'
      | None => None
      end
  end.

(** The twelve-byte identifier a string spells: 24 characters, all
    hexadecimal digits of either case.  No handler calls this function;
    it names, in the statements, the strings on which the constructor
    [parse] below yields the identifier of a stored document. *)
Definition make (s : string) : option t :=
  if (length s =? 24)%nat then fromhex 0%N s else None.

(** ASCII whitespace: tab, line feed, vertical tab, form feed, carriage
    return and space. *)
Definition is_space (c : ascii) : bool :=
  let n := N_of_ascii c in
  (((9 <=? n) && (n <=? 13)) || (n =? 32))%N.

(** [bytes.fromhex(s)]: two adjacent digits per byte, whitespace between
    bytes skipped; [None] stands for its [ValueError]. *)
Fixpoint unhex (s : string) : option (list N) :=
  match s with
  | "" => Some []
  | String c s' =>
      if is_space c then unhex s'
      else match hex_value c, s' with
           | Some hi, String c' s'' =>
               match hex_value c' with
               | Some lo => option_map (cons (16 * hi + lo)%N) (unhex s'')
               | None => None
               end
           | _, _ => None
           end
  end.

(** [ObjectId(s)] as the constructor runs it: any string of 24 characters
    that [bytes.fromhex] reads is taken, and the value holds the bytes
    read, fewer than twelve when the string had whitespace; [None] stands
    for [InvalidId]. *)
Definition parse (s : string) : option (list N) :=
  if (length s =? 24)%nat then unhex s else None.

(** The number a byte string spells in big-endian order. *)
Definition value (bytes : list N) : N :=
  fold_left (fun acc b => (256 * acc + b)%N) bytes 0%N.

(** Equality of a constructed value with the identifier of a stored
    document, which always has twelve bytes. *)
Definition equals (bytes : list N) (stored : t) : bool :=
  (List.length bytes =? 12)%nat && (value bytes =? stored)%N.

(** [str(oid)]: 24 lower-case hexadecimal digits. *)
Definition str (oid : t) : string := fixed_digits 16%N hex_char 24 oid.
Arguments str : simpl never.

End ObjectId.

(** ** Exceptions raised by the handlers *)

(** The message of a built-in exception differs between Python versions
    and no handler reads it; only its class is kept. *)
Inductive Exception : Type :=
| HTTPException (status_code : N) (detail : string)
| ValueError
| OverflowError.

(** ** [schemas.py] *)

Module Userauth.
Record t := mk {
  email : string;
  stripe_customer_id : option string;
  stripe_session_id : option string;
  paid : bool;
  token : string;
  verified : bool
}.
End Userauth.

Module Profile.
Record t := mk {
  userauth_id : string;
  full_name : string;
  gender : string;
  birth_date : string;
  marital_status : string;
  religion : string;
  islam_branch : option string;
  religion_level : string;
  ethnicity : option string;
  hobbies : option (list string);
  height_cm : option Z;
  weight_kg : option Z;
  wears_glasses : option bool;
  address_origin : option string;
  address_current : option string;
  siblings_count : option Z;
  family_condition : option string;
  health_history : option (list string);
  health_notes : option string;
  occupation : option string;
  side_hustle : option string;
  income_range : option string;
  education_level : option string;
  bahasa_indonesia : bool;
  bahasa_inggris : bool;
  bahasa_arab : bool;
  bahasa_daerah : option string;
  bahasa_lain : option string;
  child_plan : string;
  love_languages : list string;
  smoke : option bool;
  alcohol : option bool;
  diet : option string;
  physical_activity : option string;
  sleep_habit : option string;
  time_management : option string;
  shopping_habit : option string;
  instagram : option string;
  facebook : option string;
  linkedin : option string;
  tiktok : option string;
  city : option string;
  country : option string;
  photo_url : option string
}.

(** [profile_dict["userauth_id"] = v] on the dumped model. *)
Definition set_userauth_id (v : string) (p : t) : t :=
  mk v (full_name p) (gender p) (birth_date p) (marital_status p)
     (religion p) (islam_branch p) (religion_level p) (ethnicity p)
     (hobbies p) (height_cm p) (weight_kg p) (wears_glasses p)
     (address_origin p) (address_current p) (siblings_count p)
     (family_condition p) (health_history p) (health_notes p)
     (occupation p) (side_hustle p) (income_range p) (education_level p)
     (bahasa_indonesia p) (bahasa_inggris p) (bahasa_arab p)
     (bahasa_daerah p) (bahasa_lain p) (child_plan p) (love_languages p)
     (smoke p) (alcohol p) (diet p) (physical_activity p) (sleep_habit p)
     (time_management p) (shopping_habit p) (instagram p) (facebook p)
     (linkedin p) (tiktok p) (city p) (country p) (photo_url p).
End Profile.

Module Like.
Record t := mk {
  from_userauth_id : string;
  to_userauth_id : string
}.
End Like.

Module Match.
Record t := mk {
  userauth_a : string;
  userauth_b : string
}.
End Match.

Module Message.
Record t := mk {
  match_id : string;
  from_userauth_id : string;
  text : string
}.
End Message.

(** Request body of [/api/chat/send] ([main.py]). *)
Module ChatMessage.
Record t := mk {
  match_id : string;
  text : string
}.
End ChatMessage.

(** ** [datetime.date] *)

Module Datetime.

Record date := mk { year : Z; month : Z; day : Z }.

Definition is_leap (y : Z) : bool :=
  ((y mod 4 =? 0) && (negb (y mod 100 =? 0) || (y mod 400 =? 0)))%Z.

Definition days_in_month (y m : Z) : Z :=
  if (m =? 2)%Z then (if is_leap y then 29 else 28)%Z
  else if ((m =? 4) || (m =? 6) || (m =? 9) || (m =? 11))%Z then 30%Z
  else 31%Z.

Definition valid (d : date) : bool :=
  ((1 <=? year d) && (year d <=? 9999) &&
   (1 <=? month d) && (month d <=? 12) &&
   (1 <=? day d) && (day d <=? days_in_month (year d) (month d)))%Z.

(** [date(y, m, d)]; [None] when the constructor raises. *)
Definition make (y m d : Z) : option date :=
  if valid (mk y m d) then Some (mk y m d) else None.

(** [d.isoformat()], that is [YYYY-MM-DD]. *)
Definition isoformat (d : date) : string :=
  fixed_digits 10%N dec_char 4 (Z.to_N (year d)) ++ "-" ++
  fixed_digits 10%N dec_char 2 (Z.to_N (month d)) ++ "-" ++
  fixed_digits 10%N dec_char 2 (Z.to_N (day d)).

(** Chronological order. *)
Definition ltb (d1 d2 : date) : bool :=
  ((year d1 <? year d2) ||
   ((year d1 =? year d2) &&
    ((month d1 <? month d2) ||
     ((month d1 =? month d2) && (day d1 <? day d2)))))%Z.

Definition leb (d1 d2 : date) : bool := negb (ltb d2 d1).

(** [d - timedelta(days=1)] for a date after 0001-01-01. *)
Definition yesterday (d : date) : date :=
  if (1 <? day d)%Z then mk (year d) (month d) (day d - 1)
  else if (1 <? month d)%Z
       then mk (year d) (month d - 1) (days_in_month (year d) (month d - 1))
       else mk (year d - 1) 12 31.

End Datetime.

(** ** The document store *)

(** A stored document: the fields of its schema together with the
    identifier and the creation time the store attaches on insertion. *)
Record Doc (A : Type) := mkDoc {
  _id : ObjectId.t;
  created_at : N;
  body : A
}.
Arguments mkDoc {A} _ _ _.
Arguments _id {A} _.
Arguments created_at {A} _.
Arguments body {A} _.

(** The five collections, each in insertion order, and the source of
    fresh identifiers. *)
Record Store := mkStore {
  db_userauth : list (Doc Userauth.t);
  db_profile : list (Doc Profile.t);
  db_like : list (Doc Like.t);
  db_match : list (Doc Match.t);
  db_message : list (Doc Message.t);
  next_oid : N
}.

Definition empty_store : Store := mkStore [] [] [] [] [] 0.

(** [db[name]]: a collection is the pair of its reader and its writer. *)
Record Collection (A : Type) := mkCollection {
  docs : Store -> list (Doc A);
  set_docs : list (Doc A) -> Store -> Store
}.
Arguments docs {A} _ _.
Arguments set_docs {A} _ _ _.

Definition userauth : Collection Userauth.t :=
  mkCollection _ db_userauth
    (fun l s => mkStore l (db_profile s) (db_like s) (db_match s) (db_message s) (next_oid s)).
Definition profile : Collection Profile.t :=
  mkCollection _ db_profile
    (fun l s => mkStore (db_userauth s) l (db_like s) (db_match s) (db_message s) (next_oid s)).
Definition like : Collection Like.t :=
  mkCollection _ db_like
    (fun l s => mkStore (db_userauth s) (db_profile s) l (db_match s) (db_message s) (next_oid s)).
Definition match_ : Collection Match.t :=
  mkCollection _ db_match
    (fun l s => mkStore (db_userauth s) (db_profile s) (db_like s) l (db_message s) (next_oid s)).
Definition message : Collection Message.t :=
  mkCollection _ db_message
    (fun l s => mkStore (db_userauth s) (db_profile s) (db_like s) (db_match s) l (next_oid s)).

(** *** The handler monad: state with exceptions, writes kept on failure *)

Definition M (A : Type) : Type := Store -> (Exception + A) * Store.

Definition ret {A} (a : A) : M A := fun s => (inr a, s).
Definition raise {A} (e : Exception) : M A := fun s => (inl e, s).
Definition bind {A B} (m : M A) (k : A -> M B) : M B :=
  fun s => match m s with
           | (inl e, s') => (inl e, s')
           | (inr a, s') => k a s'
           end.

Declare Scope handler_scope.
Delimit Scope handler_scope with handler.
Notation "x <- m ;; k" := (bind m (fun x => k))
  (at level 61, m at next level, right associativity) : handler_scope.
Notation "m ;; k" := (bind m (fun _ => k))
  (at level 61, right associativity) : handler_scope.
Open Scope handler_scope.

(** *** Collection operations *)

Definition find_one {A} (c : Collection A) (p : Doc A -> bool) : M (option (Doc A)) :=
  fun s => (inr (List.find p (docs c s)), s).

Definition find {A} (c : Collection A) (p : Doc A -> bool) : M (list (Doc A)) :=
  fun s => (inr (List.filter p (docs c s)), s).

Fixpoint replace_first {A} (p : A -> bool) (f : A -> A) (l : list A) : list A :=
  match l with
  | [] => []
  | x :: l' => if p x then f x :: l' else x :: replace_first p f l'
  end.

Fixpoint remove_first {A} (p : A -> bool) (l : list A) : list A :=
  match l with
  | [] => []
  | x :: l' => if p x then l' else x :: remove_first p l'
  end.

(** [update_one(filter, {"$set": fields})]: the first matching document
    gets its schema fields replaced; the result is [matched_count]. *)
Definition update_one {A} (c : Collection A) (p : Doc A -> bool) (fields : A) : M N :=
  fun s =>
    (inr (if existsb p (docs c s) then 1 else 0)%N,
     set_docs c
       (replace_first p (fun d => mkDoc (_id d) (created_at d) fields) (docs c s)) s).

(** [delete_many(filter)]; the result is [deleted_count]. *)
Definition delete_many {A} (c : Collection A) (p : Doc A -> bool) : M N :=
  fun s =>
    (inr (N.of_nat (List.length (filter p (docs c s)))),
     set_docs c (filter (fun d => negb (p d)) (docs c s)) s).

(** [delete_one(filter)]; the result is [deleted_count]. *)
Definition delete_one {A} (c : Collection A) (p : Doc A -> bool) : M N :=
  fun s =>
    (inr (if existsb p (docs c s) then 1 else 0)%N,
     set_docs c (remove_first p (docs c s)) s).

(** Modelled from the spec: [create_document] of [database.py], which is
    not among the sources.  The store inserts the document at the end of
    the collection under a fresh identifier and with the server's creation
    time, and the identifier is returned as a string. *)
Definition create_document {A} (c : Collection A) (now : N) (data : A) : M string :=
  fun s =>
    let oid := next_oid s in
    let s' := set_docs c (docs c s ++ [mkDoc oid now data]) s in
    (inr (ObjectId.str oid),
     mkStore (db_userauth s') (db_profile s') (db_like s') (db_match s')
             (db_message s') (N.succ oid)).

(** ** [main.py] *)

(** Python truthiness of an [Optional[str]]: neither [None] nor empty. *)
Definition truthy (o : option string) : bool :=
  match o with
  | Some s => negb (s =? "")
  | None => false
  end.

(** [str(user["_id"])] *)
Definition uid (user : Doc Userauth.t) : string := ObjectId.str (_id user).

Definition require_auth (token : option string) : M (Doc Userauth.t) :=
  match token with
  | Some tok =>
      if tok =? "" then raise (HTTPException 401 "Missing token")
      else
        user <- find_one userauth (fun u => Userauth.token (body u) =? tok) ;;
        match user with
        | None => raise (HTTPException 401 "Invalid token")
        | Some u => ret u
        end
  | None => raise (HTTPException 401 "Missing token")
  end.

(** *** Profile CRUD *)

Definition create_or_update_profile
    (profile_ : Profile.t) (now : N) (user : Doc Userauth.t) : M string :=
  if negb (Userauth.paid (body user)) then
    raise (HTTPException 402 "Payment required")
  else
    let profile_dict := Profile.set_userauth_id (uid user) profile_ in
    existing <- find_one profile
                  (fun d => Profile.userauth_id (body d) =? uid user) ;;
    match existing with
    | Some e =>
        update_one profile (fun d => (_id d =? _id e)%N) profile_dict ;;
        ret "updated"
    | None =>
        create_document profile now profile_dict ;;
        ret "created"
    end.

(** *** Search & filters *)

(** The two optional bounds of [date_filter]. *)
Record DateFilter := mkDateFilter {
  f_lte : option string;
  f_gte : option string
}.

(** The [match] dictionary: one optional constraint per key. *)
Record Query := mkQuery {
  q_city : option (string * string);
  q_religion : option string;
  q_religion_level : option string;
  q_education_level : option string;
  q_occupation : option string;
  q_income_range : option string;
  q_diet : option string;
  q_birth_date : option DateFilter
}.

Record SearchArgs := mkSearchArgs {
  age_min : option Z;
  age_max : option Z;
  city : option string;
  religion : option string;
  religion_level : option string;
  education_level : option string;
  occupation : option string;
  income_range : option string;
  diet : option string;
  verified_only : bool
}.

Definition if_truthy (o : option string) : option string :=
  if truthy o then o else None.

(** What [date(year, ...)] raises for a year it refuses: the arguments are
    first converted to C [int]s, which overflows outside 32 bits, and only
    then checked against the calendar. *)
Definition date_error (year : Z) : Exception :=
  if ((- 2 ^ 31 <=? year) && (year <? 2 ^ 31))%Z then ValueError
  else OverflowError.

(** Lines 156-167: the cutoff birth dates; [date(...)] may raise. *)
Definition cutoff (today : Datetime.date) (age : Z) : Exception + string :=
  match Datetime.make (Datetime.year today - Z.max age 0)
                      (Datetime.month today) (Datetime.day today) with
  | Some d => inr (Datetime.isoformat d)
  | None => inl (date_error (Datetime.year today - Z.max age 0))
  end.

Definition opt_cutoff (today : Datetime.date) (age : option Z)
  : Exception + option string :=
  match age with
  | None => inr None
  | Some a =>
      match cutoff today a with
      | inl e => inl e
      | inr c => inr (Some c)
      end
  end.

Definition date_filter (today : Datetime.date) (a : SearchArgs)
  : Exception + option DateFilter :=
  match age_min a, age_max a with
  | None, None => inr None
  | _, _ =>
      match opt_cutoff today (age_min a) with
      | inl e => inl e
      | inr lte =>
          match opt_cutoff today (age_max a) with
          | inl e => inl e
          | inr gte => inr (Some (mkDateFilter lte gte))
          end
      end
  end.

(** Lines 138-167: the query built from the request parameters. *)
Definition search_query (today : Datetime.date) (a : SearchArgs)
  : Exception + Query :=
  match date_filter today a with
  | inl e => inl e
  | inr df =>
      inr (mkQuery
             (match if_truthy (city a) with
              | Some c => Some ("^" ++ c, "i")
              | None => None
              end)
             (if_truthy (religion a))
             (if_truthy (religion_level a))
             (if_truthy (education_level a))
             (if_truthy (occupation a))
             (if_truthy (income_range a))
             (if_truthy (diet a))
             df)
  end.

(** An equality constraint on a field. *)
Definition eq_constraint (q : option string) (field : option string) : bool :=
  match q with
  | None => true
  | Some v => match field with
              | Some x => x =? v
              | None => false
              end
  end.

(** [$lte] and [$gte] on strings: the store compares them byte-wise. *)
Definition date_constraint (q : option DateFilter) (field : string) : bool :=
  match q with
  | None => true
  | Some df =>
      (match f_lte df with Some c => String.leb field c | None => true end) &&
      (match f_gte df with Some c => String.leb c field | None => true end)
  end.

Section Search.

(** The store's regular-expression engine: pattern, options, subject. *)
Variable regex_search : string -> string -> string -> bool.

Definition regex_constraint (q : option (string * string)) (field : option string) : bool :=
  match q with
  | None => true
  | Some (pat, opts) => match field with
                        | Some x => regex_search pat opts x
                        | None => false
                        end
  end.

Definition matches_query (q : Query) (d : Doc Profile.t) : bool :=
  let p := body d in
  regex_constraint (q_city q) (Profile.city p) &&
  eq_constraint (q_religion q) (Some (Profile.religion p)) &&
  eq_constraint (q_religion_level q) (Some (Profile.religion_level p)) &&
  eq_constraint (q_education_level q) (Profile.education_level p) &&
  eq_constraint (q_occupation q) (Profile.occupation p) &&
  eq_constraint (q_income_range q) (Profile.income_range p) &&
  eq_constraint (q_diet q) (Profile.diet p) &&
  date_constraint (q_birth_date q) (Profile.birth_date p).

(** Lines 138-170 of [search_profiles]: the candidate set [profiles],
    before the cards are built from it. *)
Definition search_profiles_find
    (today : Datetime.date) (a : SearchArgs) (user : Doc Userauth.t)
  : M (list (Doc Profile.t)) :=
  match search_query today a with
  | inl e => raise e
  | inr q => find profile (matches_query q)
  end.

End Search.

(** *** Likes & matches *)

Definition like_user (payload : Like.t) (now : N) (user : Doc Userauth.t) : M string :=
  let target := Like.to_userauth_id payload in
  if uid user =? target then
    raise (HTTPException 400 "Cannot like yourself")
  else
    create_document like now (Like.mk (uid user) target) ;;
    mutual <- find_one like
                (fun d => (Like.from_userauth_id (body d) =? target) &&
                          (Like.to_userauth_id (body d) =? uid user)) ;;
    match mutual with
    | Some _ =>
        exists_ <- find_one match_
                     (fun d =>
                        ((Match.userauth_a (body d) =? uid user) &&
                         (Match.userauth_b (body d) =? target)) ||
                        ((Match.userauth_a (body d) =? target) &&
                         (Match.userauth_b (body d) =? uid user))) ;;
        match exists_ with
        | None =>
            create_document match_ now (Match.mk (uid user) target) ;;
            ret "match"
        | Some _ => ret "match"
        end
    | None => ret "liked"
    end.

(** A document as it is returned: [_id] turned into a string. *)
Definition serialize {A} (d : Doc A) : string * N * A :=
  (ObjectId.str (_id d), created_at d, body d).

Definition involves (me : string) (d : Doc Match.t) : bool :=
  (Match.userauth_a (body d) =? me) || (Match.userauth_b (body d) =? me).

Definition get_matches (user : Doc Userauth.t) : M (list (string * N * Match.t)) :=
  matches <- find match_ (involves (uid user)) ;;
  ret (map serialize matches).

(** *** Chat *)

(** The guarded lookup shared by both chat handlers: any exception leaves
    [match = None]. *)
Definition find_match (match_id : string) : M (option (Doc Match.t)) :=
  match ObjectId.parse match_id with
  | Some oid => find_one match_ (fun d => ObjectId.equals oid (_id d))
  | None => ret None
  end.

Definition participant (user : Doc Userauth.t) (m : Doc Match.t) : bool :=
  existsb (String.eqb (uid user))
          [Match.userauth_a (body m); Match.userauth_b (body m)].

Definition send_message (msg : ChatMessage.t) (now : N) (user : Doc Userauth.t) : M string :=
  found <- find_match (ChatMessage.match_id msg) ;;
  match found with
  | None => raise (HTTPException 404 "Match not found")
  | Some m =>
      if negb (participant user m) then
        raise (HTTPException 403 "Not allowed")
      else
        create_document message now
          (Message.mk (ChatMessage.match_id msg) (uid user) (ChatMessage.text msg)) ;;
        ret "sent"
  end.

(** [.sort("created_at", 1)] *)
Fixpoint insert_by_created_at {A} (d : Doc A) (l : list (Doc A)) : list (Doc A) :=
  match l with
  | [] => [d]
  | x :: l' => if (created_at d <? created_at x)%N then d :: l
               else x :: insert_by_created_at d l'
  end.

Definition sort_by_created_at {A} (l : list (Doc A)) : list (Doc A) :=
  fold_right insert_by_created_at [] l.

Definition get_messages (match_id : string) (user : Doc Userauth.t)
  : M (list (string * N * Message.t)) :=
  found <- find_match match_id ;;
  match found with
  | None => raise (HTTPException 404 "Match not found")
  | Some m =>
      if negb (participant user m) then
        raise (HTTPException 403 "Not allowed")
      else
        msgs <- find message (fun d => Message.match_id (body d) =? match_id) ;;
        ret (map serialize (sort_by_created_at msgs))
  end.

(** *** Admin panel *)

(** [os.getenv("ADMIN_TOKEN", "admin-secret")] *)
Definition ADMIN_TOKEN (env : option string) : string :=
  match env with
  | Some v => v
  | None => "admin-secret"
  end.

Definition require_admin (env : option string) (token : option string) : M unit :=
  match token with
  | Some tok => if tok =? ADMIN_TOKEN env then ret tt
                else raise (HTTPException 401 "Unauthorized admin")
  | None => raise (HTTPException 401 "Unauthorized admin")
  end.

Definition admin_delete_user (userauth_id : string) : M string :=
  match ObjectId.parse userauth_id with
  | None => raise (HTTPException 400 "Invalid user id")
  | Some oid =>
      delete_many profile (fun d => Profile.userauth_id (body d) =? userauth_id) ;;
      delete_many like
        (fun d => (Like.from_userauth_id (body d) =? userauth_id) ||
                  (Like.to_userauth_id (body d) =? userauth_id)) ;;
      delete_many match_ (involves userauth_id) ;;
      delete_many message (fun d => Message.from_userauth_id (body d) =? userauth_id) ;;
      res <- delete_one userauth (fun d => ObjectId.equals oid (_id d)) ;;
      if (res =? 0)%N then raise (HTTPException 404 "User not found")
      else ret "deleted"
  end.

(** *** Endpoints: the handlers behind their dependencies *)

Definition api_like (payload : Like.t) (now : N) (token : option string) : M string :=
  user <- require_auth token ;; like_user payload now user.

Definition api_profile (p : Profile.t) (now : N) (token : option string) : M string :=
  user <- require_auth token ;; create_or_update_profile p now user.

Definition api_matches (token : option string) : M (list (string * N * Match.t)) :=
  user <- require_auth token ;; get_matches user.

Definition api_chat_send (msg : ChatMessage.t) (now : N) (token : option string) : M string :=
  user <- require_auth token ;; send_message msg now user.

Definition api_chat_history (match_id : string) (token : option string)
  : M (list (string * N * Message.t)) :=
  user <- require_auth token ;; get_messages match_id user.

Definition api_admin_delete_user
    (env : option string) (userauth_id : string) (token : option string) : M string :=
  require_admin env token ;; admin_delete_user userauth_id.

(** ** Observations on a store, used to state the properties *)

(** A Like edge [x -> y] is stored. *)
Definition like_edge (s : Store) (x y : string) : bool :=
  existsb (fun d => (Like.from_userauth_id (body d) =? x) &&
                    (Like.to_userauth_id (body d) =? y))
          (db_like s).

(** A Match document joins [x] and [y], in either orientation. *)
Definition joins (x y : string) (d : Doc Match.t) : bool :=
  ((Match.userauth_a (body d) =? x) && (Match.userauth_b (body d) =? y)) ||
  ((Match.userauth_a (body d) =? y) && (Match.userauth_b (body d) =? x)).

(** The number of Match edges for the unordered pair [{x, y}]. *)
Definition match_count (s : Store) (x y : string) : nat :=
  List.length (filter (joins x y) (db_match s)).

(** A profile is owned by the identity [x]. *)
Definition owned_by (x : string) (d : Doc Profile.t) : bool :=
  Profile.userauth_id (body d) =? x.

(** The number of profiles owned by the identity [x]. *)
Definition profile_count (s : Store) (x : string) : nat :=
  List.length (filter (owned_by x) (db_profile s)).

(** The pair invariant of the social graph: never two Match edges for a
    pair, and one as soon as both Like edges are there. *)
Definition pair_inv (s : Store) : Prop :=
  forall x y, x <> y ->
    (match_count s x y <= 1)%nat /\
    (like_edge s x y = true -> like_edge s y x = true -> match_count s x y = 1%nat).

(** One like request: who calls, with which body, at what time. *)
Record LikeCall := mkLikeCall {
  caller : Doc Userauth.t;
  request : Like.t;
  at_time : N
}.

(** Like requests served one at a time. *)
Fixpoint run_likes (calls : list LikeCall) (s : Store) : Store :=
  match calls with
  | [] => s
  | c :: cs => run_likes cs (snd (like_user (request c) (at_time c) (caller c) s))
  end.

(** Identifiers are unique within a collection. *)
Definition unique_ids {A} (l : list (Doc A)) : Prop := NoDup (map _id l).

(** The store after a document was appended to the Like collection. *)
Definition with_like (s : Store) (d : Doc Like.t) : Store :=
  mkStore (db_userauth s) (db_profile s) (db_like s ++ [d]) (db_match s)
          (db_message s) (N.succ (next_oid s)).

(** Sample data for the concrete evaluations. *)
Definition sample_profile (owner born : string) : Profile.t :=
  Profile.mk owner "Sari" "Wanita" born "Lajang" "Islam" None "Moderat" None
    (Some []) None None None None None None None (Some []) None None None
    None None true false false None None "Tidak yakin" [] None None None
    None None None None None None None None (Some "Jakarta") None None.

Definition sample_user (oid : N) (tok : string) (has_paid : bool) : Doc Userauth.t :=
  mkDoc oid 0%N (Userauth.mk "user@example.com" None (Some tok) has_paid tok false).

(** The store after [like_user] recorded the Like edge only, and after it
    also recorded a Match edge. *)
Definition liked_store (s : Store) (now : N) (me target : string) : Store :=
  with_like s (mkDoc (next_oid s) now (Like.mk me target)).

Definition matched_store (s : Store) (now : N) (me target : string) : Store :=
  mkStore (db_userauth s) (db_profile s)
          (db_like s ++ [mkDoc (next_oid s) now (Like.mk me target)])
          (db_match s ++ [mkDoc (N.succ (next_oid s)) now (Match.mk me target)])
          (db_message s) (N.succ (N.succ (next_oid s))).

(** The store after the cascade and the final removal of
    [admin_delete_user], for a string that spells the twelve-byte
    identifier [oid]. *)
Definition deleted_store (s : Store) (userauth_id : string) (oid : ObjectId.t) : Store :=
  mkStore
    (remove_first (fun d => (_id d =? oid)%N) (db_userauth s))
    (filter (fun d => negb (owned_by userauth_id d)) (db_profile s))
    (filter (fun d => negb ((Like.from_userauth_id (body d) =? userauth_id) ||
                            (Like.to_userauth_id (body d) =? userauth_id)))
            (db_like s))
    (filter (fun d => negb (involves userauth_id d)) (db_match s))
    (filter (fun d => negb (Message.from_userauth_id (body d) =? userauth_id))
            (db_message s))
    (next_oid s).

(** *** Observations on a search request *)

(** The profile passes the lower age bound of the request, if any. *)
Definition passes_age_min (today : Datetime.date) (a : SearchArgs) (d : Doc Profile.t) : bool :=
  match age_min a with
  | None => true
  | Some n => match cutoff today n with
              | inr c => String.leb (Profile.birth_date (body d)) c
              | inl _ => false
              end
  end.

(** The profile passes the upper age bound of the request, if any. *)
Definition passes_age_max (today : Datetime.date) (a : SearchArgs) (d : Doc Profile.t) : bool :=
  match age_max a with
  | None => true
  | Some n => match cutoff today n with
              | inr c => String.leb c (Profile.birth_date (body d))
              | inl _ => false
              end
  end.

(** The profile passes every constraint of the request other than age. *)
Definition passes_other
    (regex_search : string -> string -> string -> bool)
    (a : SearchArgs) (d : Doc Profile.t) : bool :=
  let p := body d in
  regex_constraint regex_search
    (match if_truthy (city a) with
     | Some c => Some ("^" ++ c, "i")
     | None => None
     end) (Profile.city p) &&
  eq_constraint (if_truthy (religion a)) (Some (Profile.religion p)) &&
  eq_constraint (if_truthy (religion_level a)) (Some (Profile.religion_level p)) &&
  eq_constraint (if_truthy (education_level a)) (Profile.education_level p) &&
  eq_constraint (if_truthy (occupation a)) (Profile.occupation p) &&
  eq_constraint (if_truthy (income_range a)) (Profile.income_range p) &&
  eq_constraint (if_truthy (diet a)) (Profile.diet p).

(** The store after the cascade of [admin_delete_user] and the removal
    of the first identity that a test on identities selects. *)
Definition purged_store (s : Store) (userauth_id : string)
           (selected : Doc Userauth.t -> bool) : Store :=
  mkStore
    (remove_first selected (db_userauth s))
    (filter (fun d => negb (owned_by userauth_id d)) (db_profile s))
    (filter (fun d => negb ((Like.from_userauth_id (body d) =? userauth_id) ||
                            (Like.to_userauth_id (body d) =? userauth_id)))
            (db_like s))
    (filter (fun d => negb (involves userauth_id d)) (db_match s))
    (filter (fun d => negb (Message.from_userauth_id (body d) =? userauth_id))
            (db_message s))
    (next_oid s).

(** A request that sets nothing but the two age bounds. *)
Definition age_request (lo hi : option Z) : SearchArgs :=
  mkSearchArgs lo hi None None None None None None None false.

(** ** [main.py], the remaining handlers *)

(** *** Payment flow *)

Module CheckoutRequest.
Record t := mk { email : string }.
End CheckoutRequest.

Module CheckoutResponse.
Record t := mk { checkout_url : string; session_id : string }.
End CheckoutResponse.

Module ConfirmRequest.
Record t := mk { session_id : string }.
End ConfirmRequest.

(** [create_checkout_session]; the two [uuid4().hex] draws are inputs. *)
Definition create_checkout_session
    (payload : CheckoutRequest.t) (uuid_token uuid_session : string) (now : N)
  : M CheckoutResponse.t :=
  let doc := Userauth.mk (CheckoutRequest.email payload) None
                         (Some uuid_session) false uuid_token false in
  create_document userauth now doc ;;
  ret (CheckoutResponse.mk ("/pay/success?session_id=" ++ uuid_session)
                           uuid_session).

(** [update_one(filter, {"$set": ...})] for a partial update: the first
    matching document gets some of its fields set; the result is
    [matched_count]. *)
Definition update_one_set {A} (c : Collection A) (p : Doc A -> bool) (set : A -> A) : M N :=
  fun s =>
    (inr (if existsb p (docs c s) then 1 else 0)%N,
     set_docs c
       (replace_first p (fun d => mkDoc (_id d) (created_at d) (set (body d)))
                      (docs c s)) s).

Definition set_paid (v : bool) (u : Userauth.t) : Userauth.t :=
  Userauth.mk (Userauth.email u) (Userauth.stripe_customer_id u)
              (Userauth.stripe_session_id u) v (Userauth.token u)
              (Userauth.verified u).

Definition set_verified (v : bool) (u : Userauth.t) : Userauth.t :=
  Userauth.mk (Userauth.email u) (Userauth.stripe_customer_id u)
              (Userauth.stripe_session_id u) (Userauth.paid u)
              (Userauth.token u) v.

(** The filter [{"stripe_session_id": v}]. *)
Definition has_session (v : string) (d : Doc Userauth.t) : bool :=
  match Userauth.stripe_session_id (body d) with
  | Some x => x =? v
  | None => false
  end.

(** [confirm_payment]; the answer is the token. *)
Definition confirm_payment (payload : ConfirmRequest.t) : M string :=
  ua <- find_one userauth (has_session (ConfirmRequest.session_id payload)) ;;
  match ua with
  | None => raise (HTTPException 404 "Session not found")
  | Some u =>
      update_one_set userauth (fun d => (_id d =? _id u)%N) (set_paid true) ;;
      ret (Userauth.token (body u))
  end.

(** *** Own profile *)

(** [get_my_profile]: the serialized profile, if any, and the caller's
    email and verified flag. *)
Definition get_my_profile (user : Doc Userauth.t)
  : M (option (string * N * Profile.t) * (string * bool)) :=
  prof <- find_one profile
            (fun d => Profile.userauth_id (body d) =? uid user) ;;
  ret (option_map serialize prof,
       (Userauth.email (body user), Userauth.verified (body user))).

(** *** Search cards *)

Record Card := mkCard {
  card_name : string;
  card_age : option Z;
  card_city : option string;
  card_photo_url : option string;
  card_religion : string;
  card_religion_level : string;
  card_occupation : option string;
  card_education_level : option string;
  card_userauth_id : string;
  card_verified : bool
}.

(** What [search_profiles] can raise: an exception of the query stage, or
    [bson.errors.InvalidId] from [ObjectId(r.get("userauth_id"))]. *)
Inductive SearchFailure : Type :=
| Raised (e : Exception)
| InvalidId (oid : string).

(** The owner lookup of one loop iteration: skipped for an empty
    [userauth_id], raising on one that does not parse. *)
Definition lookup_owner (users : list (Doc Userauth.t)) (owner : string)
  : string + option (Doc Userauth.t) :=
  if owner =? "" then inr None
  else match ObjectId.parse owner with
       | Some oid => inr (List.find (fun u => ObjectId.equals oid (_id u)) users)
       | None => inl owner
       end.

Definition owner_verified (ua : option (Doc Userauth.t)) : bool :=
  match ua with
  | Some u => Userauth.verified (body u)
  | None => false
  end.

Section Cards.

(** [int((dt.now() - dt.fromisoformat(birth_date)).days / 365.25)], [None]
    when the expression raises; a floating-point value, kept abstract. *)
Variable age_of : string -> option Z.

Definition card_of (r : Doc Profile.t) (ua_verified : bool) : Card :=
  let p := body r in
  mkCard (Profile.full_name p) (age_of (Profile.birth_date p)) (Profile.city p)
         (Profile.photo_url p) (Profile.religion p) (Profile.religion_level p)
         (Profile.occupation p) (Profile.education_level p)
         (Profile.userauth_id p) ua_verified.

(** Lines 174-198: the loop over [profiles]. *)
Fixpoint build_cards (only_verified : bool) (users : list (Doc Userauth.t))
         (profiles : list (Doc Profile.t)) : string + list Card :=
  match profiles with
  | [] => inr []
  | r :: rest =>
      match lookup_owner users (Profile.userauth_id (body r)) with
      | inl bad => inl bad
      | inr ua =>
          let ua_verified := owner_verified ua in
          match build_cards only_verified users rest with
          | inl bad => inl bad
          | inr cards =>
              if only_verified && negb ua_verified then inr cards
              else inr (card_of r ua_verified :: cards)
          end
      end
  end.

Variable regex_search : string -> string -> string -> bool.

(** [search_profiles], whole. *)
Definition search_profiles
    (today : Datetime.date) (a : SearchArgs) (user : Doc Userauth.t)
  : Store -> (SearchFailure + list Card) * Store :=
  fun s =>
    match search_profiles_find regex_search today a user s with
    | (inl e, s') => (inl (Raised e), s')
    | (inr profiles, s') =>
        match build_cards (verified_only a) (db_userauth s') profiles with
        | inl bad => (inl (InvalidId bad), s')
        | inr cards => (inr cards, s')
        end
    end.

End Cards.

(** *** Admin panel, the remaining handlers *)

Definition admin_list_profiles : M (list (string * N * Profile.t)) :=
  profiles <- find profile (fun _ => true) ;;
  ret (map serialize profiles).

Definition admin_verify_user (userauth_id : string) : M string :=
  match ObjectId.parse userauth_id with
  | None => raise (HTTPException 400 "Invalid user id")
  | Some oid =>
      res <- update_one_set userauth (fun d => ObjectId.equals oid (_id d))
               (set_verified true) ;;
      if (res =? 0)%N then raise (HTTPException 404 "User not found")
      else ret "verified"
  end.

(** [count_documents(filter)] *)
Definition count_documents {A} (c : Collection A) (p : Doc A -> bool) : M N :=
  fun s => (inr (N.of_nat (List.length (filter p (docs c s)))), s).

(** [distinct(field)]: the values of a field, each once. *)
Definition distinct {A} (c : Collection A) (field : A -> string) : M (list string) :=
  fun s => (inr (nodup string_dec (map (fun d => field (body d)) (docs c s))), s).

Record Stats := mkStats {
  total_users : N;
  total_matches : N;
  verified_users : N;
  active_users : N
}.

Definition admin_stats : M Stats :=
  users <- count_documents userauth (fun _ => true) ;;
  matches <- count_documents match_ (fun _ => true) ;;
  verified <- count_documents userauth (fun d => Userauth.verified (body d)) ;;
  active <- distinct message Message.from_userauth_id ;;
  ret (mkStats users matches verified (N.of_nat (List.length active))).

Definition api_me (token : option string)
  : M (option (string * N * Profile.t) * (string * bool)) :=
  user <- require_auth token ;; get_my_profile user.

Definition api_admin_profiles (env : option string) (token : option string)
  : M (list (string * N * Profile.t)) :=
  require_admin env token ;; admin_list_profiles.

Definition api_admin_verify
    (env : option string) (userauth_id : string) (token : option string) : M string :=
  require_admin env token ;; admin_verify_user userauth_id.

Definition api_admin_stats (env : option string) (token : option string) : M Stats :=
  require_admin env token ;; admin_stats.

(** ** Requests that write, served one at a time *)

Inductive Request : Type :=
| Checkout (payload : CheckoutRequest.t) (uuid_token uuid_session : string) (now : N)
| Confirm (payload : ConfirmRequest.t)
| PostProfile (p : Profile.t) (now : N) (token : option string)
| PostLike (payload : Like.t) (now : N) (token : option string)
| ChatSend (msg : ChatMessage.t) (now : N) (token : option string)
| AdminVerify (env : option string) (userauth_id : string) (token : option string)
| AdminDelete (env : option string) (userauth_id : string) (token : option string).

Definition serve (r : Request) (s : Store) : Store :=
  match r with
  | Checkout payload t u now => snd (create_checkout_session payload t u now s)
  | Confirm payload => snd (confirm_payment payload s)
  | PostProfile p now token => snd (api_profile p now token s)
  | PostLike payload now token => snd (api_like payload now token s)
  | ChatSend msg now token => snd (api_chat_send msg now token s)
  | AdminVerify env i token => snd (api_admin_verify env i token s)
  | AdminDelete env i token => snd (api_admin_delete_user env i token s)
  end.

Definition serve_all (rs : list Request) (s : Store) : Store :=
  fold_left (fun st r => serve r st) rs s.

(** Identifiers of a collection are distinct and older than [n]. *)
Definition ids_ok {A} (n : N) (l : list (Doc A)) : Prop :=
  NoDup (map _id l) /\ forall d, In d l -> (_id d < n)%N.

(** Every document has its own identifier, below the next fresh one. *)
Definition wf_store (s : Store) : Prop :=
  ids_ok (next_oid s) (db_userauth s) /\
  ids_ok (next_oid s) (db_profile s) /\
  ids_ok (next_oid s) (db_like s) /\
  ids_ok (next_oid s) (db_match s) /\
  ids_ok (next_oid s) (db_message s).

(** Every Match edge is backed by the two Like edges of its pair. *)
Definition backed (s : Store) : Prop :=
  forall m, In m (db_match s) ->
    like_edge s (Match.userauth_a (body m)) (Match.userauth_b (body m)) = true /\
    like_edge s (Match.userauth_b (body m)) (Match.userauth_a (body m)) = true.

(** A handler keeps a property of the store, whatever it answers. *)
Definition preserves {A} (P : Store -> Prop) (m : M A) : Prop :=
  forall s, P s -> P (snd (m s)).

(** Creation times never decrease along a list. *)
Fixpoint sorted_by_created_at {A} (l : list (Doc A)) : Prop :=
  match l with
  | [] => True
  | x :: l' => (forall y, In y l' -> (created_at x <= created_at y)%N) /\
               sorted_by_created_at l'
  end.

(** * Properties *)

(** ** Lists and lookups *)

Lemma find_none_existsb {A} (p : A -> bool) (l : list A) :
  List.find p l = None <-> existsb p l = false.
Proof.
  induction l as [|x l IH]; simpl.
  - tauto.
  - destruct (p x); simpl; [split; discriminate | exact IH].
Qed.

Lemma find_app_last {A} (p : A -> bool) (l : list A) (x : A) :
  p x = false -> List.find p (l ++ [x]) = List.find p l.
Proof.
  intros Hx. induction l as [|y l IH]; simpl.
  - now rewrite Hx.
  - now destruct (p y).
Qed.

Lemma find_is_some {A} (p : A -> bool) (l : list A) :
  existsb p l = true -> exists x, List.find p l = Some x /\ In x l /\ p x = true.
Proof.
  intros H. destruct (List.find p l) as [x|] eqn:E.
  - exists x. apply find_some in E. tauto.
  - apply find_none_existsb in E. congruence.
Qed.

Lemma length_filter_zero {A} (p : A -> bool) (l : list A) :
  List.length (filter p l) = 0%nat <-> existsb p l = false.
Proof.
  induction l as [|x l IH]; simpl.
  - tauto.
  - destruct (p x); simpl; [split; discriminate | exact IH].
Qed.

Lemma string_eqb_false (a b : string) : a <> b -> (a =? b) = false.
Proof. apply String.eqb_neq. Qed.

(** ** What [like_user] computes *)

Lemma like_user_unfold (payload : Like.t) (now : N) (user : Doc Userauth.t) (s : Store) :
  like_user payload now user s =
  let me := uid user in
  let target := Like.to_userauth_id payload in
  if me =? target then (inl (HTTPException 400 "Cannot like yourself"), s)
  else if like_edge s target me then
         if existsb (joins me target) (db_match s)
         then (inr "match", liked_store s now me target)
         else (inr "match", matched_store s now me target)
       else (inr "liked", liked_store s now me target).
Proof.
  unfold like_user. cbv zeta.
  destruct (uid user =? Like.to_userauth_id payload) eqn:Eself; [reflexivity|].
  unfold bind, create_document, find_one; cbn [docs set_docs like match_ db_like db_match
    db_userauth db_profile db_message next_oid fst snd body _id].
  rewrite find_app_last.
  2:{ cbn [body Like.from_userauth_id Like.to_userauth_id].
      rewrite Eself. reflexivity. }
  unfold like_edge.
  destruct (List.find _ (db_like s)) as [d|] eqn:Ef.
  - apply find_some in Ef. destruct Ef as [Hin Hp].
    assert (Hex : existsb
      (fun d => (Like.from_userauth_id (body d) =? Like.to_userauth_id payload) &&
                (Like.to_userauth_id (body d) =? uid user)) (db_like s) = true).
    { apply existsb_exists. exists d. split; assumption. }
    rewrite Hex.
    cbn [db_match db_like db_userauth db_profile db_message next_oid].
    unfold joins.
    destruct (List.find _ (db_match s)) as [m|] eqn:Em.
    + apply find_some in Em. destruct Em as [Hm Hj].
      assert (Hex2 : existsb
        (fun d => ((Match.userauth_a (body d) =? uid user) &&
                   (Match.userauth_b (body d) =? Like.to_userauth_id payload)) ||
                  ((Match.userauth_a (body d) =? Like.to_userauth_id payload) &&
                   (Match.userauth_b (body d) =? uid user))) (db_match s) = true).
      { apply existsb_exists. exists m. split; assumption. }
      rewrite Hex2. reflexivity.
    + apply find_none_existsb in Em. rewrite Em. reflexivity.
  - apply find_none_existsb in Ef. rewrite Ef. reflexivity.
Qed.

(** ** Edges after a like *)

Lemma like_edge_liked (s : Store) (now : N) (me t x y : string) :
  like_edge (liked_store s now me t) x y =
  like_edge s x y || ((me =? x) && (t =? y)).
Proof.
  unfold like_edge, liked_store, with_like; simpl.
  rewrite existsb_app; simpl. now rewrite orb_false_r.
Qed.

Lemma like_edge_matched (s : Store) (now : N) (me t x y : string) :
  like_edge (matched_store s now me t) x y =
  like_edge s x y || ((me =? x) && (t =? y)).
Proof.
  unfold like_edge, matched_store; simpl.
  rewrite existsb_app; simpl. now rewrite orb_false_r.
Qed.

Lemma match_count_liked (s : Store) (now : N) (me t x y : string) :
  match_count (liked_store s now me t) x y = match_count s x y.
Proof. reflexivity. Qed.

Lemma match_count_matched (s : Store) (now : N) (me t x y : string) :
  match_count (matched_store s now me t) x y =
  (match_count s x y +
   (if (((me =? x) && (t =? y)) || ((me =? y) && (t =? x)))%string then 1 else 0))%nat.
Proof.
  unfold match_count, matched_store; simpl.
  rewrite filter_app, length_app. f_equal.
  unfold joins; simpl.
  now destruct (((me =? x) && (t =? y)) || ((me =? y) && (t =? x))).
Qed.

Lemma joins_sym (x y : string) (d : Doc Match.t) : joins x y d = joins y x d.
Proof. unfold joins. apply orb_comm. Qed.

Lemma match_count_sym (s : Store) (x y : string) :
  match_count s x y = match_count s y x.
Proof.
  unfold match_count. f_equal. apply filter_ext. intros d. apply joins_sym.
Qed.

Lemma match_count_pos (s : Store) (x y : string) :
  existsb (joins x y) (db_match s) = true -> (1 <= match_count s x y)%nat.
Proof.
  intros H. unfold match_count.
  destruct (List.length (filter (joins x y) (db_match s))) eqn:E; [|lia].
  apply length_filter_zero in E. congruence.
Qed.

Lemma match_count_none (s : Store) (x y : string) :
  existsb (joins x y) (db_match s) = false -> match_count s x y = 0%nat.
Proof. intros H. now apply length_filter_zero. Qed.

(** Rewrites a pair test against the pair just liked into equalities. *)
Ltac pair_cases me t x y :=
  destruct (String.eqb_spec me x); destruct (String.eqb_spec t y);
  destruct (String.eqb_spec me y); destruct (String.eqb_spec t x);
  subst; simpl in *; try congruence.

Lemma like_user_preserves_pair_inv
    (payload : Like.t) (now : N) (user : Doc Userauth.t) (s : Store) :
  pair_inv s -> pair_inv (snd (like_user payload now user s)).
Proof.
  intros Hinv. rewrite like_user_unfold. cbv zeta.
  set (me := uid user). set (t := Like.to_userauth_id payload).
  destruct (String.eqb_spec me t) as [Heq|Hne]; [exact Hinv|].
  destruct (like_edge s t me) eqn:Hrev.
  - destruct (existsb (joins me t) (db_match s)) eqn:Hex; simpl.
    + (* the pair is matched already *)
      assert (Hone : match_count s me t = 1%nat).
      { apply match_count_pos in Hex. destruct (Hinv me t Hne) as [Hle _]. lia. }
      intros x y Hxy. rewrite match_count_liked, !like_edge_liked.
      destruct (Hinv x y Hxy) as [Hle Hboth]. split; [exact Hle|].
      intros H1 H2.
      pair_cases me t x y;
        try (rewrite ?orb_false_r in *; now apply Hboth).
      rewrite match_count_sym. exact Hone.
    + (* the Match edge is created now *)
      assert (Hzero : match_count s me t = 0%nat) by now apply match_count_none.
      intros x y Hxy. rewrite match_count_matched, !like_edge_matched.
      destruct (Hinv x y Hxy) as [Hle Hboth].
      pair_cases me t x y;
        try (rewrite ?orb_false_r, ?Nat.add_0_r in *; split; [lia | now auto]).
      * rewrite Hzero. split; [lia | reflexivity].
      * rewrite match_count_sym, Hzero. split; [lia | reflexivity].
  - simpl. intros x y Hxy. rewrite match_count_liked, !like_edge_liked.
    destruct (Hinv x y Hxy) as [Hle Hboth]. split; [exact Hle|].
    intros H1 H2.
    pair_cases me t x y;
      try (rewrite ?orb_false_r in *; now apply Hboth);
      rewrite ?orb_false_r in *; congruence.
Qed.

Lemma run_likes_preserves_pair_inv (calls : list LikeCall) (s : Store) :
  pair_inv s -> pair_inv (run_likes calls s).
Proof.
  revert s. induction calls as [|c cs IH]; intros s Hinv; simpl.
  - exact Hinv.
  - apply IH. now apply like_user_preserves_pair_inv.
Qed.

Lemma pair_inv_empty : pair_inv empty_store.
Proof.
  intros x y _. split.
  - apply Nat.le_0_l.
  - discriminate.
Qed.

(** ** The like endpoint *)

(** C1, evaluated on the code: a requester whose identity has
    [paid = false] presents its token and likes another identity.  The
    call does not fail with 402; it answers "liked" and the Like edge is
    stored. *)
Theorem like_by_unpaid_requester_succeeds :
  let s := mkStore [sample_user 1 "tok-a" false; sample_user 2 "tok-b" true]
                   [] [] [] [] 3 in
  api_like (Like.mk "" (ObjectId.str 2)) 7 (Some "tok-a") s =
    (inr "liked", liked_store s 7 (ObjectId.str 1) (ObjectId.str 2)) /\
  like_edge (snd (api_like (Like.mk "" (ObjectId.str 2)) 7 (Some "tok-a") s))
            (ObjectId.str 1) (ObjectId.str 2) = true.
Proof. vm_compute. split; reflexivity. Qed.

(** C2: served one at a time from a store that satisfies the pair
    invariant (the empty store does), like requests keep exactly one Match
    edge for every pair of distinct identities whose two Like edges are
    both stored; and a like request adds a Match edge only when the reverse
    Like edge was already stored and the pair had no Match edge yet. *)
Theorem mutual_likes_have_exactly_one_match :
  (forall (calls : list LikeCall) (s0 : Store),
      pair_inv s0 ->
      forall x y : string, x <> y ->
        like_edge (run_likes calls s0) x y = true ->
        like_edge (run_likes calls s0) y x = true ->
        match_count (run_likes calls s0) x y = 1%nat) /\
  (forall (payload : Like.t) (now : N) (user : Doc Userauth.t) (s : Store),
      let me := uid user in
      let target := Like.to_userauth_id payload in
      let s' := snd (like_user payload now user s) in
      db_match s' = db_match s \/
      (db_match s' =
         (db_match s ++ [mkDoc (N.succ (next_oid s)) now (Match.mk me target)])%list /\
       me <> target /\
       like_edge s target me = true /\
       match_count s me target = 0%nat)).
Proof.
  split.
  - intros calls s0 Hinv x y Hxy H1 H2.
    destruct (run_likes_preserves_pair_inv calls s0 Hinv x y Hxy) as [_ Hboth].
    now apply Hboth.
  - intros payload now user s. cbv zeta. rewrite like_user_unfold. cbv zeta.
    destruct (String.eqb_spec (uid user) (Like.to_userauth_id payload)) as [|Hne];
      [now left|].
    destruct (like_edge s _ _) eqn:Hrev; [|now left].
    destruct (existsb _ (db_match s)) eqn:Hex; [now left|].
    right. simpl. repeat split; try assumption.
    now apply match_count_none.
Qed.

Lemma mutual_likes_have_exactly_one_match_witness :
  let a := sample_user 1 "tok-a" true in
  let b := sample_user 2 "tok-b" true in
  let calls := [mkLikeCall a (Like.mk "" (uid b)) 10;
                mkLikeCall b (Like.mk "" (uid a)) 11] in
  pair_inv empty_store /\
  uid a <> uid b /\
  like_edge (run_likes calls empty_store) (uid a) (uid b) = true /\
  like_edge (run_likes calls empty_store) (uid b) (uid a) = true /\
  match_count (run_likes calls empty_store) (uid a) (uid b) = 1%nat.
Proof.
  cbv zeta.
  assert (Hne : uid (sample_user 1 "tok-a" true) <> uid (sample_user 2 "tok-b" true))
    by (vm_compute; discriminate).
  split; [exact pair_inv_empty|].
  split; [exact Hne|].
  split; [reflexivity|].
  split; [reflexivity|].
  apply (proj1 mutual_likes_have_exactly_one_match _ empty_store pair_inv_empty
               _ _ Hne); reflexivity.
Defined.

(** C3 fails on the code: a like aimed at an identifier that no stored
    identity carries succeeds and leaves a Like edge pointing to it. *)
Lemma like_edge_to_unknown_identity :
  let ghost := "ffffffffffffffffffffffff" in
  let s := mkStore [sample_user 1 "tok-a" true] [] [] [] [] 2 in
  let out := api_like (Like.mk "" ghost) 7 (Some "tok-a") s in
  existsb (fun u => uid u =? ghost) (db_userauth s) = false /\
  fst out = inr "liked" /\
  like_edge (snd out) (ObjectId.str 1) ghost = true /\
  existsb (fun u => uid u =? ghost) (db_userauth (snd out)) = false.
Proof. vm_compute. repeat split; reflexivity. Qed.

(** C3 as the code has it: the only condition on the target is that it
    differs from the requester's own identifier.  The call then succeeds
    and appends the Like edge from the requester to the given target,
    whatever the identity collection holds; the collection is neither
    consulted nor changed. *)
Theorem like_edge_created_for_any_other_target
    (payload : Like.t) (now : N) (user : Doc Userauth.t) (s : Store) :
  uid user <> Like.to_userauth_id payload ->
  let out := like_user payload now user s in
  (fst out = inr "liked" \/ fst out = inr "match") /\
  db_like (snd out) =
    (db_like s ++ [mkDoc (next_oid s) now
                         (Like.mk (uid user) (Like.to_userauth_id payload))])%list /\
  db_userauth (snd out) = db_userauth s.
Proof.
  intros Hne. cbv zeta. rewrite like_user_unfold. cbv zeta.
  rewrite (string_eqb_false _ _ Hne).
  destruct (like_edge s _ _); [destruct (existsb _ _)|]; simpl; auto.
Qed.

Lemma like_edge_created_for_any_other_target_witness :
  let ghost := "ffffffffffffffffffffffff" in
  let a := sample_user 1 "tok-a" true in
  let s := mkStore [a] [] [] [] [] 2 in
  uid a <> ghost /\
  db_like (snd (like_user (Like.mk "" ghost) 7 a s)) =
    [mkDoc 2%N 7%N (Like.mk (uid a) ghost)].
Proof.
  cbv zeta.
  assert (Hne : uid (sample_user 1 "tok-a" true) <> "ffffffffffffffffffffffff")
    by (vm_compute; discriminate).
  split; [exact Hne|].
  exact (proj1 (proj2 (like_edge_created_for_any_other_target
                         (Like.mk "" "ffffffffffffffffffffffff") 7
                         (sample_user 1 "tok-a" true)
                         (mkStore [sample_user 1 "tok-a" true] [] [] [] [] 2)
                         Hne))).
Defined.

(** C4: for a target other than the requester, the answer is "match"
    exactly when a Like edge from the target to the requester is stored,
    and "liked" exactly when none is; the requester's own fresh edge does
    not change that test, so the store before the call and the store at
    the time of the mutual check agree on it. *)
Theorem like_status_reflects_reverse_edge
    (payload : Like.t) (now : N) (user : Doc Userauth.t) (s : Store) :
  uid user <> Like.to_userauth_id payload ->
  let me := uid user in
  let target := Like.to_userauth_id payload in
  let status := fst (like_user payload now user s) in
  (status = inr "match" <-> like_edge s target me = true) /\
  (status = inr "liked" <-> like_edge s target me = false) /\
  like_edge (liked_store s now me target) target me = like_edge s target me.
Proof.
  intros Hne. cbv zeta. rewrite like_user_unfold. cbv zeta.
  rewrite (string_eqb_false _ _ Hne).
  rewrite like_edge_liked.
  rewrite (string_eqb_false _ _ Hne). simpl. rewrite orb_false_r.
  destruct (like_edge s _ _); [destruct (existsb _ _)|]; simpl;
    repeat split; intros; try reflexivity; try discriminate.
Qed.

Lemma like_status_reflects_reverse_edge_witness :
  let a := sample_user 1 "tok-a" true in
  let b := sample_user 2 "tok-b" true in
  let s := snd (like_user (Like.mk "" (uid b)) 10 a empty_store) in
  uid b <> uid a /\
  like_edge s (uid a) (uid b) = true /\
  fst (like_user (Like.mk "" (uid a)) 11 b s) = inr "match".
Proof.
  cbv zeta.
  assert (Hne : uid (sample_user 2 "tok-b" true) <> uid (sample_user 1 "tok-a" true))
    by (vm_compute; discriminate).
  split; [exact Hne|].
  split; [reflexivity|].
  apply (proj1 (like_status_reflects_reverse_edge
                  (Like.mk "" (uid (sample_user 1 "tok-a" true))) 11
                  (sample_user 2 "tok-b" true) _ Hne)).
  reflexivity.
Defined.

(** C5: a like aimed at the requester's own identifier fails with 400
    "Cannot like yourself" and returns the store as it was: no Like edge
    and no Match edge is added. *)
Theorem like_self_is_invalid_target
    (from : string) (now : N) (user : Doc Userauth.t) (s : Store) :
  like_user (Like.mk from (uid user)) now user s =
  (inl (HTTPException 400 "Cannot like yourself"), s).
Proof.
  rewrite like_user_unfold. cbv zeta. cbn [Like.to_userauth_id].
  now rewrite String.eqb_refl.
Qed.

(** ** The constructor on strings with and without whitespace *)

Lemma digit_is_no_space (c : ascii) (v : N) :
  ObjectId.hex_value c = Some v -> ObjectId.is_space c = false.
Proof.
  unfold ObjectId.hex_value, ObjectId.is_space. cbv zeta.
  generalize (N_of_ascii c). intros n H.
  destruct (N.leb_spec 9 n), (N.leb_spec n 13), (N.eqb_spec n 32);
    cbn [andb orb]; try reflexivity; exfalso; revert H;
    destruct (N.leb_spec 48 n), (N.leb_spec n 57), (N.leb_spec 97 n),
             (N.leb_spec n 102), (N.leb_spec 65 n), (N.leb_spec n 70);
    cbn [andb]; try discriminate; lia.
Qed.

Lemma unhex_of_fromhex (k : nat) :
  forall (s : string) (acc v : N),
    length s = (2 * k)%nat -> ObjectId.fromhex acc s = Some v ->
    exists bytes, ObjectId.unhex s = Some bytes /\ List.length bytes = k /\
                  fold_left (fun a b => (256 * a + b)%N) bytes acc = v.
Proof.
  induction k as [|k IH]; intros s acc v Hlen Hv.
  - destruct s; [|discriminate]. injection Hv as <-. exists []. auto.
  - destruct s as [|c1 [|c2 s2]]; try (cbn [length] in Hlen; lia).
    cbn [ObjectId.fromhex] in Hv.
    destruct (ObjectId.hex_value c1) as [h1|] eqn:E1; [|discriminate].
    destruct (ObjectId.hex_value c2) as [h2|] eqn:E2; [|discriminate].
    assert (Hlen2 : length s2 = (2 * k)%nat) by (cbn [length] in Hlen; lia).
    destruct (IH s2 _ v Hlen2 Hv) as [bytes [Hb [Hk Hf]]].
    exists ((16 * h1 + h2)%N :: bytes).
    cbn [ObjectId.unhex]. rewrite (digit_is_no_space c1 h1 E1), E1, E2, Hb.
    split; [reflexivity|]. split; [cbn [List.length]; now rewrite Hk|].
    cbn [fold_left]. rewrite <- Hf. apply (f_equal (fold_left _ bytes)). lia.
Qed.

Lemma fromhex_of_unhex (n : nat) :
  forall (s : string) (bytes : list N),
    (length s <= n)%nat -> ObjectId.unhex s = Some bytes ->
    (2 * List.length bytes <= length s)%nat /\
    ((2 * List.length bytes)%nat = length s ->
     forall acc, ObjectId.fromhex acc s =
                 Some (fold_left (fun a b => (256 * a + b)%N) bytes acc)).
Proof.
  induction n as [|n IH]; intros s bytes Hn Hu.
  - destruct s; [|cbn [length] in Hn; lia]. injection Hu as <-.
    split; [cbn; lia | reflexivity].
  - destruct s as [|c1 s1].
    { injection Hu as <-. split; [cbn; lia | reflexivity]. }
    cbn [ObjectId.unhex] in Hu. cbn [length] in Hn.
    destruct (ObjectId.is_space c1) eqn:Esp.
    + destruct (IH s1 bytes ltac:(lia) Hu) as [Hle _].
      cbn [length]. split; [lia | intros Heq; lia].
    + destruct (ObjectId.hex_value c1) as [h1|] eqn:E1; [|discriminate].
      destruct s1 as [|c2 s2]; [discriminate|].
      destruct (ObjectId.hex_value c2) as [h2|] eqn:E2; [|discriminate].
      destruct (ObjectId.unhex s2) as [rest|] eqn:Er; [|discriminate].
      injection Hu as <-. cbn [length] in Hn.
      destruct (IH s2 rest ltac:(lia) Er) as [Hle Hex].
      cbn [length List.length]. split; [lia|].
      intros Heq acc. cbn [ObjectId.fromhex]. rewrite E1, E2.
      rewrite Hex by lia. cbn [fold_left].
      apply f_equal, (f_equal (fold_left _ rest)).
      change (match h1 with 0%N => 0%N | N.pos q => N.pos (((q~0)~0)~0)~0 end)
        with (16 * h1)%N. lia.
Qed.

(** A twelve-byte identifier is what the constructor yields on 24 digits. *)
Lemma make_parse (s : string) (oid : ObjectId.t) :
  ObjectId.make s = Some oid ->
  exists bytes, ObjectId.parse s = Some bytes /\
                forall stored, ObjectId.equals bytes stored = (stored =? oid)%N.
Proof.
  unfold ObjectId.make, ObjectId.parse.
  destruct (Nat.eqb_spec (length s) 24) as [Hlen|]; [|discriminate].
  intros Hm.
  destruct (unhex_of_fromhex 12 s 0%N oid Hlen Hm) as [bytes [Hb [Hk Hv]]].
  exists bytes. split; [exact Hb|].
  intros stored. unfold ObjectId.equals, ObjectId.value.
  rewrite Hk, Hv. cbn [Nat.eqb andb]. apply N.eqb_sym.
Qed.

(** A constructed value equals a stored identifier only when the string
    spells that twelve-byte identifier. *)
Lemma parse_make (s : string) (bytes : list N) (stored : ObjectId.t) :
  ObjectId.parse s = Some bytes -> ObjectId.equals bytes stored = true ->
  ObjectId.make s = Some stored.
Proof.
  unfold ObjectId.make, ObjectId.parse, ObjectId.equals, ObjectId.value.
  destruct (Nat.eqb_spec (length s) 24) as [Hlen|]; [|discriminate].
  intros Hu He. apply andb_true_iff in He. destruct He as [Hk Hv].
  apply Nat.eqb_eq in Hk. apply N.eqb_eq in Hv.
  destruct (fromhex_of_unhex 24 s bytes ltac:(lia) Hu) as [_ Hex].
  rewrite Hex by lia. now rewrite Hv.
Qed.

Lemma equals_same_id (bytes : list N) (a b : ObjectId.t) :
  ObjectId.equals bytes a = true -> ObjectId.equals bytes b = true -> a = b.
Proof.
  unfold ObjectId.equals. intros Ha Hb.
  apply andb_true_iff in Ha, Hb. destruct Ha as [_ Ha], Hb as [_ Hb].
  apply N.eqb_eq in Ha, Hb. congruence.
Qed.

Lemma remove_first_same {A} (p q : A -> bool) (l : list A) :
  (forall d, p d = q d) -> remove_first p l = remove_first q l.
Proof.
  intros H. induction l as [|x l IH]; cbn [remove_first]; [reflexivity|].
  rewrite (H x), IH. reflexivity.
Qed.

Lemma replace_first_same {A} (p q : A -> bool) (f : A -> A) (l : list A) :
  (forall d, p d = q d) -> replace_first p f l = replace_first q f l.
Proof.
  intros H. induction l as [|x l IH]; cbn [replace_first]; [reflexivity|].
  rewrite (H x), IH. reflexivity.
Qed.

Lemma existsb_same {A} (p q : A -> bool) (l : list A) :
  (forall d, p d = q d) -> existsb p l = existsb q l.
Proof.
  intros H. induction l as [|x l IH]; cbn [existsb]; [reflexivity|].
  rewrite (H x), IH. reflexivity.
Qed.

Lemma find_same {A} (p q : A -> bool) (l : list A) :
  (forall d, p d = q d) -> List.find p l = List.find q l.
Proof.
  intros H. induction l as [|x l IH]; cbn [List.find]; [reflexivity|].
  rewrite (H x), IH. reflexivity.
Qed.

(** ** The chat endpoints *)

Lemma find_by_id_unique {A} (l : list (Doc A)) (m : Doc A) :
  unique_ids l -> In m l ->
  List.find (fun d => (_id d =? _id m)%N) l = Some m.
Proof.
  unfold unique_ids. induction l as [|x l IH]; simpl; intros Hnd Hin.
  - contradiction.
  - inversion Hnd as [|? ? Hnotin Hnd']; subst.
    destruct Hin as [->|Hin].
    + now rewrite N.eqb_refl.
    + destruct (N.eqb_spec (_id x) (_id m)) as [Heq|Hneq].
      * exfalso. apply Hnotin. rewrite Heq. now apply in_map.
      * now apply IH.
Qed.

Lemma find_by_id_none {A} (l : list (Doc A)) (oid : ObjectId.t) :
  (forall m, In m l -> _id m <> oid) ->
  List.find (fun d => (_id d =? oid)%N) l = None.
Proof.
  intros H. apply find_none_existsb.
  destruct (existsb _ l) eqn:E; [|reflexivity].
  apply existsb_exists in E. destruct E as [m [Hin Hm]].
  apply N.eqb_eq in Hm. now apply H in Hin.
Qed.

Lemma find_match_unfold (mid : string) (s : Store) :
  find_match mid s =
  (inr match ObjectId.make mid with
       | Some oid => List.find (fun d => (_id d =? oid)%N) (db_match s)
       | None => None
       end, s).
Proof.
  unfold find_match.
  destruct (ObjectId.make mid) as [oid|] eqn:Hmk.
  - destruct (make_parse mid oid Hmk) as [bytes [Hp He]]. rewrite Hp.
    unfold find_one, match_. cbn [docs].
    now rewrite (find_same _ (fun d => (_id d =? oid)%N) _ (fun d => He (_id d))).
  - destruct (ObjectId.parse mid) as [bytes|] eqn:Hp; [|reflexivity].
    unfold find_one, match_. cbn [docs].
    destruct (List.find _ (db_match s)) as [m|] eqn:Hf; [|reflexivity].
    apply find_some in Hf. destruct Hf as [_ He].
    rewrite (parse_make mid bytes (_id m) Hp He) in Hmk. discriminate.
Qed.

Lemma find_match_absent (mid : string) (s : Store) :
  (forall m, In m (db_match s) -> ObjectId.make mid <> Some (_id m)) ->
  find_match mid s = (inr None, s).
Proof.
  intros H. rewrite find_match_unfold.
  destruct (ObjectId.make mid) as [oid|]; [|reflexivity].
  rewrite find_by_id_none; [reflexivity|].
  intros m Hin Heq. apply (H m Hin). now rewrite Heq.
Qed.

Lemma find_match_present (mid : string) (s : Store) (m : Doc Match.t) :
  unique_ids (db_match s) -> In m (db_match s) ->
  ObjectId.make mid = Some (_id m) ->
  find_match mid s = (inr (Some m), s).
Proof.
  intros Hu Hin Hmk. rewrite find_match_unfold, Hmk.
  now rewrite find_by_id_unique.
Qed.

Lemma find_match_sound (mid : string) (s : Store) (m : Doc Match.t) :
  find_match mid s = (inr (Some m), s) ->
  In m (db_match s) /\ ObjectId.make mid = Some (_id m).
Proof.
  rewrite find_match_unfold. intros H.
  destruct (ObjectId.make mid) as [oid|]; [|discriminate].
  injection H as H. apply find_some in H. destruct H as [Hin Hid].
  apply N.eqb_eq in Hid. now subst.
Qed.

(** The store after [send_message] recorded the message. *)
Lemma send_message_unfold (msg : ChatMessage.t) (now : N) (user : Doc Userauth.t) (s : Store) :
  send_message msg now user s =
  match fst (find_match (ChatMessage.match_id msg) s) with
  | inr (Some m) =>
      if participant user m then
        (inr "sent",
         mkStore (db_userauth s) (db_profile s) (db_like s) (db_match s)
                 (db_message s ++
                    [mkDoc (next_oid s) now
                       (Message.mk (ChatMessage.match_id msg) (uid user)
                                   (ChatMessage.text msg))])
                 (N.succ (next_oid s)))
      else (inl (HTTPException 403 "Not allowed"), s)
  | _ => (inl (HTTPException 404 "Match not found"), s)
  end.
Proof.
  unfold send_message, bind. rewrite find_match_unfold. cbn [fst].
  destruct (match ObjectId.make _ with Some _ => _ | None => _ end) as [m|];
    [|reflexivity].
  destruct (participant user m); reflexivity.
Qed.

Lemma get_messages_unfold (mid : string) (user : Doc Userauth.t) (s : Store) :
  get_messages mid user s =
  match fst (find_match mid s) with
  | inr (Some m) =>
      if participant user m then
        (inr (map serialize
                (sort_by_created_at
                   (filter (fun d => Message.match_id (body d) =? mid)
                           (db_message s)))), s)
      else (inl (HTTPException 403 "Not allowed"), s)
  | _ => (inl (HTTPException 404 "Match not found"), s)
  end.
Proof.
  unfold get_messages, bind. rewrite find_match_unfold. cbn [fst].
  destruct (match ObjectId.make _ with Some _ => _ | None => _ end) as [m|];
    [|reflexivity].
  destruct (participant user m); reflexivity.
Qed.

(** C6: both chat handlers answer 404 when no stored Match has the given
    identifier and 403 when the stored Match with that identifier does not
    list the requester as a participant; either failure returns the store
    unchanged.  [send_message] appends a Message exactly when the Match is
    found and the requester is one of its two participants, and whenever it
    fails no Message is appended. *)
Theorem chat_requires_match_and_participant
    (mid text : string) (now : N) (user : Doc Userauth.t) (s : Store) :
  let send := send_message (ChatMessage.mk mid text) now user s in
  let hist := get_messages mid user s in
  ((forall m, In m (db_match s) -> ObjectId.make mid <> Some (_id m)) ->
     send = (inl (HTTPException 404 "Match not found"), s) /\
     hist = (inl (HTTPException 404 "Match not found"), s)) /\
  (unique_ids (db_match s) ->
   forall m, In m (db_match s) -> ObjectId.make mid = Some (_id m) ->
     (participant user m = false ->
        send = (inl (HTTPException 403 "Not allowed"), s) /\
        hist = (inl (HTTPException 403 "Not allowed"), s)) /\
     (participant user m = true ->
        fst send = inr "sent" /\
        db_message (snd send) =
          (db_message s ++ [mkDoc (next_oid s) now (Message.mk mid (uid user) text)])%list)) /\
  (forall e, fst send = inl e ->
     snd send = s /\
     (e = HTTPException 404 "Match not found" \/ e = HTTPException 403 "Not allowed")) /\
  (forall r, fst send = inr r ->
     exists m, In m (db_match s) /\ ObjectId.make mid = Some (_id m) /\
               participant user m = true /\
               db_message (snd send) =
                 (db_message s ++ [mkDoc (next_oid s) now (Message.mk mid (uid user) text)])%list).
Proof.
  cbv zeta. rewrite send_message_unfold, get_messages_unfold.
  cbn [ChatMessage.match_id ChatMessage.text].
  repeat split.
  - rewrite (find_match_absent mid s H). reflexivity.
  - rewrite (find_match_absent mid s H). reflexivity.
  - rewrite (find_match_present mid s m H H0 H1). cbn [fst]. now rewrite H2.
  - rewrite (find_match_present mid s m H H0 H1). cbn [fst]. now rewrite H2.
  - rewrite (find_match_present mid s m H H0 H1). cbn [fst]. now rewrite H2.
  - rewrite (find_match_present mid s m H H0 H1). cbn [fst]. now rewrite H2.
  - destruct (fst (find_match mid s)) as [x|[m|]]; try reflexivity.
    destruct (participant user m); [discriminate H | reflexivity].
  - destruct (fst (find_match mid s)) as [x|[m|]];
      try (injection H as <-; now left).
    destruct (participant user m); [discriminate H | injection H as <-; now right].
  - destruct (find_match mid s) as [[x|[m|]] s1] eqn:Efm; cbn [fst] in *;
      try discriminate.
    assert (s1 = s) by (rewrite find_match_unfold in Efm; now injection Efm).
    subst s1. destruct (find_match_sound mid s m Efm) as [Hin Hmk].
    destruct (participant user m) eqn:Hp; [|discriminate].
    exists m. repeat split; assumption || reflexivity.
Qed.

(** ** Identifiers and their strings *)

Lemma string_length_append (a b : string) :
  length (a ++ b) = (length a + length b)%nat.
Proof. induction a as [|c a IH]; simpl; [reflexivity | now rewrite IH]. Qed.

Lemma fixed_digits_length (base : N) (digit : N -> ascii) (k : nat) (n : N) :
  length (fixed_digits base digit k n) = k.
Proof.
  revert n. induction k as [|k IH]; intros n; simpl.
  - reflexivity.
  - rewrite string_length_append, IH. simpl. lia.
Qed.

Lemma fromhex_append (a b : string) (acc : N) :
  ObjectId.fromhex acc (a ++ b) =
  match ObjectId.fromhex acc a with
  | Some v => ObjectId.fromhex v b
  | None => None
  end.
Proof.
  revert acc. induction a as [|c a IH]; intros acc; simpl.
  - reflexivity.
  - destruct (ObjectId.hex_value c); [apply IH | reflexivity].
Qed.

Lemma hex_value_hex_char (v : N) :
  (v < 16)%N -> ObjectId.hex_value (ObjectId.hex_char v) = Some v.
Proof.
  intros H.
  assert (Hv : In v [0;1;2;3;4;5;6;7;8;9;10;11;12;13;14;15]%N).
  { simpl. lia. }
  simpl in Hv.
  repeat (destruct Hv as [<-|Hv]; [reflexivity|]). contradiction.
Qed.

Lemma fromhex_fixed_digits (k : nat) (n acc : N) :
  ObjectId.fromhex acc (fixed_digits 16 ObjectId.hex_char k n) =
  Some (acc * 16 ^ N.of_nat k + n mod 16 ^ N.of_nat k)%N.
Proof.
  revert n acc. induction k as [|k IH]; intros n acc.
  - simpl. rewrite N.mod_1_r. f_equal. lia.
  - cbn [fixed_digits]. rewrite fromhex_append, IH.
    cbn [ObjectId.fromhex].
    rewrite hex_value_hex_char by (apply N.mod_lt; discriminate).
    f_equal. rewrite Nat2N.inj_succ, N.pow_succ_r'.
    rewrite (N.Div0.mod_mul_r n 16). lia.
Qed.

(** An identifier is read back from its own string. *)
Lemma make_str (oid : ObjectId.t) :
  (oid < ObjectId.bound)%N -> ObjectId.make (ObjectId.str oid) = Some oid.
Proof.
  intros H. unfold ObjectId.make, ObjectId.str.
  rewrite fixed_digits_length. cbn [Nat.eqb].
  rewrite fromhex_fixed_digits. f_equal.
  change (16 ^ N.of_nat 24)%N with ObjectId.bound.
  rewrite N.mod_small by exact H. lia.
Qed.

Lemma str_injective (a b : ObjectId.t) :
  (a < ObjectId.bound)%N -> (b < ObjectId.bound)%N ->
  ObjectId.str a = ObjectId.str b -> a = b.
Proof.
  intros Ha Hb H. apply make_str in Ha, Hb. congruence.
Qed.

Lemma chat_requires_match_and_participant_witness :
  let m := mkDoc 10%N 0%N (Match.mk (ObjectId.str 1) (ObjectId.str 2)) in
  let s := mkStore [sample_user 1 "tok-a" true; sample_user 2 "tok-b" true;
                    sample_user 3 "tok-c" true] [] [] [m] [] 11 in
  let c := sample_user 3 "tok-c" true in
  unique_ids (db_match s) /\
  In m (db_match s) /\
  ObjectId.make (ObjectId.str 10) = Some (_id m) /\
  participant c m = false /\
  send_message (ChatMessage.mk (ObjectId.str 10) "hi") 20 c s =
    (inl (HTTPException 403 "Not allowed"), s).
Proof.
  cbv zeta.
  assert (Hu : unique_ids [mkDoc 10%N 0%N (Match.mk (ObjectId.str 1) (ObjectId.str 2))]).
  { unfold unique_ids; simpl. constructor; [simpl; tauto | constructor]. }
  assert (Hin : In (mkDoc 10%N 0%N (Match.mk (ObjectId.str 1) (ObjectId.str 2)))
                   [mkDoc 10%N 0%N (Match.mk (ObjectId.str 1) (ObjectId.str 2))])
    by (simpl; tauto).
  assert (Hmk : ObjectId.make (ObjectId.str 10) = Some 10%N) by reflexivity.
  assert (Hp : participant (sample_user 3 "tok-c" true)
                 (mkDoc 10%N 0%N (Match.mk (ObjectId.str 1) (ObjectId.str 2))) = false)
    by reflexivity.
  split; [exact Hu|]. split; [exact Hin|]. split; [exact Hmk|]. split; [exact Hp|].
  exact (proj1 (proj1 (proj1 (proj2
    (chat_requires_match_and_participant (ObjectId.str 10) "hi" 20
       (sample_user 3 "tok-c" true)
       (mkStore [sample_user 1 "tok-a" true; sample_user 2 "tok-b" true;
                 sample_user 3 "tok-c" true] [] []
                [mkDoc 10%N 0%N (Match.mk (ObjectId.str 1) (ObjectId.str 2))] [] 11)))
    Hu _ Hin Hmk) Hp)).
Defined.

(** ** The admin cascade *)

Lemma admin_delete_user_unfold (userauth_id : string) (s : Store) :
  admin_delete_user userauth_id s =
  match ObjectId.parse userauth_id with
  | None => (inl (HTTPException 400 "Invalid user id"), s)
  | Some bytes =>
      (if existsb (fun d => ObjectId.equals bytes (_id d)) (db_userauth s)
       then inr "deleted"
       else inl (HTTPException 404 "User not found"),
       purged_store s userauth_id (fun d => ObjectId.equals bytes (_id d)))
  end.
Proof.
  unfold admin_delete_user. destruct (ObjectId.parse userauth_id) as [bytes|];
    [|reflexivity].
  unfold bind, delete_many, delete_one, purged_store;
    cbn [docs set_docs userauth profile like match_ message
         db_userauth db_profile db_like db_match db_message next_oid].
  destruct (existsb _ (db_userauth s)); reflexivity.
Qed.

(** The same for a string that spells a twelve-byte identifier. *)
Lemma admin_delete_user_made (userauth_id : string) (oid : ObjectId.t) (s : Store) :
  ObjectId.make userauth_id = Some oid ->
  admin_delete_user userauth_id s =
  (if existsb (fun d => (_id d =? oid)%N) (db_userauth s)
   then inr "deleted"
   else inl (HTTPException 404 "User not found"),
   deleted_store s userauth_id oid).
Proof.
  intros Hmk. destruct (make_parse _ _ Hmk) as [bytes [Hp He]].
  rewrite admin_delete_user_unfold, Hp.
  rewrite (existsb_same _ (fun d => (_id d =? oid)%N)) by (intros d; apply He).
  unfold purged_store, deleted_store.
  rewrite (remove_first_same _ (fun d => (_id d =? oid)%N)) by (intros d; apply He).
  reflexivity.
Qed.

Lemma in_remove_first {A} (p : A -> bool) (l : list A) (x : A) :
  In x l -> p x = false -> In x (remove_first p l).
Proof.
  induction l as [|y l IH]; simpl; intros Hin Hp.
  - contradiction.
  - destruct (p y) eqn:Ey.
    + destruct Hin as [->|Hin]; [congruence | exact Hin].
    + destruct Hin as [->|Hin]; [now left | right; now apply IH].
Qed.

Lemma remove_first_incl {A} (p : A -> bool) (l : list A) (x : A) :
  In x (remove_first p l) -> In x l.
Proof.
  induction l as [|y l IH]; simpl; [tauto|].
  destruct (p y); simpl; intuition.
Qed.

Lemma remove_first_by_id {A} (l : list (Doc A)) (oid : ObjectId.t) (x : Doc A) :
  unique_ids l ->
  (In x (remove_first (fun d => (_id d =? oid)%N) l) <-> In x l /\ _id x <> oid).
Proof.
  unfold unique_ids. induction l as [|y l IH]; simpl; intros Hnd.
  - tauto.
  - inversion Hnd as [|? ? Hnotin Hnd']; subst.
    destruct (N.eqb_spec (_id y) oid) as [Heq|Hneq].
    + split.
      * intros Hin. split; [now right|].
        intros Hx. apply Hnotin. rewrite Heq, <- Hx. now apply in_map.
      * intros [[->|Hin] Hx]; [congruence | exact Hin].
    + simpl. rewrite (IH Hnd'). split.
      * intros [->|[Hin Hx]]; auto.
      * intros [[->|Hin] Hx]; auto.
Qed.

Lemma filter_filter_disjoint {A} (p q : A -> bool) (l : list A) :
  (forall x, p x = true -> q x = false) ->
  filter p (filter (fun x => negb (q x)) l) = filter p l.
Proof.
  intros H. induction l as [|x l IH]; simpl; [reflexivity|].
  destruct (q x) eqn:Eq; simpl.
  - destruct (p x) eqn:Ep; [apply H in Ep; congruence | exact IH].
  - destruct (p x); [f_equal|]; exact IH.
Qed.

Lemma filter_filter_and {A} (p q : A -> bool) (l : list A) :
  filter p (filter q l) = filter (fun x => p x && q x) l.
Proof.
  induction l as [|x l IH]; simpl; [reflexivity|].
  destruct (q x); simpl; rewrite ?andb_true_r, ?andb_false_r;
    [destruct (p x); [f_equal|]; exact IH | exact IH].
Qed.

(** What the deletion removes, read off the string it is given: for a
    string that spells a twelve-byte identifier, [admin_delete_user]
    keeps exactly the profiles whose owner field is not that string, the
    Like edges that neither start nor end at that string, the Match
    edges that do not hold it and the Messages whose sender field is not
    it, then removes the identity record with the identifier spelled.  It
    answers 404 "User not found" exactly when no identity record carries
    that identifier, and the store is the same whichever answer is
    given. *)
Lemma delete_user_cascades
    (userauth_id : string) (oid : ObjectId.t) (s : Store) :
  ObjectId.make userauth_id = Some oid ->
  let out := admin_delete_user userauth_id s in
  snd out = deleted_store s userauth_id oid /\
  (forall d, In d (db_profile (snd out)) <->
             In d (db_profile s) /\ Profile.userauth_id (body d) <> userauth_id) /\
  (forall d, In d (db_like (snd out)) <->
             In d (db_like s) /\
             Like.from_userauth_id (body d) <> userauth_id /\
             Like.to_userauth_id (body d) <> userauth_id) /\
  (forall d, In d (db_match (snd out)) <->
             In d (db_match s) /\
             Match.userauth_a (body d) <> userauth_id /\
             Match.userauth_b (body d) <> userauth_id) /\
  (forall d, In d (db_message (snd out)) <->
             In d (db_message s) /\
             Message.from_userauth_id (body d) <> userauth_id) /\
  db_userauth (snd out) =
    remove_first (fun d => (_id d =? oid)%N) (db_userauth s) /\
  (unique_ids (db_userauth s) ->
   forall d, In d (db_userauth (snd out)) <-> In d (db_userauth s) /\ _id d <> oid) /\
  (fst out = inl (HTTPException 404 "User not found") <->
   forall d, In d (db_userauth s) -> _id d <> oid) /\
  (fst out = inr "deleted" <-> exists d, In d (db_userauth s) /\ _id d = oid).
Proof.
  intros Hmk. cbv zeta. rewrite (admin_delete_user_made _ _ _ Hmk).
  cbn [fst snd]. unfold deleted_store at 2 3 4 5 6 7.
  cbn [db_userauth db_profile db_like db_match db_message].
  split; [reflexivity|].
  split.
  { intros d. rewrite filter_In. unfold owned_by.
    destruct (String.eqb_spec (Profile.userauth_id (body d)) userauth_id);
      simpl; intuition congruence. }
  split.
  { intros d. rewrite filter_In.
    destruct (String.eqb_spec (Like.from_userauth_id (body d)) userauth_id);
    destruct (String.eqb_spec (Like.to_userauth_id (body d)) userauth_id);
      simpl; intuition congruence. }
  split.
  { intros d. rewrite filter_In. unfold involves.
    destruct (String.eqb_spec (Match.userauth_a (body d)) userauth_id);
    destruct (String.eqb_spec (Match.userauth_b (body d)) userauth_id);
      simpl; intuition congruence. }
  split.
  { intros d. rewrite filter_In.
    destruct (String.eqb_spec (Message.from_userauth_id (body d)) userauth_id);
      simpl; intuition congruence. }
  split; [reflexivity|].
  split.
  { intros Hu d. now apply remove_first_by_id. }
  destruct (existsb _ (db_userauth s)) eqn:Hex.
  - apply existsb_exists in Hex. destruct Hex as [d [Hin Hid]].
    apply N.eqb_eq in Hid. split.
    + split; [discriminate|]. intros H. exfalso. exact (H d Hin Hid).
    + split; [intros _; now exists d | reflexivity].
  - split.
    + split; [|reflexivity]. intros _ d Hin Hid.
      assert (Ht : existsb (fun d => (_id d =? oid)%N) (db_userauth s) = true).
      { apply existsb_exists. exists d. split; [exact Hin | now apply N.eqb_eq]. }
      congruence.
    + split; [discriminate|]. intros [d [Hin Hid]].
      assert (Ht : existsb (fun d => (_id d =? oid)%N) (db_userauth s) = true).
      { apply existsb_exists. exists d. split; [exact Hin | now apply N.eqb_eq]. }
      congruence.
Qed.

Lemma uid_differs (a_id : string) (oid : ObjectId.t) (b : Doc Userauth.t) :
  ObjectId.make a_id = Some oid ->
  (_id b < ObjectId.bound)%N -> _id b <> oid -> uid b <> a_id.
Proof.
  intros Hmk Hb Hne Heq. unfold uid in Heq.
  apply make_str in Hb. rewrite Heq, Hmk in Hb. congruence.
Qed.

(** A deletion given the string [a_id] leaves every identity [b] with
    another identifier as it was: the profiles owned by [b] are the same,
    the identity record of [b] is still stored, and what [get_matches]
    lists for [b] afterwards is what it listed before without the Match
    edges that hold the string [a_id]. *)
Lemma delete_user_spares_other_identities
    (a_id : string) (oid : ObjectId.t) (b : Doc Userauth.t) (s : Store) :
  ObjectId.make a_id = Some oid ->
  (_id b < ObjectId.bound)%N ->
  _id b <> oid ->
  let s' := snd (admin_delete_user a_id s) in
  let listed := filter (fun m => involves (uid b) m && negb (involves a_id m))
                       (db_match s) in
  filter (owned_by (uid b)) (db_profile s') =
    filter (owned_by (uid b)) (db_profile s) /\
  (forall u, In u (db_userauth s) -> _id u = _id b -> In u (db_userauth s')) /\
  get_matches b s' = (inr (map serialize listed), s') /\
  (forall m, In m (db_match s) -> involves a_id m = true ->
             ~ In (serialize m) (map serialize listed)).
Proof.
  intros Hmk Hb Hne. cbv zeta.
  rewrite (admin_delete_user_made _ _ _ Hmk). cbn [snd].
  split.
  { unfold deleted_store; cbn [db_profile].
    apply filter_filter_disjoint. intros d Hd. unfold owned_by in *.
    apply String.eqb_eq in Hd. apply String.eqb_neq. rewrite Hd.
    now apply (uid_differs a_id oid b). }
  split.
  { intros u Hin Hid. unfold deleted_store; cbn [db_userauth].
    apply in_remove_first; [exact Hin|]. apply N.eqb_neq. congruence. }
  split.
  { unfold get_matches, bind, find, ret, deleted_store;
      cbn [docs match_ db_match].
    now rewrite filter_filter_and. }
  intros m Hin Hinv Habs.
  apply in_map_iff in Habs. destruct Habs as [m' [Hser Hm']].
  apply filter_In in Hm'. destruct Hm' as [_ Hm'].
  apply andb_true_iff in Hm'. destruct Hm' as [_ Hm'].
  assert (Hbody : body m' = body m) by (unfold serialize in Hser; congruence).
  unfold involves in *. rewrite Hbody, Hinv in Hm'. discriminate.
Qed.

Lemma delete_user_cascades_witness :
  let a := ObjectId.str 1 in
  let b := ObjectId.str 2 in
  let s := mkStore [sample_user 1 "tok-a" true; sample_user 2 "tok-b" true]
                   [mkDoc 3%N 0%N (sample_profile a "1990-01-01");
                    mkDoc 4%N 0%N (sample_profile b "1991-02-02")]
                   [mkDoc 5%N 1%N (Like.mk a b); mkDoc 6%N 2%N (Like.mk b a)]
                   [mkDoc 7%N 2%N (Match.mk b a)]
                   [mkDoc 8%N 3%N (Message.mk (ObjectId.str 7) a "hi")] 9 in
  ObjectId.make a = Some 1%N /\
  snd (admin_delete_user a s) =
    mkStore [sample_user 2 "tok-b" true]
            [mkDoc 4%N 0%N (sample_profile b "1991-02-02")] [] [] [] 9.
Proof.
  cbv zeta. split; [reflexivity|].
  etransitivity.
  - exact (proj1 (delete_user_cascades (ObjectId.str 1) 1%N _ eq_refl)).
  - reflexivity.
Defined.

Lemma delete_user_spares_other_identities_witness :
  let a := ObjectId.str 1 in
  let b := sample_user 2 "tok-b" true in
  let s := mkStore [sample_user 1 "tok-a" true; b]
                   [mkDoc 3%N 0%N (sample_profile a "1990-01-01");
                    mkDoc 4%N 0%N (sample_profile (uid b) "1991-02-02")]
                   [] [mkDoc 7%N 2%N (Match.mk (uid b) a)] [] 9 in
  ObjectId.make a = Some 1%N /\
  (_id b < ObjectId.bound)%N /\
  _id b <> 1%N /\
  get_matches b (snd (admin_delete_user a s)) =
    (inr [], snd (admin_delete_user a s)).
Proof.
  cbv zeta.
  assert (Hlt : (_id (sample_user 2 "tok-b" true) < ObjectId.bound)%N) by reflexivity.
  assert (Hne : _id (sample_user 2 "tok-b" true) <> 1%N) by discriminate.
  split; [reflexivity|]. split; [exact Hlt|]. split; [exact Hne|].
  etransitivity.
  - exact (proj1 (proj2 (proj2
      (delete_user_spares_other_identities (ObjectId.str 1) 1%N
         (sample_user 2 "tok-b" true) _ eq_refl Hlt Hne)))).
  - reflexivity.
Defined.

(** C7: a deletion by an identifier written with an upper-case digit.
    The store holds the identity [0x0a] with a profile, a Like edge in
    each direction, a Match edge and a Message, each naming it by the
    string the store writes, [00000000000000000000000a].  Given
    [00000000000000000000000A], [admin_delete_user] answers "deleted" and
    removes the identity record, but every dependent record stays: the
    four [delete_many] look for the string as given, the [delete_one] for
    the identifier it spells.  Given the lower-case string on the same
    store, the dependents go with the identity. *)
Theorem delete_user_by_upper_case_id_keeps_dependents :
  let a := ObjectId.str 10 in
  let b := ObjectId.str 11 in
  let s := mkStore [sample_user 10 "tok-a" true; sample_user 11 "tok-b" true]
                   [mkDoc 12%N 0%N (sample_profile a "1990-01-01")]
                   [mkDoc 13%N 1%N (Like.mk a b); mkDoc 14%N 2%N (Like.mk b a)]
                   [mkDoc 15%N 2%N (Match.mk b a)]
                   [mkDoc 16%N 3%N (Message.mk (ObjectId.str 15) a "hi")] 17 in
  a = "00000000000000000000000a" /\
  admin_delete_user "00000000000000000000000A" s =
    (inr "deleted",
     mkStore [sample_user 11 "tok-b" true]
             [mkDoc 12%N 0%N (sample_profile a "1990-01-01")]
             [mkDoc 13%N 1%N (Like.mk a b); mkDoc 14%N 2%N (Like.mk b a)]
             [mkDoc 15%N 2%N (Match.mk b a)]
             [mkDoc 16%N 3%N (Message.mk (ObjectId.str 15) a "hi")] 17) /\
  admin_delete_user "00000000000000000000000a" s =
    (inr "deleted", mkStore [sample_user 11 "tok-b" true] [] [] [] [] 17).
Proof.
  cbv zeta. split; [|split]; vm_compute; reflexivity.
Qed.

(** C8: after that deletion the other identity still has the deleted one
    among its matches.  The identities [0x0a] and [0x0b] are matched;
    [admin_delete_user] is given [00000000000000000000000A] and removes
    the record of [0x0a]; [get_matches] for [0x0b] afterwards still lists
    the Match edge in which [0x0a] is a participant. *)
Theorem delete_user_by_upper_case_id_keeps_match_listed :
  let a := sample_user 10 "tok-a" true in
  let b := sample_user 11 "tok-b" true in
  let m := mkDoc 15%N 2%N (Match.mk (uid b) (uid a)) in
  let s := mkStore [a; b] []
                   [mkDoc 13%N 1%N (Like.mk (uid a) (uid b));
                    mkDoc 14%N 2%N (Like.mk (uid b) (uid a))]
                   [m] [] 16 in
  let out := admin_delete_user "00000000000000000000000A" s in
  fst out = inr "deleted" /\
  db_userauth (snd out) = [b] /\
  involves (uid a) m = true /\
  fst (get_matches b (snd out)) = inr [serialize m].
Proof.
  cbv zeta. split; [|split; [|split]]; vm_compute; reflexivity.
Qed.

(** ** The profile upsert *)

Lemma find_split {A} (p : A -> bool) (l : list A) (e : A) :
  List.find p l = Some e ->
  exists l1 l2, l = (l1 ++ e :: l2)%list /\
                (forall d, In d l1 -> p d = false) /\ p e = true.
Proof.
  induction l as [|x l IH]; simpl; intros H; [discriminate|].
  destruct (p x) eqn:Ex.
  - injection H as ->. exists [], l. simpl. repeat split; tauto || assumption.
  - destruct (IH H) as [l1 [l2 [-> [Hl1 He]]]].
    exists (x :: l1), l2. simpl. repeat split; [|exact He].
    intros d [<-|Hd]; auto.
Qed.

Lemma replace_first_at {A} (p : A -> bool) (f : A -> A) (l1 l2 : list A) (e : A) :
  (forall d, In d l1 -> p d = false) -> p e = true ->
  replace_first p f (l1 ++ e :: l2) = (l1 ++ f e :: l2)%list.
Proof.
  intros Hl1 He. induction l1 as [|x l1 IH]; simpl.
  - now rewrite He.
  - rewrite (Hl1 x) by now left. f_equal. apply IH.
    intros d Hd. apply Hl1. now right.
Qed.

Lemma ids_before_differ {A} (l1 l2 : list (Doc A)) (e : Doc A) :
  unique_ids (l1 ++ e :: l2) ->
  forall d, In d l1 -> (_id d =? _id e)%N = false.
Proof.
  unfold unique_ids. rewrite map_app. simpl. intros Hnd d Hd.
  apply NoDup_remove_2 in Hnd. apply N.eqb_neq. intros Heq.
  apply Hnd. apply in_or_app. left. rewrite <- Heq. now apply in_map.
Qed.

(** The profile collection after the upsert. *)
Lemma create_or_update_profile_unfold
    (p : Profile.t) (now : N) (user : Doc Userauth.t) (s : Store) :
  Userauth.paid (body user) = true ->
  unique_ids (db_profile s) ->
  let stored := Profile.set_userauth_id (uid user) p in
  match List.find (owned_by (uid user)) (db_profile s) with
  | Some e =>
      exists l1 l2,
        db_profile s = (l1 ++ e :: l2)%list /\
        (forall d, In d l1 -> owned_by (uid user) d = false) /\
        owned_by (uid user) e = true /\
        fst (create_or_update_profile p now user s) = inr "updated" /\
        db_profile (snd (create_or_update_profile p now user s)) =
          (l1 ++ mkDoc (_id e) (created_at e) stored :: l2)%list
  | None =>
      fst (create_or_update_profile p now user s) = inr "created" /\
      db_profile (snd (create_or_update_profile p now user s)) =
        (db_profile s ++ [mkDoc (next_oid s) now stored])%list
  end.
Proof.
  intros Hpaid Hu. cbv zeta. unfold create_or_update_profile.
  rewrite Hpaid. cbn [negb].
  unfold bind, find_one, update_one, create_document, ret;
    cbn [docs set_docs profile db_profile].
  change (fun d : Doc Profile.t => Profile.userauth_id (body d) =? uid user)
    with (owned_by (uid user)).
  destruct (List.find (owned_by (uid user)) (db_profile s)) as [e|] eqn:Ef.
  - destruct (find_split _ _ _ Ef) as [l1 [l2 [Hl [Hl1 He]]]].
    exists l1, l2.
    split; [exact Hl|]. split; [exact Hl1|]. split; [exact He|].
    split; [reflexivity|].
    cbn [snd db_profile]. rewrite Hl.
    apply (replace_first_at _
             (fun d => mkDoc (_id d) (created_at d)
                             (Profile.set_userauth_id (uid user) p)));
      [|apply N.eqb_refl].
    rewrite Hl in Hu. exact (ids_before_differ l1 l2 e Hu).
  - split; reflexivity.
Qed.

Lemma owned_by_stored (x : string) (oid : ObjectId.t) (t : N)
      (user : Doc Userauth.t) (p : Profile.t) :
  owned_by x (mkDoc oid t (Profile.set_userauth_id (uid user) p)) = (uid user =? x).
Proof. reflexivity. Qed.

(** C10: when a paid caller upserts a profile, the document written
    carries the caller's own identifier in [userauth_id], whatever the
    request body held there; every document of the collection afterwards
    is either one that was there before or that written document; the
    profiles owned by any other identity are the same as before; and if no
    identity owned more than one profile before, none does afterwards. *)
Theorem upsert_binds_profile_to_caller
    (p : Profile.t) (now : N) (user : Doc Userauth.t) (s : Store) :
  Userauth.paid (body user) = true ->
  unique_ids (db_profile s) ->
  let stored := Profile.set_userauth_id (uid user) p in
  let out := create_or_update_profile p now user s in
  Profile.userauth_id stored = uid user /\
  (fst out = inr "created" \/ fst out = inr "updated") /\
  (exists d, In d (db_profile (snd out)) /\ body d = stored) /\
  (forall d, In d (db_profile (snd out)) ->
             In d (db_profile s) \/ body d = stored) /\
  (forall x, x <> uid user ->
             filter (owned_by x) (db_profile (snd out)) =
             filter (owned_by x) (db_profile s)) /\
  ((forall x, (profile_count s x <= 1)%nat) ->
   forall x, (profile_count (snd out) x <= 1)%nat).
Proof.
  intros Hpaid Hu. cbv zeta.
  pose proof (create_or_update_profile_unfold p now user s Hpaid Hu) as H.
  cbv zeta in H.
  split; [reflexivity|].
  destruct (List.find (owned_by (uid user)) (db_profile s)) as [e|] eqn:Ef.
  - destruct H as [l1 [l2 [Hl [Hl1 [He [Hr Hs]]]]]].
    assert (Hsame : forall x,
      filter (owned_by x) (db_profile (snd (create_or_update_profile p now user s))) =
      (filter (owned_by x) l1 ++
       (if uid user =? x then
          [mkDoc (_id e) (created_at e) (Profile.set_userauth_id (uid user) p)]
        else []) ++ filter (owned_by x) l2)%list).
    { intros x. rewrite Hs, filter_app. cbn [filter].
      rewrite owned_by_stored. now destruct (uid user =? x). }
    assert (Hold : forall x,
      filter (owned_by x) (db_profile s) =
      (filter (owned_by x) l1 ++
       (if uid user =? x then [e] else []) ++ filter (owned_by x) l2)%list).
    { intros x. rewrite Hl, filter_app. cbn [filter].
      unfold owned_by in He. apply String.eqb_eq in He.
      unfold owned_by at 2. rewrite He. now destruct (uid user =? x). }
    split; [now right|].
    split.
    { exists (mkDoc (_id e) (created_at e) (Profile.set_userauth_id (uid user) p)).
      split; [|reflexivity]. rewrite Hs.
      apply in_or_app. right. now left. }
    split.
    { intros d Hd. rewrite Hs in Hd. rewrite Hl.
      apply in_app_or in Hd. destruct Hd as [Hd|[<-|Hd]].
      - left. apply in_or_app. now left.
      - now right.
      - left. apply in_or_app. right. now right. }
    split.
    { intros x Hx. rewrite Hsame, Hold.
      apply not_eq_sym, String.eqb_neq in Hx. now rewrite Hx. }
    intros Hinv x. specialize (Hinv x). unfold profile_count in *.
    rewrite Hsame. rewrite Hold in Hinv.
    rewrite !length_app in Hinv |- *.
    destruct (uid user =? x); cbn [List.length] in Hinv |- *; lia.
  - destruct H as [Hr Hs].
    split; [now left|].
    split.
    { exists (mkDoc (next_oid s) now (Profile.set_userauth_id (uid user) p)).
      split; [|reflexivity]. rewrite Hs.
      apply in_or_app. right. now left. }
    split.
    { intros d Hd. rewrite Hs in Hd.
      apply in_app_or in Hd. destruct Hd as [Hd|[<-|[]]]; [now left | now right]. }
    split.
    { intros x Hx. rewrite Hs, filter_app. cbn [filter].
      rewrite owned_by_stored.
      apply not_eq_sym, String.eqb_neq in Hx. rewrite Hx. apply app_nil_r. }
    intros Hinv x. specialize (Hinv x). unfold profile_count in *.
    rewrite Hs, filter_app, length_app. cbn [filter].
    rewrite owned_by_stored.
    destruct (String.eqb_spec (uid user) x) as [<-|Hx]; cbn [List.length]; [|lia].
    apply find_none_existsb in Ef.
    apply length_filter_zero in Ef. rewrite Ef. lia.
Qed.

Lemma upsert_binds_profile_to_caller_witness :
  let a := sample_user 1 "tok-a" true in
  let b := sample_user 2 "tok-b" true in
  let s := mkStore [a; b]
                   [mkDoc 3%N 0%N (sample_profile (uid b) "1991-02-02")]
                   [] [] [] 4 in
  let out := create_or_update_profile (sample_profile (uid b) "1980-03-03") 9 a s in
  Userauth.paid (body a) = true /\
  unique_ids (db_profile s) /\
  uid b <> uid a /\
  fst out = inr "created" /\
  filter (owned_by (uid b)) (db_profile (snd out)) =
    [mkDoc 3%N 0%N (sample_profile (uid b) "1991-02-02")].
Proof.
  cbv zeta.
  assert (Hu : unique_ids [mkDoc 3%N 0%N
                 (sample_profile (uid (sample_user 2 "tok-b" true)) "1991-02-02")]).
  { unfold unique_ids. cbn [map _id]. constructor; [cbn [In]; tauto | constructor]. }
  assert (Hne : uid (sample_user 2 "tok-b" true) <> uid (sample_user 1 "tok-a" true))
    by (vm_compute; discriminate).
  split; [reflexivity|]. split; [exact Hu|]. split; [exact Hne|].
  split; [reflexivity|].
  etransitivity.
  - exact (proj1 (proj2 (proj2 (proj2 (proj2
      (upsert_binds_profile_to_caller
         (sample_profile (uid (sample_user 2 "tok-b" true)) "1980-03-03") 9
         (sample_user 1 "tok-a" true)
         (mkStore [sample_user 1 "tok-a" true; sample_user 2 "tok-b" true]
                  [mkDoc 3%N 0%N
                     (sample_profile (uid (sample_user 2 "tok-b" true)) "1991-02-02")]
                  [] [] [] 4)
         eq_refl Hu))))) _ Hne).
  - reflexivity.
Defined.

(** ** Order of fixed-width numerals and of ISO dates *)

Lemma compare_append (a1 a2 b1 b2 : string) :
  length a1 = length a2 ->
  String.compare (a1 ++ b1) (a2 ++ b2) =
  match String.compare a1 a2 with
  | Eq => String.compare b1 b2
  | c => c
  end.
Proof.
  revert a2. induction a1 as [|c1 a1 IH]; intros [|c2 a2] Hlen;
    try discriminate; simpl.
  - reflexivity.
  - destruct (Ascii.compare c1 c2); try reflexivity.
    apply IH. now injection Hlen.
Qed.

Lemma compare_dec_char (a b : N) :
  (a < 10)%N -> (b < 10)%N ->
  Ascii.compare (dec_char a) (dec_char b) = (a ?= b)%N.
Proof.
  intros Ha Hb. unfold Ascii.compare, dec_char.
  rewrite !N_ascii_embedding by lia.
  destruct (N.compare_spec (48 + a) (48 + b)), (N.compare_spec a b);
    try reflexivity; exfalso; lia.
Qed.

Lemma compare_quotient_remainder (q1 r1 q2 r2 n1 n2 : N) :
  n1 = (10 * q1 + r1)%N -> n2 = (10 * q2 + r2)%N ->
  (r1 < 10)%N -> (r2 < 10)%N ->
  (n1 ?= n2)%N = match (q1 ?= q2)%N with
                 | Eq => (r1 ?= r2)%N
                 | c => c
                 end.
Proof.
  intros E1 E2 L1 L2.
  destruct (N.compare_spec q1 q2), (N.compare_spec r1 r2), (N.compare_spec n1 n2);
    try reflexivity; exfalso; lia.
Qed.

Lemma N_compare_digits (n1 n2 : N) :
  (n1 ?= n2)%N =
  match (n1 / 10 ?= n2 / 10)%N with
  | Eq => (n1 mod 10 ?= n2 mod 10)%N
  | c => c
  end.
Proof.
  apply compare_quotient_remainder.
  - apply N.div_mod'.
  - apply N.div_mod'.
  - apply N.mod_lt; discriminate.
  - apply N.mod_lt; discriminate.
Qed.

Lemma compare_fixed_digits (k : nat) (n1 n2 : N) :
  (n1 < 10 ^ N.of_nat k)%N -> (n2 < 10 ^ N.of_nat k)%N ->
  String.compare (fixed_digits 10 dec_char k n1) (fixed_digits 10 dec_char k n2) =
  (n1 ?= n2)%N.
Proof.
  revert n1 n2. induction k as [|k IH]; intros n1 n2 H1 H2.
  - simpl in *. assert (n1 = 0%N) by lia. assert (n2 = 0%N) by lia. now subst.
  - cbn [fixed_digits].
    rewrite compare_append by now rewrite !fixed_digits_length.
    rewrite Nat2N.inj_succ, N.pow_succ_r' in H1, H2.
    rewrite IH by (apply N.Div0.div_lt_upper_bound; lia).
    rewrite (N_compare_digits n1 n2).
    destruct (n1 / 10 ?= n2 / 10)%N; try reflexivity.
    cbn [String.compare].
    rewrite compare_dec_char by (apply N.mod_lt; discriminate).
    now destruct (n1 mod 10 ?= n2 mod 10)%N.
Qed.

Lemma valid_bounds (d : Datetime.date) :
  Datetime.valid d = true ->
  (1 <= Datetime.year d <= 9999 /\ 1 <= Datetime.month d <= 12 /\
   1 <= Datetime.day d <= 31)%Z.
Proof.
  unfold Datetime.valid, Datetime.days_in_month. intros H.
  repeat (apply andb_true_iff in H; destruct H as [H ?]).
  repeat match goal with
         | H : (_ <=? _)%Z = true |- _ => apply Z.leb_le in H
         end.
  destruct (Datetime.month d =? 2)%Z;
    [destruct (Datetime.is_leap _)|destruct (_ || _)]; lia.
Qed.

Lemma compare_isoformat (d1 d2 : Datetime.date) :
  Datetime.valid d1 = true -> Datetime.valid d2 = true ->
  String.compare (Datetime.isoformat d1) (Datetime.isoformat d2) =
  match (Datetime.year d1 ?= Datetime.year d2)%Z with
  | Eq => match (Datetime.month d1 ?= Datetime.month d2)%Z with
          | Eq => (Datetime.day d1 ?= Datetime.day d2)%Z
          | c => c
          end
  | c => c
  end.
Proof.
  intros V1 V2. apply valid_bounds in V1, V2.
  assert (P4 : (10 ^ N.of_nat 4 = 10000)%N) by reflexivity.
  assert (P2 : (10 ^ N.of_nat 2 = 100)%N) by reflexivity.
  unfold Datetime.isoformat.
  rewrite compare_append by now rewrite !fixed_digits_length.
  rewrite (compare_fixed_digits 4 (Z.to_N (Datetime.year d1))
                                  (Z.to_N (Datetime.year d2)))
    by (rewrite P4; lia).
  rewrite Z2N.inj_compare by lia.
  destruct (Datetime.year d1 ?= Datetime.year d2)%Z; try reflexivity.
  change ("-" ++ ?x) with (String "-" x). cbn [String.compare].
  change (Ascii.compare "-" "-") with Eq. cbv iota.
  rewrite compare_append by now rewrite !fixed_digits_length.
  rewrite (compare_fixed_digits 2 (Z.to_N (Datetime.month d1))
                                  (Z.to_N (Datetime.month d2)))
    by (rewrite P2; lia).
  rewrite Z2N.inj_compare by lia.
  destruct (Datetime.month d1 ?= Datetime.month d2)%Z; try reflexivity.
  change ("-" ++ ?x) with (String "-" x). cbn [String.compare].
  change (Ascii.compare "-" "-") with Eq. cbv iota.
  rewrite (compare_fixed_digits 2 (Z.to_N (Datetime.day d1))
                                  (Z.to_N (Datetime.day d2)))
    by (rewrite P2; lia).
  apply Z2N.inj_compare; lia.
Qed.

(** The store's byte-wise order on ISO strings is the calendar order. *)
Lemma leb_isoformat (d1 d2 : Datetime.date) :
  Datetime.valid d1 = true -> Datetime.valid d2 = true ->
  String.leb (Datetime.isoformat d1) (Datetime.isoformat d2) = Datetime.leb d1 d2.
Proof.
  intros V1 V2. unfold String.leb. rewrite compare_isoformat by assumption.
  unfold Datetime.leb, Datetime.ltb.
  destruct (Z.compare_spec (Datetime.year d1) (Datetime.year d2)),
           (Z.compare_spec (Datetime.month d1) (Datetime.month d2)),
           (Z.compare_spec (Datetime.day d1) (Datetime.day d2));
    repeat match goal with
           | |- context [(?a <? ?b)%Z] => destruct (Z.ltb_spec a b)
           | |- context [(?a =? ?b)%Z] => destruct (Z.eqb_spec a b)
           end; simpl; try reflexivity; exfalso; lia.
Qed.

Lemma days_in_month_bounds (y m : Z) :
  (28 <= Datetime.days_in_month y m <= 31)%Z.
Proof.
  unfold Datetime.days_in_month.
  destruct (m =? 2)%Z; [destruct (Datetime.is_leap y)|destruct (_ || _)]; lia.
Qed.

Lemma valid_fields (d : Datetime.date) :
  Datetime.valid d = true <->
  (1 <= Datetime.year d <= 9999 /\ 1 <= Datetime.month d <= 12 /\
   1 <= Datetime.day d <= Datetime.days_in_month (Datetime.year d) (Datetime.month d))%Z.
Proof.
  unfold Datetime.valid. rewrite !andb_true_iff, !Z.leb_le. tauto.
Qed.

Lemma ltb_spec_fields (d1 d2 : Datetime.date) :
  Datetime.ltb d1 d2 = true <->
  (Datetime.year d1 < Datetime.year d2 \/
   (Datetime.year d1 = Datetime.year d2 /\
    (Datetime.month d1 < Datetime.month d2 \/
     (Datetime.month d1 = Datetime.month d2 /\
      Datetime.day d1 < Datetime.day d2))))%Z.
Proof.
  unfold Datetime.ltb.
  rewrite !orb_true_iff, !andb_true_iff, !orb_true_iff, !andb_true_iff,
          !Z.ltb_lt, !Z.eqb_eq.
  tauto.
Qed.

(** The day before a valid date other than 0001-01-01 is a valid date,
    and an earlier one. *)
Lemma yesterday_valid_earlier (d : Datetime.date) :
  Datetime.valid d = true -> d <> Datetime.mk 1 1 1 ->
  Datetime.valid (Datetime.yesterday d) = true /\
  Datetime.ltb (Datetime.yesterday d) d = true.
Proof.
  intros V Hne. apply valid_fields in V. destruct d as [y m dd].
  cbn [Datetime.year Datetime.month Datetime.day] in V.
  unfold Datetime.yesterday. cbn [Datetime.year Datetime.month Datetime.day].
  destruct (Z.ltb_spec 1 dd) as [Hd|Hd].
  - rewrite valid_fields, ltb_spec_fields.
    cbn [Datetime.year Datetime.month Datetime.day]. lia.
  - destruct (Z.ltb_spec 1 m) as [Hm|Hm].
    + rewrite valid_fields, ltb_spec_fields.
      cbn [Datetime.year Datetime.month Datetime.day].
      pose proof (days_in_month_bounds y (m - 1)). lia.
    + assert (dd = 1%Z) by lia. assert (m = 1%Z) by lia. subst.
      assert (y <> 1%Z) by (intros ->; now apply Hne).
      rewrite valid_fields, ltb_spec_fields.
      cbn [Datetime.year Datetime.month Datetime.day].
      change (Datetime.days_in_month (y - 1) 12) with 31%Z. lia.
Qed.

Lemma ltb_not_leb (b c : Datetime.date) :
  Datetime.ltb b c = true -> Datetime.leb c b = false.
Proof. unfold Datetime.leb. now intros ->. Qed.

Lemma leb_refl_date (c : Datetime.date) : Datetime.leb c c = true.
Proof.
  unfold Datetime.leb.
  destruct (Datetime.ltb c c) eqn:E; [|reflexivity].
  apply ltb_spec_fields in E. lia.
Qed.

(** ** The age filter of the search *)

Lemma cutoff_made (today : Datetime.date) (n : Z) (c : Datetime.date) :
  Datetime.make (Datetime.year today - Z.max n 0)
                (Datetime.month today) (Datetime.day today) = Some c ->
  cutoff today n = inr (Datetime.isoformat c) /\ Datetime.valid c = true.
Proof.
  unfold cutoff, Datetime.make. intros H.
  destruct (Datetime.valid _) eqn:V; [|discriminate].
  injection H as <-. split; [reflexivity | exact V].
Qed.

Lemma matches_query_split
    (regex_search : string -> string -> string -> bool)
    (a : SearchArgs) (df : option DateFilter) (d : Doc Profile.t) :
  matches_query regex_search
    (mkQuery
       (match if_truthy (city a) with
        | Some c => Some ("^" ++ c, "i")
        | None => None
        end)
       (if_truthy (religion a)) (if_truthy (religion_level a))
       (if_truthy (education_level a)) (if_truthy (occupation a))
       (if_truthy (income_range a)) (if_truthy (diet a)) df) d =
  passes_other regex_search a d &&
  date_constraint df (Profile.birth_date (body d)).
Proof. reflexivity. Qed.

Lemma search_candidates
    (regex_search : string -> string -> string -> bool)
    (today : Datetime.date) (a : SearchArgs) (user : Doc Userauth.t)
    (s : Store) (ps : list (Doc Profile.t)) :
  fst (search_profiles_find regex_search today a user s) = inr ps ->
  forall d, In d ps <->
            In d (db_profile s) /\
            passes_other regex_search a d = true /\
            passes_age_min today a d = true /\
            passes_age_max today a d = true.
Proof.
  unfold search_profiles_find, search_query, date_filter, opt_cutoff,
         passes_age_min, passes_age_max.
  intros H d.
  destruct (age_min a) as [lo|], (age_max a) as [hi|];
    try destruct (cutoff today lo) as [e1|c1];
    try destruct (cutoff today hi) as [e2|c2];
    try discriminate H;
    unfold find in H; cbn [fst docs profile] in H;
    injection H as <-;
    rewrite filter_In, matches_query_split, andb_true_iff;
    unfold date_constraint; cbn [f_lte f_gte];
    rewrite ?andb_true_iff, ?andb_true_r; tauto.
Qed.

(** C9 fails on the code as stated: with [age_max = -1] the date "exactly
    [age_max] years before today" is 2025-06-15, and the profile born one
    day earlier than that, on 2025-06-14, is still in the candidate set,
    because the code takes the bound as [max(age_max, 0)]. *)
Lemma age_max_negative_keeps_earlier_profile :
  let today := Datetime.mk 2024 6 15 in
  let amax := (-1)%Z in
  let nominal := Datetime.mk (Datetime.year today - amax)
                             (Datetime.month today) (Datetime.day today) in
  let d := mkDoc 3%N 0%N
             (sample_profile (ObjectId.str 1)
                (Datetime.isoformat (Datetime.yesterday nominal))) in
  let s := mkStore [sample_user 1 "tok-a" true] [d] [] [] [] 4 in
  Datetime.isoformat (Datetime.yesterday nominal) = "2025-06-14" /\
  fst (search_profiles_find (fun _ _ _ => true) today
         (age_request None (Some amax)) (sample_user 1 "tok-a" true) s) = inr [d].
Proof. vm_compute. split; reflexivity. Qed.

(** C9 as the code has it.  The age bounds are taken as [max(age, 0)] and
    the cutoff is [date(today.year - bound, today.month, today.day)],
    compared with [birth_date] as strings.  Whenever the cutoff of
    [age_max] is a valid date: a profile born on the cutoff passes the
    upper age bound, a profile born on a valid date passes it exactly when
    that date is not before the cutoff, so the one born the day before is
    rejected; a request that sets only [age_max] returns every profile
    born on the cutoff and none born on a valid earlier date.  With
    [age_min], a profile born on a valid date passes the lower age bound
    exactly when that date is on or before its cutoff.  The candidate set
    is made of the stored profiles that pass both bounds and the other
    constraints of the request. *)
Theorem age_filter_cutoffs
    (regex_search : string -> string -> string -> bool)
    (today : Datetime.date) (a : SearchArgs) (user : Doc Userauth.t) (s : Store) :
  (forall ps,
      fst (search_profiles_find regex_search today a user s) = inr ps ->
      forall d, In d ps <->
                In d (db_profile s) /\
                passes_other regex_search a d = true /\
                passes_age_min today a d = true /\
                passes_age_max today a d = true) /\
  (forall n c,
      age_max a = Some n ->
      Datetime.make (Datetime.year today - Z.max n 0)
                    (Datetime.month today) (Datetime.day today) = Some c ->
      forall d,
        (Profile.birth_date (body d) = Datetime.isoformat c ->
         passes_age_max today a d = true) /\
        (forall b, Datetime.valid b = true ->
                   Profile.birth_date (body d) = Datetime.isoformat b ->
                   (passes_age_max today a d = true <-> Datetime.leb c b = true)) /\
        (c <> Datetime.mk 1 1 1 ->
         Profile.birth_date (body d) = Datetime.isoformat (Datetime.yesterday c) ->
         passes_age_max today a d = false)) /\
  (forall n c,
      Datetime.make (Datetime.year today - Z.max n 0)
                    (Datetime.month today) (Datetime.day today) = Some c ->
      exists ps,
        search_profiles_find regex_search today (age_request None (Some n)) user s =
          (inr ps, s) /\
        (forall d, In d (db_profile s) ->
                   Profile.birth_date (body d) = Datetime.isoformat c -> In d ps) /\
        (forall d b, Datetime.valid b = true -> Datetime.ltb b c = true ->
                     Profile.birth_date (body d) = Datetime.isoformat b ->
                     ~ In d ps)) /\
  (forall n c,
      age_min a = Some n ->
      Datetime.make (Datetime.year today - Z.max n 0)
                    (Datetime.month today) (Datetime.day today) = Some c ->
      forall d b, Datetime.valid b = true ->
                  Profile.birth_date (body d) = Datetime.isoformat b ->
                  (passes_age_min today a d = true <-> Datetime.leb b c = true)).
Proof.
  split; [intros ps H; exact (search_candidates _ _ _ _ _ _ H)|].
  split.
  { intros n c Hmax Hmk d. destruct (cutoff_made today n c Hmk) as [Hc Vc].
    assert (Hpass : forall b, Datetime.valid b = true ->
              Profile.birth_date (body d) = Datetime.isoformat b ->
              passes_age_max today a d = Datetime.leb c b).
    { intros b Vb Hb. unfold passes_age_max. rewrite Hmax, Hc, Hb.
      now apply leb_isoformat. }
    split; [|split].
    - intros Hb. rewrite (Hpass c Vc Hb). apply leb_refl_date.
    - intros b Vb Hb. now rewrite (Hpass b Vb Hb).
    - intros Hne Hb.
      destruct (yesterday_valid_earlier c Vc Hne) as [Vy Hlt].
      rewrite (Hpass _ Vy Hb). now apply ltb_not_leb. }
  split.
  { intros n c Hmk. destruct (cutoff_made today n c Hmk) as [Hc Vc].
    exists (filter (fun d => String.leb (Datetime.isoformat c)
                                        (Profile.birth_date (body d)))
                   (db_profile s)).
    split.
    { unfold search_profiles_find, search_query, date_filter, opt_cutoff,
             age_request; cbn [age_min age_max]. rewrite Hc.
      unfold find; cbn [docs profile].
      apply f_equal2; [|reflexivity]. apply f_equal.
      apply filter_ext. intros d. rewrite matches_query_split.
      unfold passes_other, date_constraint;
        cbn [city religion religion_level education_level occupation
             income_range diet if_truthy truthy regex_constraint eq_constraint
             f_lte f_gte andb].
      reflexivity. }
    split.
    - intros d Hin Hb. apply filter_In. split; [exact Hin|].
      rewrite Hb, leb_isoformat by assumption. apply leb_refl_date.
    - intros d b Vb Hlt Hb Hin. apply filter_In in Hin. destruct Hin as [_ Hin].
      rewrite Hb, leb_isoformat in Hin by assumption.
      rewrite (ltb_not_leb b c Hlt) in Hin. discriminate. }
  intros n c Hmin Hmk d b Vb Hb. destruct (cutoff_made today n c Hmk) as [Hc Vc].
  unfold passes_age_min. rewrite Hmin, Hc, Hb.
  now rewrite leb_isoformat.
Qed.

Lemma age_filter_cutoffs_witness :
  let today := Datetime.mk 2024 6 15 in
  let c := Datetime.mk 1994 6 15 in
  let a := age_request None (Some 30%Z) in
  let d := mkDoc 3%N 0%N (sample_profile (ObjectId.str 1) "1994-06-14") in
  age_max a = Some 30%Z /\
  Datetime.make (Datetime.year today - Z.max 30 0)
                (Datetime.month today) (Datetime.day today) = Some c /\
  c <> Datetime.mk 1 1 1 /\
  Profile.birth_date (body d) = Datetime.isoformat (Datetime.yesterday c) /\
  passes_age_max today a d = false.
Proof.
  cbv zeta.
  assert (Hne : Datetime.mk 1994 6 15 <> Datetime.mk 1 1 1) by discriminate.
  split; [reflexivity|]. split; [reflexivity|]. split; [exact Hne|].
  split; [reflexivity|].
  exact (proj2 (proj2 (proj1 (proj2
    (age_filter_cutoffs (fun _ _ _ => true) (Datetime.mk 2024 6 15)
       (age_request None (Some 30%Z)) (sample_user 1 "tok-a" true) empty_store))
    30%Z (Datetime.mk 1994 6 15) eq_refl eq_refl
    (mkDoc 3%N 0%N (sample_profile (ObjectId.str 1) "1994-06-14")))) Hne eq_refl).
Defined.

(** ** Authentication and the payment flow *)

Lemma find_app_none {A} (p : A -> bool) (l l' : list A) :
  List.find p l = None -> List.find p (l ++ l') = List.find p l'.
Proof.
  induction l as [|x l IH]; simpl; [reflexivity|].
  destruct (p x); [discriminate | exact IH].
Qed.

Lemma find_none_forall {A} (p : A -> bool) (l : list A) :
  (forall d, In d l -> p d = false) -> List.find p l = None.
Proof.
  intros H. induction l as [|x l IH]; simpl; [reflexivity|].
  rewrite (H x) by now left. apply IH. intros d Hd. apply H. now right.
Qed.

Lemma replace_first_none {A} (p : A -> bool) (f : A -> A) (l : list A) :
  (forall d, In d l -> p d = false) -> replace_first p f l = l.
Proof.
  intros H. induction l as [|x l IH]; simpl; [reflexivity|].
  rewrite (H x) by now left. f_equal. apply IH. intros d Hd. apply H. now right.
Qed.

Lemma require_auth_unfold (token : option string) (s : Store) :
  require_auth token s =
  match token with
  | Some tok =>
      if tok =? "" then (inl (HTTPException 401 "Missing token"), s)
      else match List.find (fun u => Userauth.token (body u) =? tok) (db_userauth s) with
           | Some u => (inr u, s)
           | None => (inl (HTTPException 401 "Invalid token"), s)
           end
  | None => (inl (HTTPException 401 "Missing token"), s)
  end.
Proof.
  unfold require_auth. destruct token as [tok|]; [|reflexivity].
  destruct (tok =? ""); [reflexivity|].
  unfold bind, find_one; cbn [docs userauth].
  now destruct (List.find _ (db_userauth s)).
Qed.

(** X1: [require_auth] never writes; it answers 401 "Missing token" for an
    absent or empty token, 401 "Invalid token" when no stored identity has
    the token, and otherwise a stored identity carrying exactly that
    token. *)
Theorem require_auth_outcomes (token : option string) (s : Store) :
  snd (require_auth token s) = s /\
  (truthy token = false ->
   fst (require_auth token s) = inl (HTTPException 401 "Missing token")) /\
  (forall tok, token = Some tok -> tok <> "" ->
     (forall u, In u (db_userauth s) -> Userauth.token (body u) <> tok) ->
     fst (require_auth token s) = inl (HTTPException 401 "Invalid token")) /\
  (forall tok u, token = Some tok -> tok <> "" ->
     In u (db_userauth s) -> Userauth.token (body u) = tok ->
     exists u', fst (require_auth token s) = inr u') /\
  (forall u, fst (require_auth token s) = inr u ->
     In u (db_userauth s) /\ token = Some (Userauth.token (body u)) /\
     Userauth.token (body u) <> "").
Proof.
  rewrite require_auth_unfold.
  destruct token as [tok|]; cbn [truthy].
  2:{ repeat split; try discriminate; intros; discriminate. }
  destruct (String.eqb_spec tok "") as [->|Hne]; cbn [negb].
  { repeat split; try discriminate; intros; congruence. }
  destruct (List.find _ (db_userauth s)) as [u|] eqn:Ef; cbn [fst snd].
  - apply find_some in Ef. destruct Ef as [Hin Htok]. apply String.eqb_eq in Htok.
    split; [reflexivity|]. split; [discriminate|].
    split.
    { intros tok' Heq _ Hall. injection Heq as <-. now apply Hall in Hin. }
    split; [intros; now exists u|].
    intros u' Hu'. injection Hu' as <-. rewrite Htok. auto.
  - split; [reflexivity|]. split; [discriminate|].
    split; [reflexivity|].
    split; [|discriminate].
    intros tok' u Heq _ Hin Htok. injection Heq as <-.
    apply find_none with (x := u) in Ef; [|exact Hin].
    apply String.eqb_neq in Ef. congruence.
Qed.

Lemma require_auth_outcomes_witness :
  let s := mkStore [sample_user 1 "tok-a" true] [] [] [] [] 2 in
  Some "nope" = Some "nope" /\ "nope" <> "" /\
  (forall u, In u (db_userauth s) -> Userauth.token (body u) <> "nope") /\
  fst (require_auth (Some "nope") s) = inl (HTTPException 401 "Invalid token").
Proof.
  cbv zeta.
  assert (Hne : "nope" <> "") by discriminate.
  assert (Hall : forall u, In u [sample_user 1 "tok-a" true] ->
                           Userauth.token (body u) <> "nope").
  { intros u [<-|[]]. discriminate. }
  split; [reflexivity|]. split; [exact Hne|]. split; [exact Hall|].
  exact (proj1 (proj2 (proj2 (require_auth_outcomes (Some "nope")
           (mkStore [sample_user 1 "tok-a" true] [] [] [] [] 2))))
         "nope" eq_refl Hne Hall).
Defined.

Lemma checkout_store (payload : CheckoutRequest.t) (t u : string) (now : N) (s : Store) :
  create_checkout_session payload t u now s =
  (inr (CheckoutResponse.mk ("/pay/success?session_id=" ++ u) u),
   mkStore (db_userauth s ++
              [mkDoc (next_oid s) now
                 (Userauth.mk (CheckoutRequest.email payload) None (Some u) false t false)])
           (db_profile s) (db_like s) (db_match s) (db_message s)
           (N.succ (next_oid s))).
Proof. reflexivity. Qed.

Lemma confirm_payment_unfold (payload : ConfirmRequest.t) (s : Store) :
  confirm_payment payload s =
  match List.find (has_session (ConfirmRequest.session_id payload)) (db_userauth s) with
  | None => (inl (HTTPException 404 "Session not found"), s)
  | Some u =>
      (inr (Userauth.token (body u)),
       mkStore (replace_first (fun d => (_id d =? _id u)%N)
                  (fun d => mkDoc (_id d) (created_at d) (set_paid true (body d)))
                  (db_userauth s))
               (db_profile s) (db_like s) (db_match s) (db_message s) (next_oid s))
  end.
Proof.
  unfold confirm_payment, bind, find_one; cbn [docs userauth].
  now destruct (List.find _ (db_userauth s)).
Qed.

Lemma ids_ok_fresh {A} (n : N) (l : list (Doc A)) :
  ids_ok n l -> forall d, In d l -> (_id d =? n)%N = false.
Proof.
  intros [_ H] d Hd. apply N.eqb_neq. apply H in Hd. lia.
Qed.

(** X2: a checkout followed by the confirmation of its session yields the
    token drawn at checkout, and that token then authenticates as a paid,
    unverified identity with the email of the checkout, provided the two
    draws are fresh (no stored identity has that token or that session)
    and the token is not empty. *)
Theorem checkout_confirm_authenticates
    (payload : CheckoutRequest.t) (t u : string) (now : N) (s : Store) :
  wf_store s ->
  t <> "" ->
  (forall d, In d (db_userauth s) -> Userauth.token (body d) <> t) ->
  (forall d, In d (db_userauth s) -> Userauth.stripe_session_id (body d) <> Some u) ->
  let s1 := snd (create_checkout_session payload t u now s) in
  let s2 := snd (confirm_payment (ConfirmRequest.mk u) s1) in
  fst (create_checkout_session payload t u now s) =
    inr (CheckoutResponse.mk ("/pay/success?session_id=" ++ u) u) /\
  fst (require_auth (Some t) s1) =
    inr (mkDoc (next_oid s) now
           (Userauth.mk (CheckoutRequest.email payload) None (Some u) false t false)) /\
  fst (confirm_payment (ConfirmRequest.mk u) s1) = inr t /\
  fst (require_auth (Some t) s2) =
    inr (mkDoc (next_oid s) now
           (Userauth.mk (CheckoutRequest.email payload) None (Some u) true t false)).
Proof.
  intros Hwf Ht Htok Hses. cbv zeta. rewrite checkout_store. cbn [fst snd].
  set (new := mkDoc (next_oid s) now
                (Userauth.mk (CheckoutRequest.email payload) None (Some u) false t false)).
  assert (Hfind_tok : List.find (fun d => Userauth.token (body d) =? t) (db_userauth s) = None).
  { apply find_none_forall. intros d Hd. apply String.eqb_neq. now apply Htok. }
  assert (Hfind_ses : List.find (has_session u) (db_userauth s) = None).
  { apply find_none_forall. intros d Hd. unfold has_session.
    destruct (Userauth.stripe_session_id (body d)) as [x|] eqn:E; [|reflexivity].
    apply String.eqb_neq. intros ->. now apply (Hses d Hd). }
  assert (Hnew_tok : (Userauth.token (body new) =? t) = true) by apply String.eqb_refl.
  assert (Hnew_ses : has_session u new = true) by apply String.eqb_refl.
  split; [reflexivity|].
  split.
  { rewrite require_auth_unfold. rewrite (string_eqb_false _ _ Ht).
    cbn [db_userauth]. rewrite find_app_none by exact Hfind_tok.
    cbn [List.find]. now rewrite Hnew_tok. }
  rewrite confirm_payment_unfold. cbn [ConfirmRequest.session_id db_userauth].
  rewrite find_app_none by exact Hfind_ses.
  cbn [List.find]. rewrite Hnew_ses. cbn [fst snd].
  split; [reflexivity|].
  rewrite require_auth_unfold. rewrite (string_eqb_false _ _ Ht).
  cbn [db_userauth].
  rewrite (replace_first_at _ _ (db_userauth s) [] new).
  2:{ intros d Hd. destruct Hwf as [Hu _]. exact (ids_ok_fresh _ _ Hu d Hd). }
  2:{ apply N.eqb_refl. }
  rewrite find_app_none by exact Hfind_tok.
  cbn [List.find body _id created_at new set_paid Userauth.token].
  now rewrite String.eqb_refl.
Qed.

(** Checks [ids_ok] on an explicit list of documents. *)
Ltac solve_ids_ok :=
  unfold ids_ok, sample_user; cbn [map _id In];
  split;
  [ repeat (constructor; [cbn [In]; intuition discriminate|]); constructor
  | intros d Hd; cbn [In] in Hd;
    repeat (destruct Hd as [<-|Hd]; [reflexivity|]); contradiction ].

Ltac split_and :=
  match goal with |- _ /\ _ => split end.

Lemma checkout_confirm_authenticates_witness :
  let s := mkStore [sample_user 1 "tok-a" true] [] [] [] [] 2 in
  let s1 := snd (create_checkout_session (CheckoutRequest.mk "b@example.com")
                   "tok-b" "ses-b" 5 s) in
  wf_store s /\ "tok-b" <> "" /\
  fst (confirm_payment (ConfirmRequest.mk "ses-b") s1) = inr "tok-b".
Proof.
  cbv zeta.
  assert (Hwf : wf_store (mkStore [sample_user 1 "tok-a" true] [] [] [] [] 2)).
  { unfold wf_store; cbn [db_userauth db_profile db_like db_match
                          db_message next_oid].
    repeat split_and; solve_ids_ok. }
  assert (Ht : "tok-b" <> "") by discriminate.
  split; [exact Hwf|]. split; [exact Ht|].
  refine (proj1 (proj2 (proj2
    (checkout_confirm_authenticates (CheckoutRequest.mk "b@example.com")
       "tok-b" "ses-b" 5 _ Hwf Ht _ _)))).
  - intros d [<-|[]]. discriminate.
  - intros d [<-|[]]. discriminate.
Defined.

Lemma map_replace_first {A B} (g : A -> B) (p : A -> bool) (f : A -> A) (l : list A) :
  (forall d, g (f d) = g d) -> map g (replace_first p f l) = map g l.
Proof.
  intros H. induction l as [|x l IH]; simpl; [reflexivity|].
  destruct (p x); simpl; [now rewrite H | now rewrite IH].
Qed.

Lemma in_replace_first {A} (p : A -> bool) (f : A -> A) (l : list A) (d : A) :
  In d (replace_first p f l) ->
  In d l \/ exists x, In x l /\ p x = true /\ d = f x.
Proof.
  induction l as [|y l IH]; simpl; [tauto|].
  destruct (p y) eqn:Ey; simpl.
  - intros [<-|Hd]; [right; exists y; auto | auto].
  - intros [<-|Hd]; [auto|].
    destruct (IH Hd) as [H|[x [Hx [Hp ->]]]]; [auto|].
    right. exists x. auto.
Qed.

(** X3: [confirm_payment] answers 404 and writes nothing when no stored
    identity has the session.  Otherwise it answers the token of the
    first stored identity with that session and stores that identity
    with [paid = True], its identifier, creation time, email, customer,
    session, token and verified flag as they were, at the same place
    (identifiers being distinct); every other identity stays.  Whatever
    the outcome, no identity is added, dropped or changed in a field
    other than [paid], each identity afterwards is either untouched or
    paid, and the other collections and the identifier counter stay. *)
Theorem confirm_payment_outcomes (payload : ConfirmRequest.t) (s : Store) :
  let sid := ConfirmRequest.session_id payload in
  let out := confirm_payment payload s in
  let others (d : Doc Userauth.t) :=
    (_id d, created_at d, Userauth.email (body d),
     Userauth.stripe_customer_id (body d), Userauth.stripe_session_id (body d),
     Userauth.token (body d), Userauth.verified (body d)) in
  ((forall d, In d (db_userauth s) ->
              Userauth.stripe_session_id (body d) <> Some sid) ->
   out = (inl (HTTPException 404 "Session not found"), s)) /\
  (forall l1 u l2,
     db_userauth s = (l1 ++ u :: l2)%list ->
     (forall d, In d l1 -> Userauth.stripe_session_id (body d) <> Some sid) ->
     Userauth.stripe_session_id (body u) = Some sid ->
     unique_ids (db_userauth s) ->
     fst out = inr (Userauth.token (body u)) /\
     db_userauth (snd out) =
       (l1 ++ mkDoc (_id u) (created_at u)
                (Userauth.mk (Userauth.email (body u))
                             (Userauth.stripe_customer_id (body u))
                             (Userauth.stripe_session_id (body u))
                             true
                             (Userauth.token (body u))
                             (Userauth.verified (body u))) :: l2)%list) /\
  (forall tok, fst out = inr tok ->
     exists u, In u (db_userauth s) /\
               Userauth.stripe_session_id (body u) = Some sid /\
               Userauth.token (body u) = tok) /\
  map others (db_userauth (snd out)) = map others (db_userauth s) /\
  (forall d, In d (db_userauth (snd out)) ->
             In d (db_userauth s) \/ Userauth.paid (body d) = true) /\
  db_profile (snd out) = db_profile s /\
  db_like (snd out) = db_like s /\
  db_match (snd out) = db_match s /\
  db_message (snd out) = db_message s /\
  next_oid (snd out) = next_oid s.
Proof.
  cbv zeta. rewrite confirm_payment_unfold.
  assert (Hmiss : forall d, Userauth.stripe_session_id (body d) <>
                            Some (ConfirmRequest.session_id payload) ->
                            has_session (ConfirmRequest.session_id payload) d = false).
  { intros d Hd. unfold has_session.
    destruct (Userauth.stripe_session_id (body d)) as [x|]; [|reflexivity].
    apply String.eqb_neq. congruence. }
  split; [|split].
  - intros Hall. rewrite find_none_forall; [reflexivity|].
    intros d Hd. apply Hmiss. now apply Hall.
  - intros l1 u l2 Hl Hl1 Hses Hu.
    assert (Hf : List.find (has_session (ConfirmRequest.session_id payload))
                           (db_userauth s) = Some u).
    { rewrite Hl, find_app_none.
      - cbn [List.find]. unfold has_session at 1. rewrite Hses.
        now rewrite String.eqb_refl.
      - apply find_none_forall. intros d Hd. apply Hmiss. now apply Hl1. }
    rewrite Hf. cbn [fst snd db_userauth]. split; [reflexivity|].
    rewrite Hl in Hu |- *.
    rewrite (replace_first_at _
               (fun d => mkDoc (_id d) (created_at d) (set_paid true (body d)))
               l1 l2 u (ids_before_differ l1 l2 u Hu) (N.eqb_refl _)).
    reflexivity.
  - destruct (List.find _ (db_userauth s)) as [u|] eqn:Ef; cbn [fst snd].
    + pose proof (find_some _ _ Ef) as [Hin Hses].
      unfold has_session in Hses.
      destruct (Userauth.stripe_session_id (body u)) as [x|] eqn:Ex; [|discriminate].
      apply String.eqb_eq in Hses. subst x.
      split.
      { intros tok Htok. injection Htok as <-. exists u. auto. }
      cbn [db_userauth db_profile db_like db_match db_message next_oid].
      split.
      { apply map_replace_first. intros d. reflexivity. }
      split.
      { intros d Hd. apply in_replace_first in Hd.
        destruct Hd as [Hd|[x [_ [_ ->]]]]; [now left | now right]. }
      repeat split.
    + split; [discriminate|].
      repeat split. intros d Hd. now left.
Qed.

Lemma confirm_payment_outcomes_witness :
  let a := sample_user 1 "tok-a" false in
  let b := sample_user 2 "tok-b" false in
  let s := mkStore [a; b] [] [] [] [] 3 in
  db_userauth s = ([a] ++ b :: [])%list /\
  (forall d, In d [a] -> Userauth.stripe_session_id (body d) <> Some "tok-b") /\
  Userauth.stripe_session_id (body b) = Some "tok-b" /\
  unique_ids (db_userauth s) /\
  fst (confirm_payment (ConfirmRequest.mk "tok-b") s) = inr "tok-b" /\
  db_userauth (snd (confirm_payment (ConfirmRequest.mk "tok-b") s)) =
    [a; mkDoc 2%N 0%N (Userauth.mk "user@example.com" None (Some "tok-b")
                                   true "tok-b" false)].
Proof.
  cbv zeta.
  assert (Hall : forall d, In d [sample_user 1 "tok-a" false] ->
                           Userauth.stripe_session_id (body d) <> Some "tok-b").
  { intros d [<-|[]]. discriminate. }
  assert (Hu : unique_ids [sample_user 1 "tok-a" false; sample_user 2 "tok-b" false]).
  { unfold unique_ids; cbn [map _id sample_user].
    constructor; [cbn [In]; intros [H|[]]; discriminate H|].
    constructor; [cbn [In]; tauto | constructor]. }
  split; [reflexivity|]. split; [exact Hall|]. split; [reflexivity|].
  split; [exact Hu|].
  exact (proj1 (proj2 (confirm_payment_outcomes (ConfirmRequest.mk "tok-b")
                  (mkStore [sample_user 1 "tok-a" false; sample_user 2 "tok-b" false]
                           [] [] [] [] 3)))
               [sample_user 1 "tok-a" false] (sample_user 2 "tok-b" false) []
               eq_refl Hall eq_refl Hu).
Defined.

(** X4: a checkout alone does not unlock profile writes.  Until the
    session is confirmed, the token drawn at checkout authenticates but
    the profile upsert answers 402 "Payment required" and stores
    nothing. *)
Theorem checkout_alone_does_not_unlock_profile
    (payload : CheckoutRequest.t) (t u : string) (now now' : N)
    (p : Profile.t) (s : Store) :
  t <> "" ->
  (forall d, In d (db_userauth s) -> Userauth.token (body d) <> t) ->
  let s1 := snd (create_checkout_session payload t u now s) in
  api_profile p now' (Some t) s1 = (inl (HTTPException 402 "Payment required"), s1).
Proof.
  intros Ht Htok. cbv zeta. rewrite checkout_store. cbn [snd].
  unfold api_profile, bind. rewrite require_auth_unfold.
  rewrite (string_eqb_false _ _ Ht). cbn [db_userauth].
  rewrite find_app_none.
  2:{ apply find_none_forall. intros d Hd. apply String.eqb_neq. now apply Htok. }
  cbn [List.find body Userauth.token]. rewrite String.eqb_refl.
  reflexivity.
Qed.

Lemma checkout_alone_does_not_unlock_profile_witness :
  let s1 := snd (create_checkout_session (CheckoutRequest.mk "b@example.com")
                   "tok-b" "ses-b" 5 empty_store) in
  "tok-b" <> "" /\
  fst (api_profile (sample_profile "x" "1990-01-01") 6 (Some "tok-b") s1) =
    inl (HTTPException 402 "Payment required").
Proof.
  cbv zeta.
  assert (Ht : "tok-b" <> "") by discriminate.
  split; [exact Ht|].
  refine (f_equal fst
    (checkout_alone_does_not_unlock_profile (CheckoutRequest.mk "b@example.com")
       "tok-b" "ses-b" 5 6 (sample_profile "x" "1990-01-01") empty_store Ht _)).
  intros d [].
Defined.

(** ** The caller's own profile *)

Lemma unique_ids_app_fresh {A} (n now : N) (l : list (Doc A)) (x : A) :
  ids_ok n l -> unique_ids (l ++ [mkDoc n now x]).
Proof.
  intros [Hnd Hlt]. unfold unique_ids. rewrite map_app. cbn [map _id].
  apply NoDup_app.
  - exact Hnd.
  - repeat constructor. intros [].
  - intros i Hi [<-|[]]. apply in_map_iff in Hi.
    destruct Hi as [d [Hid Hd]]. apply Hlt in Hd. lia.
Qed.

Lemma upsert_result
    (p : Profile.t) (now : N) (user : Doc Userauth.t) (s : Store) :
  Userauth.paid (body user) = true ->
  unique_ids (db_profile s) ->
  exists l1 d l2,
    db_profile (snd (create_or_update_profile p now user s)) = (l1 ++ d :: l2)%list /\
    (forall x, In x l1 -> owned_by (uid user) x = false) /\
    body d = Profile.set_userauth_id (uid user) p /\
    map _id (db_profile (snd (create_or_update_profile p now user s))) =
      (map _id (db_profile s) ++
       (if existsb (owned_by (uid user)) (db_profile s) then [] else [next_oid s]))%list.
Proof.
  intros Hpaid Hu.
  pose proof (create_or_update_profile_unfold p now user s Hpaid Hu) as H.
  cbv zeta in H.
  destruct (List.find (owned_by (uid user)) (db_profile s)) as [e|] eqn:Ef.
  - destruct H as [l1 [l2 [Hl [Hl1 [He [_ Hs]]]]]].
    exists l1, (mkDoc (_id e) (created_at e) (Profile.set_userauth_id (uid user) p)), l2.
    split; [exact Hs|]. split; [exact Hl1|]. split; [reflexivity|].
    assert (Hex : existsb (owned_by (uid user)) (db_profile s) = true).
    { apply existsb_exists. exists e. apply find_some in Ef. tauto. }
    rewrite Hex, Hs, Hl, app_nil_r, !map_app. reflexivity.
  - destruct H as [_ Hs].
    exists (db_profile s), (mkDoc (next_oid s) now (Profile.set_userauth_id (uid user) p)), [].
    split; [exact Hs|].
    split; [intros x Hx; now apply (find_none _ _ Ef)|].
    split; [reflexivity|].
    apply find_none_existsb in Ef. rewrite Ef, Hs, map_app. reflexivity.
Qed.

Lemma get_my_profile_unfold (user : Doc Userauth.t) (s : Store) :
  get_my_profile user s =
  (inr (option_map serialize (List.find (owned_by (uid user)) (db_profile s)),
        (Userauth.email (body user), Userauth.verified (body user))), s).
Proof. reflexivity. Qed.

(** X5: what a paid caller upserts is what [get_my_profile] gives back
    right after: the serialized document whose fields are those of the
    request with [userauth_id] set to the caller's own identifier. *)
Theorem upsert_then_get_my_profile
    (p : Profile.t) (now : N) (user : Doc Userauth.t) (s : Store) :
  Userauth.paid (body user) = true ->
  unique_ids (db_profile s) ->
  let s' := snd (create_or_update_profile p now user s) in
  exists d,
    In d (db_profile s') /\
    body d =
      Profile.mk (uid user) (Profile.full_name p) (Profile.gender p)
        (Profile.birth_date p) (Profile.marital_status p) (Profile.religion p)
        (Profile.islam_branch p) (Profile.religion_level p)
        (Profile.ethnicity p) (Profile.hobbies p) (Profile.height_cm p)
        (Profile.weight_kg p) (Profile.wears_glasses p)
        (Profile.address_origin p) (Profile.address_current p)
        (Profile.siblings_count p) (Profile.family_condition p)
        (Profile.health_history p) (Profile.health_notes p)
        (Profile.occupation p) (Profile.side_hustle p)
        (Profile.income_range p) (Profile.education_level p)
        (Profile.bahasa_indonesia p) (Profile.bahasa_inggris p)
        (Profile.bahasa_arab p) (Profile.bahasa_daerah p)
        (Profile.bahasa_lain p) (Profile.child_plan p)
        (Profile.love_languages p) (Profile.smoke p) (Profile.alcohol p)
        (Profile.diet p) (Profile.physical_activity p) (Profile.sleep_habit p)
        (Profile.time_management p) (Profile.shopping_habit p)
        (Profile.instagram p) (Profile.facebook p) (Profile.linkedin p)
        (Profile.tiktok p) (Profile.city p) (Profile.country p)
        (Profile.photo_url p) /\
    get_my_profile user s' =
      (inr (Some (serialize d),
            (Userauth.email (body user), Userauth.verified (body user))), s').
Proof.
  intros Hpaid Hu. cbv zeta.
  fold (Profile.set_userauth_id (uid user) p).
  destruct (upsert_result p now user s Hpaid Hu) as [l1 [d [l2 [Hs [Hl1 [Hd _]]]]]].
  exists d. split; [rewrite Hs; apply in_or_app; right; now left|].
  split; [exact Hd|].
  rewrite get_my_profile_unfold, Hs.
  rewrite find_app_none by now apply find_none_forall.
  cbn [List.find]. unfold owned_by at 1. rewrite Hd.
  cbn [Profile.userauth_id Profile.set_userauth_id]. now rewrite String.eqb_refl.
Qed.

Lemma upsert_then_get_my_profile_witness :
  let a := sample_user 1 "tok-a" true in
  let s := mkStore [a] [] [] [] [] 2 in
  Userauth.paid (body a) = true /\ unique_ids (db_profile s) /\
  exists d, body d = sample_profile "000000000000000000000001" "1990-01-01" /\
            fst (get_my_profile a
                   (snd (create_or_update_profile (sample_profile "x" "1990-01-01") 3 a s))) =
              inr (Some (serialize d), ("user@example.com", false)).
Proof.
  cbv zeta.
  assert (Hu : unique_ids (@nil (Doc Profile.t))) by constructor.
  split; [reflexivity|]. split; [exact Hu|].
  destruct (upsert_then_get_my_profile (sample_profile "x" "1990-01-01") 3
              (sample_user 1 "tok-a" true)
              (mkStore [sample_user 1 "tok-a" true] [] [] [] [] 2) eq_refl Hu)
    as [d [_ [Hd Hg]]].
  exists d. split; [exact Hd|]. now rewrite Hg.
Defined.

Lemma upsert_keeps_unique_ids
    (p : Profile.t) (now : N) (user : Doc Userauth.t) (s : Store) :
  Userauth.paid (body user) = true ->
  ids_ok (next_oid s) (db_profile s) ->
  unique_ids (db_profile (snd (create_or_update_profile p now user s))).
Proof.
  intros Hpaid Hok. pose proof Hok as [Hu Hlt].
  destruct (upsert_result p now user s Hpaid Hu) as [_ [_ [_ [_ [_ [_ Hids]]]]]].
  unfold unique_ids. rewrite Hids.
  destruct (existsb _ (db_profile s)).
  - now rewrite app_nil_r.
  - pose proof (unique_ids_app_fresh (next_oid s) 0%N (db_profile s)
                  (Profile.set_userauth_id (uid user) p) Hok) as H.
    unfold unique_ids in H. rewrite map_app in H. exact H.
Qed.

(** X6: a second upsert by the same paid caller overwrites: it answers
    "updated", the collection keeps exactly the same document
    identifiers, and the caller's profile read back is the second
    request's. *)
Theorem second_upsert_overwrites
    (p1 p2 : Profile.t) (now1 now2 : N) (user : Doc Userauth.t) (s : Store) :
  Userauth.paid (body user) = true ->
  wf_store s ->
  let s1 := snd (create_or_update_profile p1 now1 user s) in
  let out2 := create_or_update_profile p2 now2 user s1 in
  fst out2 = inr "updated" /\
  map _id (db_profile (snd out2)) = map _id (db_profile s1) /\
  exists d,
    In d (db_profile (snd out2)) /\
    body d =
      Profile.mk (uid user) (Profile.full_name p2) (Profile.gender p2)
        (Profile.birth_date p2) (Profile.marital_status p2)
        (Profile.religion p2) (Profile.islam_branch p2)
        (Profile.religion_level p2) (Profile.ethnicity p2)
        (Profile.hobbies p2) (Profile.height_cm p2) (Profile.weight_kg p2)
        (Profile.wears_glasses p2) (Profile.address_origin p2)
        (Profile.address_current p2) (Profile.siblings_count p2)
        (Profile.family_condition p2) (Profile.health_history p2)
        (Profile.health_notes p2) (Profile.occupation p2)
        (Profile.side_hustle p2) (Profile.income_range p2)
        (Profile.education_level p2) (Profile.bahasa_indonesia p2)
        (Profile.bahasa_inggris p2) (Profile.bahasa_arab p2)
        (Profile.bahasa_daerah p2) (Profile.bahasa_lain p2)
        (Profile.child_plan p2) (Profile.love_languages p2) (Profile.smoke p2)
        (Profile.alcohol p2) (Profile.diet p2) (Profile.physical_activity p2)
        (Profile.sleep_habit p2) (Profile.time_management p2)
        (Profile.shopping_habit p2) (Profile.instagram p2)
        (Profile.facebook p2) (Profile.linkedin p2) (Profile.tiktok p2)
        (Profile.city p2) (Profile.country p2) (Profile.photo_url p2) /\
    fst (get_my_profile user (snd out2)) =
      inr (Some (serialize d),
           (Userauth.email (body user), Userauth.verified (body user))).
Proof.
  intros Hpaid Hwf. cbv zeta.
  fold (Profile.set_userauth_id (uid user) p2).
  destruct Hwf as [_ [Hok _]]. pose proof Hok as [Hu _].
  pose proof (upsert_keeps_unique_ids p1 now1 user s Hpaid Hok) as Hu1.
  destruct (upsert_result p1 now1 user s Hpaid Hu) as [l1 [d1 [l2 [Hs1 [Hl1 [Hd1 _]]]]]].
  set (s1 := snd (create_or_update_profile p1 now1 user s)) in *.
  assert (Hfind : List.find (owned_by (uid user)) (db_profile s1) = Some d1).
  { rewrite Hs1. rewrite find_app_none by now apply find_none_forall.
    cbn [List.find]. unfold owned_by at 1. rewrite Hd1.
    cbn [Profile.userauth_id Profile.set_userauth_id]. now rewrite String.eqb_refl. }
  pose proof (create_or_update_profile_unfold p2 now2 user s1 Hpaid Hu1) as H.
  cbv zeta in H. rewrite Hfind in H.
  destruct H as [k1 [k2 [Hk [Hk1 [_ [Hr Hs2]]]]]].
  split; [exact Hr|].
  split; [rewrite Hs2, Hk, !map_app; reflexivity|].
  exists (mkDoc (_id d1) (created_at d1) (Profile.set_userauth_id (uid user) p2)).
  split; [rewrite Hs2; apply in_or_app; right; now left|].
  split; [reflexivity|].
  rewrite get_my_profile_unfold. cbn [fst]. rewrite Hs2.
  rewrite find_app_none by now apply find_none_forall.
  cbn [List.find]. unfold owned_by at 1.
  cbn [body Profile.userauth_id Profile.set_userauth_id]. now rewrite String.eqb_refl.
Qed.

Lemma second_upsert_overwrites_witness :
  let a := sample_user 1 "tok-a" true in
  let s := mkStore [a] [] [] [] [] 2 in
  let s1 := snd (create_or_update_profile (sample_profile "x" "1990-01-01") 3 a s) in
  let out2 := create_or_update_profile (sample_profile "y" "1991-01-01") 4 a s1 in
  Userauth.paid (body a) = true /\ wf_store s /\
  fst out2 = inr "updated" /\
  map _id (db_profile (snd out2)) = [2%N] /\
  exists d, body d = sample_profile "000000000000000000000001" "1991-01-01" /\
            fst (get_my_profile a (snd out2)) =
              inr (Some (serialize d), ("user@example.com", false)).
Proof.
  cbv zeta.
  assert (Hwf : wf_store (mkStore [sample_user 1 "tok-a" true] [] [] [] [] 2)).
  { unfold wf_store; cbn [db_userauth db_profile db_like db_match
                          db_message next_oid].
    repeat split_and; solve_ids_ok. }
  split; [reflexivity|]. split; [exact Hwf|].
  destruct (second_upsert_overwrites (sample_profile "x" "1990-01-01")
              (sample_profile "y" "1991-01-01") 3 4
              (sample_user 1 "tok-a" true) _ eq_refl Hwf)
    as [Hr [Hids [d [_ [Hd Hg]]]]].
  split; [exact Hr|]. split; [exact Hids|].
  exists d. split; [exact Hd | exact Hg].
Defined.

(** ** Search: cards, errors and bounds *)

Lemma lookup_owner_verified (users : list (Doc Userauth.t)) (owner : string)
      (ua : option (Doc Userauth.t)) :
  lookup_owner users owner = inr ua -> owner_verified ua = true ->
  exists u, In u users /\ ObjectId.make owner = Some (_id u) /\
            Userauth.verified (body u) = true.
Proof.
  unfold lookup_owner, owner_verified.
  destruct (owner =? ""); [intros H; injection H as <-; discriminate|].
  destruct (ObjectId.parse owner) as [bytes|] eqn:Hp; [|discriminate].
  intros H Hv. injection H as <-.
  destruct (List.find _ users) as [u|] eqn:Ef; [|discriminate].
  apply find_some in Ef. destruct Ef as [Hin Hid].
  exists u. split; [exact Hin|].
  split; [now apply (parse_make owner bytes) | exact Hv].
Qed.

Lemma build_cards_spec (age_of : string -> option Z) (only_verified : bool)
      (users : list (Doc Userauth.t)) (profiles : list (Doc Profile.t))
      (cards : list Card) :
  build_cards age_of only_verified users profiles = inr cards ->
  (only_verified = true -> forall c, In c cards -> card_verified c = true) /\
  (forall c, In c cards ->
     exists r, In r profiles /\ c = card_of age_of r (card_verified c) /\
       (card_verified c = true ->
        exists u, In u users /\
                  ObjectId.make (Profile.userauth_id (body r)) = Some (_id u) /\
                  Userauth.verified (body u) = true)) /\
  (only_verified = false ->
   map card_userauth_id cards = map (fun r => Profile.userauth_id (body r)) profiles).
Proof.
  revert cards. induction profiles as [|r rest IH]; intros cards H.
  - injection H as <-. repeat split; intros; try contradiction; reflexivity.
  - cbn [build_cards] in H.
    destruct (lookup_owner users (Profile.userauth_id (body r))) as [bad|ua] eqn:El;
      [discriminate|].
    destruct (build_cards age_of only_verified users rest) as [bad|cs] eqn:Eb;
      [discriminate|].
    destruct (IH cs eq_refl) as [IH1 [IH2 IH3]].
    destruct (only_verified && negb (owner_verified ua)) eqn:Eskip.
    + injection H as <-.
      apply andb_true_iff in Eskip. destruct Eskip as [Hvo _].
      split; [exact IH1|]. split.
      * intros c Hc. destruct (IH2 c Hc) as [r' [Hr' Hrest]].
        exists r'. split; [now right | exact Hrest].
      * intros Hf. congruence.
    + injection H as <-. split; [|split].
      * intros Hvo c [<-|Hc]; [|now apply IH1].
        rewrite Hvo in Eskip. cbn [andb] in Eskip.
        cbn [card_of card_verified]. now destruct (owner_verified ua).
      * intros c [<-|Hc].
        -- exists r. split; [now left|]. split; [reflexivity|].
           cbn [card_of card_verified]. now apply lookup_owner_verified.
        -- destruct (IH2 c Hc) as [r' [Hr' Hrest]].
           exists r'. split; [now right | exact Hrest].
      * intros Hf. cbn [map card_of card_userauth_id]. f_equal. now apply IH3.
Qed.

Lemma search_profiles_find_store
    (regex_search : string -> string -> string -> bool)
    (today : Datetime.date) (a : SearchArgs) (user : Doc Userauth.t) (s : Store) :
  snd (search_profiles_find regex_search today a user s) = s.
Proof.
  unfold search_profiles_find. now destruct (search_query today a).
Qed.


(** X7: a successful search never writes, and its cards are honest: each
    card is built from a stored profile; a card is marked verified only
    when the profile's owner is a stored identity with the verified flag;
    with [verified_only] every card is marked verified, and without it
    there is one card per candidate profile, in the same order. *)
Theorem search_cards_are_honest
    (age_of : string -> option Z)
    (regex_search : string -> string -> string -> bool)
    (today : Datetime.date) (a : SearchArgs) (user : Doc Userauth.t)
    (s : Store) (cards : list Card) :
  fst (search_profiles age_of regex_search today a user s) = inr cards ->
  snd (search_profiles age_of regex_search today a user s) = s /\
  (verified_only a = true -> forall c, In c cards -> card_verified c = true) /\
  (forall c, In c cards ->
     exists r, In r (db_profile s) /\ c = card_of age_of r (card_verified c) /\
       (card_verified c = true ->
        exists u, In u (db_userauth s) /\
                  ObjectId.make (Profile.userauth_id (body r)) = Some (_id u) /\
                  Userauth.verified (body u) = true)) /\
  (verified_only a = false ->
   exists ps, fst (search_profiles_find regex_search today a user s) = inr ps /\
              map card_userauth_id cards =
              map (fun r => Profile.userauth_id (body r)) ps).
Proof.
  unfold search_profiles.
  pose proof (search_profiles_find_store regex_search today a user s) as Hs.
  destruct (search_profiles_find regex_search today a user s) as [[e|ps] s'] eqn:Ef;
    cbn [snd] in Hs; subst s'; [discriminate|].
  destruct (build_cards age_of (verified_only a) (db_userauth s) ps) as [bad|cs] eqn:Eb;
    [discriminate|].
  cbn [fst snd]. intros H. injection H as <-.
  destruct (build_cards_spec _ _ _ _ _ Eb) as [H1 [H2 H3]].
  split; [reflexivity|]. split; [exact H1|]. split.
  - intros c Hc. destruct (H2 c Hc) as [r [Hr Hrest]].
    exists r. split; [|exact Hrest].
    assert (Hps : fst (search_profiles_find regex_search today a user s) = inr ps)
      by now rewrite Ef.
    now apply (search_candidates _ _ _ _ _ _ Hps r).
  - intros Hf. exists ps. split; [reflexivity | now apply H3].
Qed.

Lemma search_cards_are_honest_witness :
  let v := mkDoc 1%N 0%N (Userauth.mk "user@example.com" None (Some "tok-a")
                                      true "tok-a" true) in
  let r := mkDoc 2%N 0%N (sample_profile (uid v) "1990-01-01") in
  let s := mkStore [v] [r] [] [] [] 3 in
  let args := mkSearchArgs None None None None None None None None None true in
  let c := mkCard "Sari" (Some 34%Z) (Some "Jakarta") None "Islam" "Moderat"
                  None None (uid v) true in
  fst (search_profiles (fun _ => Some 34%Z) (fun _ _ _ => true)
         (Datetime.mk 2024 6 15) args v s) = inr [c] /\
  exists r', In r' (db_profile s) /\
             c = card_of (fun _ => Some 34%Z) r' true /\
             exists u, In u (db_userauth s) /\
                       ObjectId.make (Profile.userauth_id (body r')) = Some (_id u) /\
                       Userauth.verified (body u) = true.
Proof.
  cbv zeta. split; [reflexivity|].
  destruct (proj1 (proj2 (proj2
    (search_cards_are_honest (fun _ => Some 34%Z) (fun _ _ _ => true)
       (Datetime.mk 2024 6 15)
       (mkSearchArgs None None None None None None None None None true)
       (mkDoc 1%N 0%N (Userauth.mk "user@example.com" None (Some "tok-a")
                                   true "tok-a" true))
       (mkStore [mkDoc 1%N 0%N (Userauth.mk "user@example.com" None (Some "tok-a")
                                            true "tok-a" true)]
                [mkDoc 2%N 0%N (sample_profile (ObjectId.str 1) "1990-01-01")]
                [] [] [] 3)
       [mkCard "Sari" (Some 34%Z) (Some "Jakarta") None "Islam" "Moderat"
               None None (ObjectId.str 1) true]
       eq_refl)))
    (mkCard "Sari" (Some 34%Z) (Some "Jakarta") None "Islam" "Moderat"
            None None (ObjectId.str 1) true)
    (or_introl eq_refl)) as [r' [Hin [Hc Hv]]].
  exists r'. split; [exact Hin|]. split; [exact Hc|]. exact (Hv eq_refl).
Defined.



(** X9: negative age bounds count as 0.  Two requests that agree on every
    other parameter, and whose age bounds agree once negative values are
    raised to 0, get the same answer. *)
Theorem search_clamps_negative_ages
    (regex_search : string -> string -> string -> bool)
    (today : Datetime.date) (a a' : SearchArgs) (user : Doc Userauth.t) (s : Store) :
  option_map (fun n => Z.max n 0) (age_min a) =
    option_map (fun n => Z.max n 0) (age_min a') ->
  option_map (fun n => Z.max n 0) (age_max a) =
    option_map (fun n => Z.max n 0) (age_max a') ->
  city a = city a' -> religion a = religion a' ->
  religion_level a = religion_level a' ->
  education_level a = education_level a' ->
  occupation a = occupation a' -> income_range a = income_range a' ->
  diet a = diet a' ->
  search_profiles_find regex_search today a user s =
  search_profiles_find regex_search today a' user s.
Proof.
  intros Hmin Hmax Hc Hr Hrl He Ho Hi Hd.
  unfold search_profiles_find, search_query.
  rewrite Hc, Hr, Hrl, He, Ho, Hi, Hd.
  assert (Hdf : date_filter today a = date_filter today a').
  { unfold date_filter, opt_cutoff, cutoff.
    destruct (age_min a) as [x|], (age_min a') as [x'|]; try discriminate;
    destruct (age_max a) as [y|], (age_max a') as [y'|]; try discriminate;
      cbn [option_map] in Hmin, Hmax;
      try (injection Hmin as Hmin; rewrite Hmin);
      try (injection Hmax as Hmax; rewrite Hmax); reflexivity. }
  now rewrite Hdf.
Qed.

Lemma search_clamps_negative_ages_witness :
  let s := mkStore [] [mkDoc 1%N 0%N (sample_profile "x" "2030-01-01")] [] [] [] 2 in
  search_profiles_find (fun _ _ _ => true) (Datetime.mk 2024 6 15)
    (age_request (Some (-7)%Z) None) (sample_user 1 "tok-a" true) s =
  search_profiles_find (fun _ _ _ => true) (Datetime.mk 2024 6 15)
    (age_request (Some 0%Z) None) (sample_user 1 "tok-a" true) s.
Proof.
  cbv zeta.
  apply search_clamps_negative_ages; reflexivity.
Defined.

(** X10: parameters that are absent or empty strings put no constraint:
    a request whose string filters are all absent or empty and that sets
    no age bound returns every stored profile, in storage order. *)
Theorem search_without_filters_returns_all
    (regex_search : string -> string -> string -> bool)
    (today : Datetime.date) (a : SearchArgs) (user : Doc Userauth.t) (s : Store) :
  age_min a = None -> age_max a = None ->
  truthy (city a) = false -> truthy (religion a) = false ->
  truthy (religion_level a) = false -> truthy (education_level a) = false ->
  truthy (occupation a) = false -> truthy (income_range a) = false ->
  truthy (diet a) = false ->
  search_profiles_find regex_search today a user s = (inr (db_profile s), s).
Proof.
  intros Hmin Hmax Hc Hr Hrl He Ho Hi Hd.
  unfold search_profiles_find, search_query, date_filter, if_truthy.
  rewrite Hmin, Hmax, Hc, Hr, Hrl, He, Ho, Hi, Hd.
  unfold find; cbn [docs profile]. f_equal.
  f_equal. induction (db_profile s) as [|d l IH]; [reflexivity|].
  cbn [filter]. unfold matches_query at 1.
  cbn [q_city q_religion q_religion_level q_education_level q_occupation
       q_income_range q_diet q_birth_date regex_constraint eq_constraint
       date_constraint andb].
  now rewrite IH.
Qed.

Lemma search_without_filters_returns_all_witness :
  let s := mkStore [] [mkDoc 1%N 0%N (sample_profile "x" "2030-01-01")] [] [] [] 2 in
  let a := mkSearchArgs None None (Some "") None None None None None (Some "") false in
  truthy (city a) = false /\
  fst (search_profiles_find (fun _ _ _ => false) (Datetime.mk 2024 6 15) a
         (sample_user 1 "tok-a" true) s) = inr (db_profile s).
Proof.
  cbv zeta. split; [reflexivity|].
  refine (f_equal fst (search_without_filters_returns_all _ _ _ _ _ _ _ _ _ _ _ _ _ _));
    reflexivity.
Defined.

(** ** Matches and chat *)

Lemma get_matches_unfold (user : Doc Userauth.t) (s : Store) :
  get_matches user s =
  (inr (map serialize (filter (involves (uid user)) (db_match s))), s).
Proof. reflexivity. Qed.

Lemma joins_involves (x y : string) (m : Doc Match.t) :
  joins x y m = true -> involves x m = true /\ involves y m = true.
Proof.
  unfold joins, involves.
  destruct (String.eqb_spec (Match.userauth_a (body m)) x),
           (String.eqb_spec (Match.userauth_b (body m)) y),
           (String.eqb_spec (Match.userauth_a (body m)) y),
           (String.eqb_spec (Match.userauth_b (body m)) x);
    simpl; intros H; try discriminate; split; reflexivity.
Qed.

Lemma like_user_records_edge (payload : Like.t) (now : N) (user : Doc Userauth.t) (s : Store) :
  uid user <> Like.to_userauth_id payload ->
  like_edge (snd (like_user payload now user s)) (uid user) (Like.to_userauth_id payload) = true.
Proof.
  intros Hne. rewrite like_user_unfold. cbv zeta.
  rewrite (string_eqb_false _ _ Hne).
  destruct (like_edge s _ _); [destruct (existsb _ _)|]; cbn [snd];
    rewrite ?like_edge_liked, ?like_edge_matched, !String.eqb_refl;
    apply orb_true_r.
Qed.

Lemma like_user_match_exists (payload : Like.t) (now : N) (user : Doc Userauth.t) (s : Store) :
  uid user <> Like.to_userauth_id payload ->
  like_edge s (Like.to_userauth_id payload) (uid user) = true ->
  fst (like_user payload now user s) = inr "match" /\
  existsb (joins (uid user) (Like.to_userauth_id payload))
          (db_match (snd (like_user payload now user s))) = true.
Proof.
  intros Hne Hrev. rewrite like_user_unfold. cbv zeta.
  rewrite (string_eqb_false _ _ Hne), Hrev.
  destruct (existsb _ (db_match s)) eqn:Hex; cbn [fst snd].
  - split; [reflexivity|]. exact Hex.
  - split; [reflexivity|]. unfold matched_store; cbn [db_match].
    rewrite existsb_app. cbn [existsb]. unfold joins at 2.
    cbn [body Match.userauth_a Match.userauth_b].
    rewrite !String.eqb_refl. cbn. apply orb_true_r.
Qed.

(** X11: when [a] likes [b] and then [b] likes [a], the second call
    answers "match" and both of them find a Match edge for their pair in
    [get_matches] afterwards, whatever the store held before. *)
Theorem mutual_like_is_listed_for_both
    (a b : Doc Userauth.t) (f1 f2 : string) (now1 now2 : N) (s : Store) :
  uid a <> uid b ->
  let s1 := snd (like_user (Like.mk f1 (uid b)) now1 a s) in
  let out := like_user (Like.mk f2 (uid a)) now2 b s1 in
  fst out = inr "match" /\
  exists m, In m (db_match (snd out)) /\ joins (uid a) (uid b) m = true /\
            (exists la, fst (get_matches a (snd out)) = inr la /\ In (serialize m) la) /\
            (exists lb, fst (get_matches b (snd out)) = inr lb /\ In (serialize m) lb).
Proof.
  intros Hne. cbv zeta.
  pose proof (like_user_records_edge (Like.mk f1 (uid b)) now1 a s Hne) as Hedge.
  cbn [Like.to_userauth_id] in Hedge.
  destruct (like_user_match_exists (Like.mk f2 (uid a)) now2 b _
              (not_eq_sym Hne) Hedge) as [Hr Hex].
  cbn [Like.to_userauth_id] in Hex.
  split; [exact Hr|].
  set (s2 := snd (like_user (Like.mk f2 (uid a)) now2 b
                    (snd (like_user (Like.mk f1 (uid b)) now1 a s)))) in *.
  clearbody s2.
  apply existsb_exists in Hex. destruct Hex as [m [Hin Hj]].
  rewrite joins_sym in Hj.
  destruct (joins_involves _ _ _ Hj) as [Ha Hb].
  exists m. split; [exact Hin|]. split; [exact Hj|].
  rewrite !get_matches_unfold. cbn [fst].
  split.
  - exists (map serialize (filter (involves (uid a)) (db_match s2))).
    split; [reflexivity|]. apply in_map. apply filter_In. auto.
  - exists (map serialize (filter (involves (uid b)) (db_match s2))).
    split; [reflexivity|]. apply in_map. apply filter_In. auto.
Qed.

Lemma mutual_like_is_listed_for_both_witness :
  let a := sample_user 1 "tok-a" true in
  let b := sample_user 2 "tok-b" true in
  uid a <> uid b /\
  fst (like_user (Like.mk "" (uid a)) 8 b
         (snd (like_user (Like.mk "" (uid b)) 7 a empty_store))) = inr "match".
Proof.
  cbv zeta.
  assert (Hne : uid (sample_user 1 "tok-a" true) <> uid (sample_user 2 "tok-b" true))
    by (vm_compute; discriminate).
  split; [exact Hne|].
  exact (proj1 (mutual_like_is_listed_for_both _ _ "" "" 7 8 empty_store Hne)).
Defined.

Lemma participant_involves (user : Doc Userauth.t) (m : Doc Match.t) :
  participant user m = involves (uid user) m.
Proof.
  unfold participant, involves. cbn [existsb].
  rewrite orb_false_r.
  now rewrite (String.eqb_sym (uid user) (Match.userauth_a (body m))),
              (String.eqb_sym (uid user) (Match.userauth_b (body m))).
Qed.

(** X12: every entry that [get_matches] lists for a user opens the chat
    for that user: the listed identifier string, given back to
    [send_message] or [get_messages], is found and the user passes the
    participant check (identifiers of stored matches being distinct and
    12 bytes wide). *)
Theorem listed_match_opens_chat
    (user : Doc Userauth.t) (s : Store) (entry : string * N * Match.t)
    (text : string) (now : N) :
  unique_ids (db_match s) ->
  (forall d, In d (db_match s) -> (_id d < ObjectId.bound)%N) ->
  (exists l, fst (get_matches user s) = inr l /\ In entry l) ->
  let mid := fst (fst entry) in
  fst (send_message (ChatMessage.mk mid text) now user s) = inr "sent" /\
  exists msgs, get_messages mid user s = (inr msgs, s).
Proof.
  intros Hu Hb [l [Hl Hin]]. cbv zeta.
  rewrite get_matches_unfold in Hl. injection Hl as <-.
  apply in_map_iff in Hin. destruct Hin as [m [<- Hm]].
  apply filter_In in Hm. destruct Hm as [Hm Hinv].
  cbn [serialize fst].
  assert (Hfm : find_match (ObjectId.str (_id m)) s = (inr (Some m), s)).
  { apply find_match_present; [exact Hu | exact Hm |]. apply make_str. now apply Hb. }
  rewrite send_message_unfold, get_messages_unfold.
  cbn [ChatMessage.match_id]. rewrite Hfm. cbn [fst].
  rewrite participant_involves, Hinv.
  split; [reflexivity|]. eexists. reflexivity.
Qed.

Lemma listed_match_opens_chat_witness :
  let a := sample_user 1 "tok-a" true in
  let m := mkDoc 10%N 0%N (Match.mk (ObjectId.str 1) (ObjectId.str 2)) in
  let s := mkStore [a] [] [] [m] [] 11 in
  unique_ids (db_match s) /\
  (forall d, In d (db_match s) -> (_id d < ObjectId.bound)%N) /\
  fst (send_message (ChatMessage.mk (ObjectId.str 10) "hi") 20 a s) = inr "sent".
Proof.
  cbv zeta.
  assert (Hu : unique_ids [mkDoc 10%N 0%N (Match.mk (ObjectId.str 1) (ObjectId.str 2))]).
  { unfold unique_ids; cbn [map _id]. constructor; [cbn [In]; tauto | constructor]. }
  assert (Hb : forall d, In d [mkDoc 10%N 0%N (Match.mk (ObjectId.str 1) (ObjectId.str 2))] ->
                         (_id d < ObjectId.bound)%N).
  { intros d [<-|[]]. reflexivity. }
  split; [exact Hu|]. split; [exact Hb|].
  refine (proj1 (listed_match_opens_chat (sample_user 1 "tok-a" true)
                   (mkStore [sample_user 1 "tok-a" true] [] []
                      [mkDoc 10%N 0%N (Match.mk (ObjectId.str 1) (ObjectId.str 2))] [] 11)
                   (serialize (mkDoc 10%N 0%N (Match.mk (ObjectId.str 1) (ObjectId.str 2))))
                   "hi" 20 Hu Hb _)).
  eexists. split; [reflexivity|]. now left.
Defined.

Lemma insert_by_created_at_perm {A} (d : Doc A) (l : list (Doc A)) :
  Permutation (insert_by_created_at d l) (d :: l).
Proof.
  induction l as [|x l IH]; cbn [insert_by_created_at]; [apply Permutation_refl|].
  destruct (created_at d <? created_at x)%N; [apply Permutation_refl|].
  eapply Permutation_trans; [apply perm_skip, IH | apply perm_swap].
Qed.

Lemma sort_by_created_at_perm {A} (l : list (Doc A)) :
  Permutation (sort_by_created_at l) l.
Proof.
  induction l as [|x l IH]; cbn; [apply Permutation_refl|].
  eapply Permutation_trans; [apply insert_by_created_at_perm|].
  now apply perm_skip.
Qed.

Lemma insert_by_created_at_sorted {A} (d : Doc A) (l : list (Doc A)) :
  sorted_by_created_at l -> sorted_by_created_at (insert_by_created_at d l).
Proof.
  induction l as [|x l IH]; cbn [insert_by_created_at sorted_by_created_at].
  - intros _. split; [intros y []|exact I].
  - intros [Hx Hl].
    destruct (N.ltb_spec (created_at d) (created_at x)) as [Hlt|Hge].
    + cbn [sorted_by_created_at]. split; [|now split].
      intros y [<-|Hy]; [lia|]. specialize (Hx y Hy). lia.
    + cbn [sorted_by_created_at]. split; [|now apply IH].
      intros y Hy.
      apply (Permutation_in _ (insert_by_created_at_perm d l)) in Hy.
      destruct Hy as [<-|Hy]; [exact Hge | now apply Hx].
Qed.

Lemma sort_by_created_at_sorted {A} (l : list (Doc A)) :
  sorted_by_created_at (sort_by_created_at l).
Proof.
  induction l as [|x l IH]; cbn; [exact I|].
  now apply insert_by_created_at_sorted.
Qed.

(** X13: a history that [get_messages] returns is complete and ordered:
    it is the serialization of a rearrangement of exactly the stored
    messages carrying the requested [match_id] string, creation times
    never decrease along it, and nothing is written. *)
Theorem history_is_complete_and_ordered
    (mid : string) (user : Doc Userauth.t) (s : Store)
    (msgs : list (string * N * Message.t)) :
  fst (get_messages mid user s) = inr msgs ->
  snd (get_messages mid user s) = s /\
  exists sorted,
    msgs = map serialize sorted /\
    sorted_by_created_at sorted /\
    Permutation sorted
      (filter (fun d => Message.match_id (body d) =? mid) (db_message s)).
Proof.
  rewrite get_messages_unfold.
  destruct (fst (find_match mid s)) as [e|[m|]]; try discriminate.
  destruct (participant user m); [|discriminate].
  cbn [fst snd]. intros H. injection H as <-.
  split; [reflexivity|].
  eexists. split; [reflexivity|].
  split; [apply sort_by_created_at_sorted | apply sort_by_created_at_perm].
Qed.

Lemma history_is_complete_and_ordered_witness :
  let a := sample_user 1 "tok-a" true in
  let m := mkDoc 10%N 0%N (Match.mk (ObjectId.str 1) (ObjectId.str 2)) in
  let mid := ObjectId.str 10 in
  let s := mkStore [a] [] [] [m]
             [mkDoc 11%N 9%N (Message.mk mid (ObjectId.str 2) "later");
              mkDoc 12%N 4%N (Message.mk mid (ObjectId.str 1) "sooner")] 13 in
  fst (get_messages mid a s) =
    inr [(ObjectId.str 12, 4%N, Message.mk mid (ObjectId.str 1) "sooner");
         (ObjectId.str 11, 9%N, Message.mk mid (ObjectId.str 2) "later")] /\
  snd (get_messages mid a s) = s.
Proof.
  cbv zeta.
  match goal with
  | |- ?G /\ _ => assert (H : G) by reflexivity
  end.
  split; [exact H|].
  exact (proj1 (history_is_complete_and_ordered _ _ _ _ H)).
Defined.

(** X14: a message that [send_message] accepts is in the history the
    sender reads right after, with the sender's identifier, the request's
    [match_id] and text, and the creation time of the call. *)
Theorem sent_message_is_in_history
    (msg : ChatMessage.t) (now : N) (user : Doc Userauth.t) (s : Store) :
  fst (send_message msg now user s) = inr "sent" ->
  let s' := snd (send_message msg now user s) in
  exists msgs,
    get_messages (ChatMessage.match_id msg) user s' = (inr msgs, s') /\
    In (ObjectId.str (next_oid s), now,
        Message.mk (ChatMessage.match_id msg) (uid user) (ChatMessage.text msg))
       msgs.
Proof.
  cbv zeta. rewrite send_message_unfold.
  pose proof (find_match_unfold (ChatMessage.match_id msg) s) as Hfm.
  destruct (find_match (ChatMessage.match_id msg) s) as [[e|[m|]] s0] eqn:Ef;
    cbn [fst]; try discriminate.
  destruct (participant user m) eqn:Hp; [|discriminate].
  intros _. cbn [snd].
  rewrite get_messages_unfold, find_match_unfold. cbn [db_match fst].
  injection Hfm as Hfm _. rewrite <- Hfm, Hp.
  eexists. split; [reflexivity|].
  cbn [db_message].
  apply (in_map serialize _
           (mkDoc (next_oid s) now
              (Message.mk (ChatMessage.match_id msg) (uid user) (ChatMessage.text msg)))).
  apply (Permutation_in _ (Permutation_sym (sort_by_created_at_perm _))).
  apply filter_In. split.
  - apply in_or_app. right. now left.
  - cbn [body Message.match_id]. apply String.eqb_refl.
Qed.

Lemma sent_message_is_in_history_witness :
  let a := sample_user 1 "tok-a" true in
  let m := mkDoc 10%N 0%N (Match.mk (ObjectId.str 1) (ObjectId.str 2)) in
  let s := mkStore [a] [] [] [m] [] 11 in
  let msg := ChatMessage.mk (ObjectId.str 10) "hi" in
  fst (send_message msg 20 a s) = inr "sent" /\
  exists msgs,
    get_messages (ObjectId.str 10) a (snd (send_message msg 20 a s)) =
      (inr msgs, snd (send_message msg 20 a s)) /\
    In (ObjectId.str 11, 20%N, Message.mk (ObjectId.str 10) (uid a) "hi") msgs.
Proof.
  cbv zeta. split; [reflexivity|].
  exact (sent_message_is_in_history (ChatMessage.mk (ObjectId.str 10) "hi") 20
           (sample_user 1 "tok-a" true)
           (mkStore [sample_user 1 "tok-a" true] [] []
              [mkDoc 10%N 0%N (Match.mk (ObjectId.str 1) (ObjectId.str 2))] [] 11)
           eq_refl).
Defined.

Lemma joins_cases (x y : string) (m : Doc Match.t) :
  joins x y m = true ->
  (Match.userauth_a (body m) = x /\ Match.userauth_b (body m) = y) \/
  (Match.userauth_a (body m) = y /\ Match.userauth_b (body m) = x).
Proof.
  unfold joins. rewrite orb_true_iff, !andb_true_iff, !String.eqb_eq. tauto.
Qed.

(** X15: a matched pair stays matched.  In a store where every Match edge
    is backed by its two Like edges, a further like between two matched
    identities answers "match" again and adds no Match edge. *)
Theorem like_between_matched_adds_no_match
    (payload : Like.t) (now : N) (user : Doc Userauth.t) (s : Store) :
  backed s ->
  uid user <> Like.to_userauth_id payload ->
  existsb (joins (uid user) (Like.to_userauth_id payload)) (db_match s) = true ->
  fst (like_user payload now user s) = inr "match" /\
  db_match (snd (like_user payload now user s)) = db_match s.
Proof.
  intros Hb Hne Hex. rewrite like_user_unfold. cbv zeta.
  rewrite (string_eqb_false _ _ Hne), Hex.
  assert (Hrev : like_edge s (Like.to_userauth_id payload) (uid user) = true).
  { apply existsb_exists in Hex. destruct Hex as [m [Hin Hj]].
    destruct (Hb m Hin) as [H1 H2].
    destruct (joins_cases _ _ _ Hj) as [[Ha Hbb]|[Ha Hbb]];
      rewrite Ha, Hbb in *; assumption. }
  rewrite Hrev. split; reflexivity.
Qed.

Lemma like_between_matched_adds_no_match_witness :
  let a := sample_user 1 "tok-a" true in
  let b := sample_user 2 "tok-b" true in
  let s := mkStore [a; b] []
             [mkDoc 3%N 0%N (Like.mk (uid a) (uid b));
              mkDoc 4%N 1%N (Like.mk (uid b) (uid a))]
             [mkDoc 5%N 1%N (Match.mk (uid b) (uid a))] [] 6 in
  backed s /\ uid a <> uid b /\
  db_match (snd (like_user (Like.mk "" (uid b)) 9 a s)) = db_match s.
Proof.
  cbv zeta.
  assert (Hne : uid (sample_user 1 "tok-a" true) <> uid (sample_user 2 "tok-b" true))
    by (vm_compute; discriminate).
  match goal with
  | |- backed ?s /\ _ => assert (Hb : backed s)
  end.
  { intros m [<-|[]]. split; reflexivity. }
  split; [exact Hb|]. split; [exact Hne|].
  exact (proj2 (like_between_matched_adds_no_match
                  (Like.mk "" (uid (sample_user 2 "tok-b" true))) 9
                  (sample_user 1 "tok-a" true) _ Hb Hne eq_refl)).
Defined.

(** ** The admin panel *)

Lemma store_eta (s : Store) :
  mkStore (db_userauth s) (db_profile s) (db_like s) (db_match s)
          (db_message s) (next_oid s) = s.
Proof. now destruct s. Qed.

Lemma filter_idem {A} (p : A -> bool) (l : list A) :
  filter p (filter p l) = filter p l.
Proof.
  induction l as [|x l IH]; simpl; [reflexivity|].
  destruct (p x) eqn:E; simpl; rewrite ?E, IH; reflexivity.
Qed.

Lemma remove_first_none {A} (p : A -> bool) (l : list A) :
  (forall d, In d l -> p d = false) -> remove_first p l = l.
Proof.
  intros H. induction l as [|x l IH]; simpl; [reflexivity|].
  rewrite (H x) by now left. f_equal. apply IH. intros d Hd. apply H. now right.
Qed.

Lemma unique_ids_inj {A} (l : list (Doc A)) (x y : Doc A) :
  unique_ids l -> In x l -> In y l -> _id x = _id y -> x = y.
Proof.
  intros Hu Hx Hy Heq.
  pose proof (find_by_id_unique l x Hu Hx) as Fx.
  pose proof (find_by_id_unique l y Hu Hy) as Fy.
  rewrite Heq in Fx. congruence.
Qed.

Lemma remove_first_unique_ids {A} (p : Doc A -> bool) (l : list (Doc A)) :
  unique_ids l -> unique_ids (remove_first p l).
Proof.
  unfold unique_ids. induction l as [|x l IH]; simpl; intros H; [exact H|].
  inversion H as [|? ? Hnotin Hnd]; subst.
  destruct (p x); [exact Hnd|].
  simpl. constructor; [|now apply IH].
  intros Hin. apply Hnotin. apply in_map_iff in Hin.
  destruct Hin as [d [Hid Hd]]. apply remove_first_incl in Hd.
  rewrite <- Hid. now apply in_map.
Qed.

Lemma remove_first_clears {A} (q : ObjectId.t -> bool) (l : list (Doc A)) :
  unique_ids l ->
  (forall a b, q a = true -> q b = true -> a = b) ->
  forall d, In d (remove_first (fun x => q (_id x)) l) -> q (_id d) = false.
Proof.
  unfold unique_ids. intros Hu Hq.
  induction l as [|y l IH]; cbn [remove_first]; intros d Hd; [contradiction|].
  cbn [map] in Hu. inversion Hu as [|? ? Hnotin Hnd]; subst.
  destruct (q (_id y)) eqn:Ey.
  - destruct (q (_id d)) eqn:Ed; [|reflexivity].
    exfalso. apply Hnotin. rewrite (Hq _ _ Ey Ed). now apply in_map.
  - destruct Hd as [<-|Hd]; [exact Ey | now apply IH].
Qed.

(** X16: [admin_delete_user] answers 400 and writes nothing exactly for
    the strings the [ObjectId] constructor refuses.  For every string it
    takes, repeating the deletion is harmless: the second call answers 404
    "User not found" and leaves the store exactly as the first call left
    it.  A string the constructor takes but reads fewer than twelve bytes
    from (24 characters with whitespace among them) gets 404 at the first
    call already, with every identity record kept. *)
Theorem delete_user_twice (userauth_id : string) (s : Store) :
  unique_ids (db_userauth s) ->
  (ObjectId.parse userauth_id = None ->
   admin_delete_user userauth_id s =
     (inl (HTTPException 400 "Invalid user id"), s)) /\
  (forall bytes, ObjectId.parse userauth_id = Some bytes ->
   fst (admin_delete_user userauth_id s) <>
     inl (HTTPException 400 "Invalid user id") /\
   let s1 := snd (admin_delete_user userauth_id s) in
   admin_delete_user userauth_id s1 =
     (inl (HTTPException 404 "User not found"), s1)) /\
  (forall bytes, ObjectId.parse userauth_id = Some bytes ->
   List.length bytes <> 12%nat ->
   fst (admin_delete_user userauth_id s) =
     inl (HTTPException 404 "User not found") /\
   db_userauth (snd (admin_delete_user userauth_id s)) = db_userauth s).
Proof.
  intros Hu. split; [|split].
  - intros Hp. now rewrite admin_delete_user_unfold, Hp.
  - intros bytes Hp. cbv zeta.
    rewrite (admin_delete_user_unfold userauth_id s), Hp. cbn [fst snd].
    split; [destruct (existsb _ _); discriminate|].
    rewrite admin_delete_user_unfold, Hp.
    assert (Hgone : forall d,
              In d (db_userauth (purged_store s userauth_id
                                   (fun d => ObjectId.equals bytes (_id d)))) ->
              ObjectId.equals bytes (_id d) = false).
    { intros d Hd. unfold purged_store in Hd; cbn [db_userauth] in Hd.
      exact (remove_first_clears (ObjectId.equals bytes) _ Hu
               (equals_same_id bytes) d Hd). }
    assert (Hex : existsb (fun d => ObjectId.equals bytes (_id d))
                    (db_userauth (purged_store s userauth_id
                                    (fun d => ObjectId.equals bytes (_id d)))) = false).
    { destruct (existsb _ _) eqn:E; [|reflexivity].
      apply existsb_exists in E. destruct E as [d [Hd Hid]].
      rewrite (Hgone d Hd) in Hid. discriminate. }
    rewrite Hex. f_equal.
    unfold purged_store at 1.
    rewrite (remove_first_none _ _ Hgone).
    unfold purged_store; cbn [db_userauth db_profile db_like db_match
                              db_message next_oid].
    now rewrite !filter_idem.
  - intros bytes Hp Hlen.
    rewrite admin_delete_user_unfold, Hp. cbn [fst snd].
    assert (Hno : forall d : Doc Userauth.t, ObjectId.equals bytes (_id d) = false).
    { intros d. unfold ObjectId.equals.
      now rewrite (proj2 (Nat.eqb_neq _ _) Hlen). }
    split.
    + destruct (existsb _ _) eqn:E; [|reflexivity].
      apply existsb_exists in E. destruct E as [d [_ Hid]].
      rewrite (Hno d) in Hid. discriminate.
    + unfold purged_store; cbn [db_userauth].
      apply remove_first_none. intros d _. apply Hno.
Qed.

Lemma delete_user_twice_witness :
  let s := mkStore [sample_user 1 "tok-a" true] [] [] [] [] 2 in
  let spaced := "00 00 00 00 00 00 00 01 " in
  unique_ids (db_userauth s) /\
  ObjectId.parse "not-an-id" = None /\
  admin_delete_user "not-an-id" s = (inl (HTTPException 400 "Invalid user id"), s) /\
  ObjectId.parse spaced = Some [0; 0; 0; 0; 0; 0; 0; 1]%N /\
  fst (admin_delete_user spaced s) = inl (HTTPException 404 "User not found") /\
  ObjectId.parse (ObjectId.str 1) = Some [0; 0; 0; 0; 0; 0; 0; 0; 0; 0; 0; 1]%N /\
  fst (admin_delete_user (ObjectId.str 1) s) = inr "deleted" /\
  fst (admin_delete_user (ObjectId.str 1)
         (snd (admin_delete_user (ObjectId.str 1) s))) =
    inl (HTTPException 404 "User not found").
Proof.
  cbv zeta.
  assert (Hu : unique_ids [sample_user 1 "tok-a" true]).
  { unfold unique_ids; cbn [map _id sample_user].
    constructor; [cbn [In]; tauto | constructor]. }
  split; [exact Hu|]. split; [reflexivity|].
  split.
  { exact (proj1 (delete_user_twice "not-an-id"
                    (mkStore [sample_user 1 "tok-a" true] [] [] [] [] 2) Hu) eq_refl). }
  split; [reflexivity|].
  split.
  { refine (proj1 (proj2 (proj2 (delete_user_twice "00 00 00 00 00 00 00 01 "
                    (mkStore [sample_user 1 "tok-a" true] [] [] [] [] 2) Hu))
                    [0; 0; 0; 0; 0; 0; 0; 1]%N eq_refl _)).
    cbn [List.length]. discriminate. }
  split; [reflexivity|]. split; [reflexivity|].
  exact (f_equal fst (proj2 (proj1 (proj2 (delete_user_twice (ObjectId.str 1)
                    (mkStore [sample_user 1 "tok-a" true] [] [] [] [] 2) Hu))
                    [0; 0; 0; 0; 0; 0; 0; 0; 0; 0; 0; 1]%N eq_refl))).
Defined.

(** X17: a deletion closes the chats of the matches that name the
    string it was given: for a stored Match edge with that string as a
    participant, both chat handlers answer 404 "Match not found" after
    [admin_delete_user], whoever asks, the other participant included.
    This holds for every string the [ObjectId] constructor takes. *)
Theorem chat_closed_after_delete
    (a_id : string) (bytes : list N) (s : Store) (m : Doc Match.t)
    (mid text : string) (now : N) (user : Doc Userauth.t) :
  ObjectId.parse a_id = Some bytes ->
  unique_ids (db_match s) ->
  In m (db_match s) -> involves a_id m = true ->
  ObjectId.make mid = Some (_id m) ->
  let s' := snd (admin_delete_user a_id s) in
  ~ In m (db_match s') /\
  send_message (ChatMessage.mk mid text) now user s' =
    (inl (HTTPException 404 "Match not found"), s') /\
  get_messages mid user s' = (inl (HTTPException 404 "Match not found"), s').
Proof.
  intros Hp Hu Hm Hinv Hmid. cbv zeta.
  rewrite admin_delete_user_unfold, Hp. cbn [snd].
  set (s' := purged_store s a_id (fun d => ObjectId.equals bytes (_id d))).
  assert (Hgone : forall m', In m' (db_match s') -> _id m' <> _id m).
  { intros m' Hm' Heq. unfold s', purged_store in Hm'; cbn [db_match] in Hm'.
    apply filter_In in Hm'. destruct Hm' as [Hm' Hkeep].
    assert (m' = m) by (apply (unique_ids_inj (db_match s)); assumption).
    subst m'. rewrite Hinv in Hkeep. discriminate. }
  assert (Habs : find_match mid s' = (inr None, s')).
  { apply find_match_absent. intros m' Hm' Heq.
    apply (Hgone m' Hm'). congruence. }
  split; [intros Hin; now apply (Hgone m Hin)|].
  rewrite send_message_unfold, get_messages_unfold.
  cbn [ChatMessage.match_id]. rewrite Habs. split; reflexivity.
Qed.

Lemma chat_closed_after_delete_witness :
  let b := sample_user 2 "tok-b" true in
  let m := mkDoc 10%N 0%N (Match.mk (ObjectId.str 1) (ObjectId.str 2)) in
  let s := mkStore [sample_user 1 "tok-a" true; b] [] [] [m] [] 11 in
  ObjectId.parse (ObjectId.str 1) = Some [0; 0; 0; 0; 0; 0; 0; 0; 0; 0; 0; 1]%N /\
  unique_ids (db_match s) /\ In m (db_match s) /\
  involves (ObjectId.str 1) m = true /\
  ObjectId.make (ObjectId.str 10) = Some (_id m) /\
  fst (get_messages (ObjectId.str 10) b (snd (admin_delete_user (ObjectId.str 1) s))) =
    inl (HTTPException 404 "Match not found").
Proof.
  cbv zeta.
  assert (Hu : unique_ids [mkDoc 10%N 0%N (Match.mk (ObjectId.str 1) (ObjectId.str 2))]).
  { unfold unique_ids; cbn [map _id]. constructor; [cbn [In]; tauto | constructor]. }
  assert (Hin : In (mkDoc 10%N 0%N (Match.mk (ObjectId.str 1) (ObjectId.str 2)))
                   [mkDoc 10%N 0%N (Match.mk (ObjectId.str 1) (ObjectId.str 2))])
    by now left.
  split; [reflexivity|]. split; [exact Hu|]. split; [exact Hin|].
  split; [reflexivity|]. split; [reflexivity|].
  exact (f_equal fst (proj2 (proj2
    (chat_closed_after_delete (ObjectId.str 1)
       [0; 0; 0; 0; 0; 0; 0; 0; 0; 0; 0; 1]%N
       (mkStore [sample_user 1 "tok-a" true; sample_user 2 "tok-b" true] [] []
          [mkDoc 10%N 0%N (Match.mk (ObjectId.str 1) (ObjectId.str 2))] [] 11)
       _ (ObjectId.str 10) "" 0 (sample_user 2 "tok-b" true)
       eq_refl Hu Hin eq_refl eq_refl)))).
Defined.

(** X18: the cascade follows the identifier string, the final removal
    follows the parsed identifier.  When the string given is not the
    string the store writes for that identifier (upper-case digits parse
    too), the identity record is removed while the profiles it owns and
    the messages it sent all stay, and so does every Like and Match edge
    it has with an identity other than the given string. *)
Theorem delete_by_other_spelling_leaves_dependents
    (a_id : string) (oid : ObjectId.t) (u : Doc Userauth.t) (s : Store) :
  ObjectId.make a_id = Some oid ->
  a_id <> ObjectId.str oid ->
  unique_ids (db_userauth s) ->
  In u (db_userauth s) -> _id u = oid ->
  let out := admin_delete_user a_id s in
  fst out = inr "deleted" /\
  (forall d, In d (db_userauth (snd out)) -> _id d <> oid) /\
  filter (owned_by (uid u)) (db_profile (snd out)) =
    filter (owned_by (uid u)) (db_profile s) /\
  filter (fun d => Message.from_userauth_id (body d) =? uid u) (db_message (snd out)) =
    filter (fun d => Message.from_userauth_id (body d) =? uid u) (db_message s) /\
  (forall y, y <> a_id -> like_edge (snd out) (uid u) y = like_edge s (uid u) y) /\
  (forall y, y <> a_id -> match_count (snd out) (uid u) y = match_count s (uid u) y).
Proof.
  intros Hmk Hspell Hu Hin Hid. cbv zeta.
  assert (Hne : uid u <> a_id) by (unfold uid; rewrite Hid; congruence).
  rewrite (admin_delete_user_made _ _ _ Hmk). cbn [fst snd].
  assert (Hex : existsb (fun d => (_id d =? oid)%N) (db_userauth s) = true).
  { apply existsb_exists. exists u. split; [exact Hin | now apply N.eqb_eq]. }
  rewrite Hex. split; [reflexivity|].
  unfold deleted_store; cbn [db_userauth db_profile db_message].
  split.
  { intros d Hd. apply (remove_first_by_id _ oid d Hu) in Hd. tauto. }
  split.
  { apply filter_filter_disjoint. intros d Hd. unfold owned_by in *.
    apply String.eqb_eq in Hd. apply String.eqb_neq. congruence. }
  split.
  { apply (filter_filter_disjoint
             (fun d => Message.from_userauth_id (body d) =? uid u)
             (fun d => Message.from_userauth_id (body d) =? a_id)).
    intros d Hd. apply String.eqb_eq in Hd. apply String.eqb_neq. congruence. }
  split.
  - intros y Hy. unfold like_edge; cbn [db_like].
    induction (db_like s) as [|d l IH]; [reflexivity|].
    cbn [filter existsb].
    destruct (String.eqb_spec (Like.from_userauth_id (body d)) (uid u)) as [Hf|Hf];
    destruct (String.eqb_spec (Like.to_userauth_id (body d)) y) as [Ht|Ht];
    destruct (String.eqb_spec (Like.from_userauth_id (body d)) a_id) as [Hfa|Hfa];
    destruct (String.eqb_spec (Like.to_userauth_id (body d)) a_id) as [Hta|Hta];
      cbn [negb orb andb existsb];
      rewrite ?(proj2 (String.eqb_eq _ _) Hf), ?(proj2 (String.eqb_eq _ _) Ht),
              ?(proj2 (String.eqb_neq _ _) Hf), ?(proj2 (String.eqb_neq _ _) Ht);
      cbn [andb orb]; try exact IH; try reflexivity; congruence.
  - intros y Hy. unfold match_count; cbn [db_match]. f_equal.
    apply filter_filter_disjoint. intros d Hd.
    destruct (joins_cases _ _ _ Hd) as [[Ha Hb]|[Ha Hb]];
      unfold involves; rewrite Ha, Hb;
      rewrite ?(string_eqb_false _ _ Hne), ?(string_eqb_false _ _ Hy); reflexivity.
Qed.

Lemma delete_by_other_spelling_leaves_dependents_witness :
  let u := sample_user 10 "tok-a" true in
  let s := mkStore [u] [mkDoc 11%N 0%N (sample_profile (uid u) "1990-01-01")]
                   [] [] [] 12 in
  ObjectId.make "00000000000000000000000A" = Some 10%N /\
  "00000000000000000000000A" <> ObjectId.str 10 /\
  unique_ids (db_userauth s) /\ In u (db_userauth s) /\
  db_userauth (snd (admin_delete_user "00000000000000000000000A" s)) = [] /\
  filter (owned_by (uid u))
         (db_profile (snd (admin_delete_user "00000000000000000000000A" s))) =
    [mkDoc 11%N 0%N (sample_profile (uid u) "1990-01-01")].
Proof.
  cbv zeta.
  assert (Hsp : "00000000000000000000000A" <> ObjectId.str 10)
    by (vm_compute; discriminate).
  assert (Hu : unique_ids [sample_user 10 "tok-a" true]).
  { unfold unique_ids; cbn [map _id sample_user].
    constructor; [cbn [In]; tauto | constructor]. }
  assert (Hin : In (sample_user 10 "tok-a" true) [sample_user 10 "tok-a" true])
    by now left.
  split; [reflexivity|]. split; [exact Hsp|]. split; [exact Hu|].
  split; [exact Hin|]. split; [reflexivity|].
  etransitivity.
  - exact (proj1 (proj2 (proj2
      (delete_by_other_spelling_leaves_dependents "00000000000000000000000A" 10%N
         (sample_user 10 "tok-a" true)
         (mkStore [sample_user 10 "tok-a" true]
            [mkDoc 11%N 0%N (sample_profile (uid (sample_user 10 "tok-a" true))
                                            "1990-01-01")] [] [] [] 12)
         eq_refl Hsp Hu Hin eq_refl)))).
  - reflexivity.
Defined.

Lemma admin_verify_user_unfold (userauth_id : string) (s : Store) :
  admin_verify_user userauth_id s =
  match ObjectId.parse userauth_id with
  | None => (inl (HTTPException 400 "Invalid user id"), s)
  | Some bytes =>
      (if existsb (fun d => ObjectId.equals bytes (_id d)) (db_userauth s)
       then inr "verified"
       else inl (HTTPException 404 "User not found"),
       mkStore (replace_first (fun d => ObjectId.equals bytes (_id d))
                  (fun d => mkDoc (_id d) (created_at d) (set_verified true (body d)))
                  (db_userauth s))
               (db_profile s) (db_like s) (db_match s) (db_message s) (next_oid s))
  end.
Proof.
  unfold admin_verify_user. destruct (ObjectId.parse userauth_id) as [bytes|];
    [|reflexivity].
  unfold bind, update_one_set; cbn [docs set_docs userauth].
  destruct (existsb _ (db_userauth s)); reflexivity.
Qed.

(** The same for a string that spells a twelve-byte identifier. *)
Lemma admin_verify_user_made (userauth_id : string) (oid : ObjectId.t) (s : Store) :
  ObjectId.make userauth_id = Some oid ->
  admin_verify_user userauth_id s =
  (if existsb (fun d => (_id d =? oid)%N) (db_userauth s)
   then inr "verified"
   else inl (HTTPException 404 "User not found"),
   mkStore (replace_first (fun d => (_id d =? oid)%N)
              (fun d => mkDoc (_id d) (created_at d) (set_verified true (body d)))
              (db_userauth s))
           (db_profile s) (db_like s) (db_match s) (db_message s) (next_oid s)).
Proof.
  intros Hmk. destruct (make_parse _ _ Hmk) as [bytes [Hp He]].
  rewrite admin_verify_user_unfold, Hp.
  rewrite (existsb_same _ (fun d => (_id d =? oid)%N)) by (intros d; apply He).
  rewrite (replace_first_same _ (fun d => (_id d =? oid)%N)) by (intros d; apply He).
  reflexivity.
Qed.

(** X19: [admin_verify_user] answers 400 exactly for the strings the
    [ObjectId] constructor refuses, and 404 for a string it takes that
    spells the identifier of no stored identity (a string of 24
    characters with whitespace among them is such a string); nothing is
    written in either case.  For the identifier of a stored identity it
    answers "verified" and stores that identity with [verified = True]
    and its email, customer, session, paid flag and token as they were;
    every other identity and every other collection is as before. *)
Theorem admin_verify_outcomes (userauth_id : string) (s : Store) :
  let out := admin_verify_user userauth_id s in
  (ObjectId.parse userauth_id = None ->
   out = (inl (HTTPException 400 "Invalid user id"), s)) /\
  (forall bytes, ObjectId.parse userauth_id = Some bytes ->
     (forall d, In d (db_userauth s) -> ObjectId.make userauth_id <> Some (_id d)) ->
     out = (inl (HTTPException 404 "User not found"), s)) /\
  (forall oid u, ObjectId.make userauth_id = Some oid ->
     unique_ids (db_userauth s) -> In u (db_userauth s) -> _id u = oid ->
     let marked :=
       mkDoc (_id u) (created_at u)
             (Userauth.mk (Userauth.email (body u))
                          (Userauth.stripe_customer_id (body u))
                          (Userauth.stripe_session_id (body u))
                          (Userauth.paid (body u))
                          (Userauth.token (body u)) true) in
     fst out = inr "verified" /\
     In marked (db_userauth (snd out)) /\
     (forall d, In d (db_userauth (snd out)) ->
                In d (db_userauth s) /\ _id d <> oid \/ d = marked) /\
     (forall d, In d (db_userauth s) -> _id d <> oid -> In d (db_userauth (snd out))) /\
     db_profile (snd out) = db_profile s /\ db_like (snd out) = db_like s /\
     db_match (snd out) = db_match s /\ db_message (snd out) = db_message s).
Proof.
  cbv zeta.
  split; [intros Hp; now rewrite admin_verify_user_unfold, Hp|].
  split.
  - intros bytes Hp Hall. rewrite admin_verify_user_unfold, Hp.
    assert (Hnone : forall d, In d (db_userauth s) ->
                              ObjectId.equals bytes (_id d) = false).
    { intros d Hd. destruct (ObjectId.equals bytes (_id d)) eqn:E; [|reflexivity].
      destruct (Hall d Hd). exact (parse_make _ _ _ Hp E). }
    rewrite (replace_first_none _ _ _ Hnone), store_eta.
    destruct (existsb _ (db_userauth s)) eqn:E; [|reflexivity].
    apply existsb_exists in E. destruct E as [d [Hd Hid]].
    rewrite (Hnone d Hd) in Hid. discriminate.
  - intros oid u Hmk Hu Hin Hid.
    change (Userauth.mk (Userauth.email (body u))
                        (Userauth.stripe_customer_id (body u))
                        (Userauth.stripe_session_id (body u))
                        (Userauth.paid (body u))
                        (Userauth.token (body u)) true)
      with (set_verified true (body u)).
    rewrite (admin_verify_user_made _ _ _ Hmk).
    cbn [fst snd db_userauth db_profile db_like db_match db_message].
    assert (Hex : existsb (fun d => (_id d =? oid)%N) (db_userauth s) = true).
    { apply existsb_exists. exists u. split; [exact Hin | now apply N.eqb_eq]. }
    rewrite Hex. split; [reflexivity|].
    pose proof (find_by_id_unique _ u Hu Hin) as Hfind. rewrite Hid in Hfind.
    destruct (find_split _ _ _ Hfind) as [l1 [l2 [Hl [Hl1 _]]]].
    rewrite Hl.
    rewrite (replace_first_at _
               (fun d => mkDoc (_id d) (created_at d) (set_verified true (body d)))
               l1 l2 u Hl1) by (now apply N.eqb_eq).
    assert (Hl2 : forall d, In d l2 -> _id d <> oid).
    { intros d Hd Hd'. rewrite Hl in Hu.
      assert (Hdu : d = u).
      { apply (unique_ids_inj (l1 ++ u :: l2)); try assumption.
        - apply in_or_app. right. now right.
        - apply in_or_app. right. now left.
        - congruence. }
      subst d. unfold unique_ids in Hu. rewrite map_app in Hu. cbn [map] in Hu.
      apply NoDup_remove_2 in Hu. apply Hu. apply in_or_app. right.
      now apply in_map. }
    split; [apply in_or_app; right; now left|].
    split.
    { intros d Hd. apply in_app_or in Hd. destruct Hd as [Hd|[<-|Hd]].
      - left. split; [apply in_or_app; now left|].
        apply N.eqb_neq. now apply Hl1.
      - now right.
      - left. split; [apply in_or_app; right; now right | now apply Hl2]. }
    split.
    { intros d Hd Hne. apply in_app_or in Hd. destruct Hd as [Hd|[<-|Hd]].
      - apply in_or_app. now left.
      - congruence.
      - apply in_or_app. right. now right. }
    repeat split.
Qed.

Lemma admin_verify_outcomes_witness :
  let s := mkStore [sample_user 1 "tok-a" true] [] [] [] [] 2 in
  let spaced := "00 00 00 00 00 00 00 01 " in
  ObjectId.make (ObjectId.str 1) = Some 1%N /\
  unique_ids (db_userauth s) /\ In (sample_user 1 "tok-a" true) (db_userauth s) /\
  fst (admin_verify_user (ObjectId.str 1) s) = inr "verified" /\
  In (mkDoc 1%N 0%N (Userauth.mk "user@example.com" None (Some "tok-a") true "tok-a" true))
     (db_userauth (snd (admin_verify_user (ObjectId.str 1) s))) /\
  ObjectId.parse spaced = Some [0; 0; 0; 0; 0; 0; 0; 1]%N /\
  admin_verify_user spaced s = (inl (HTTPException 404 "User not found"), s).
Proof.
  cbv zeta.
  assert (Hu : unique_ids [sample_user 1 "tok-a" true]).
  { unfold unique_ids; cbn [map _id sample_user].
    constructor; [cbn [In]; tauto | constructor]. }
  assert (Hin : In (sample_user 1 "tok-a" true) [sample_user 1 "tok-a" true])
    by now left.
  split; [reflexivity|]. split; [exact Hu|]. split; [exact Hin|].
  pose proof (proj2 (proj2 (admin_verify_outcomes (ObjectId.str 1)
           (mkStore [sample_user 1 "tok-a" true] [] [] [] [] 2)))
         1%N (sample_user 1 "tok-a" true) eq_refl Hu Hin eq_refl) as H.
  split; [exact (proj1 H)|]. split; [exact (proj1 (proj2 H))|].
  split; [reflexivity|].
  refine (proj1 (proj2 (admin_verify_outcomes "00 00 00 00 00 00 00 01 "
           (mkStore [sample_user 1 "tok-a" true] [] [] [] [] 2)))
         [0; 0; 0; 0; 0; 0; 0; 1]%N eq_refl _).
  intros d _. discriminate.
Defined.

Lemma require_admin_unfold (env token : option string) (s : Store) :
  require_admin env token s =
  match token with
  | Some tok => if tok =? ADMIN_TOKEN env then (inr tt, s)
                else (inl (HTTPException 401 "Unauthorized admin"), s)
  | None => (inl (HTTPException 401 "Unauthorized admin"), s)
  end.
Proof.
  unfold require_admin. destruct token as [tok|]; [|reflexivity].
  now destruct (tok =? ADMIN_TOKEN env).
Qed.

(** X20: the admin endpoints answer 401 "Unauthorized admin" and write
    nothing unless the token is the configured secret ("admin-secret"
    when the environment sets none); with the secret they are the bare
    handlers. *)
Theorem admin_endpoints_need_the_secret
    (env token : option string) (userauth_id : string) (s : Store) :
  (token <> Some (ADMIN_TOKEN env) ->
   api_admin_delete_user env userauth_id token s =
     (inl (HTTPException 401 "Unauthorized admin"), s) /\
   api_admin_verify env userauth_id token s =
     (inl (HTTPException 401 "Unauthorized admin"), s) /\
   api_admin_profiles env token s =
     (inl (HTTPException 401 "Unauthorized admin"), s) /\
   api_admin_stats env token s =
     (inl (HTTPException 401 "Unauthorized admin"), s)) /\
  (token = Some (ADMIN_TOKEN env) ->
   api_admin_delete_user env userauth_id token s = admin_delete_user userauth_id s /\
   api_admin_verify env userauth_id token s = admin_verify_user userauth_id s /\
   api_admin_profiles env token s = admin_list_profiles s /\
   api_admin_stats env token s = admin_stats s) /\
  ADMIN_TOKEN None = "admin-secret".
Proof.
  unfold api_admin_delete_user, api_admin_verify, api_admin_profiles,
         api_admin_stats, bind.
  rewrite require_admin_unfold.
  split; [|split; [|reflexivity]].
  - intros Hne. destruct token as [tok|]; [|repeat split].
    destruct (String.eqb_spec tok (ADMIN_TOKEN env)) as [->|_];
      [congruence | repeat split].
  - intros ->. rewrite String.eqb_refl. repeat split.
Qed.

Lemma admin_endpoints_need_the_secret_witness :
  let s := mkStore [sample_user 1 "tok-a" true] [] [] [] [] 2 in
  Some "guess" <> Some (ADMIN_TOKEN None) /\
  api_admin_delete_user None (ObjectId.str 1) (Some "guess") s =
    (inl (HTTPException 401 "Unauthorized admin"), s).
Proof.
  cbv zeta.
  assert (Hne : Some "guess" <> Some (ADMIN_TOKEN None)) by discriminate.
  split; [exact Hne|].
  exact (proj1 (proj1 (admin_endpoints_need_the_secret None (Some "guess")
                         (ObjectId.str 1) _) Hne)).
Defined.

Lemma distinct_values_bounded (values : list string) :
  (List.length (nodup string_dec values) <= List.length values)%nat.
Proof.
  apply NoDup_incl_length; [apply NoDup_nodup|].
  intros v Hv. now apply nodup_In in Hv.
Qed.

(** X21: [admin_stats] writes nothing and its counts are consistent:
    verified users are counted among the users, so never exceed them;
    active users are the distinct senders of stored messages, each
    sender of a message being counted once, so there are no more of them
    than messages, and none exactly when there is no message. *)
Theorem admin_stats_counts (s : Store) :
  exists st,
    admin_stats s = (inr st, s) /\
    total_users st = N.of_nat (List.length (db_userauth s)) /\
    total_matches st = N.of_nat (List.length (db_match s)) /\
    (verified_users st <= total_users st)%N /\
    (active_users st <= N.of_nat (List.length (db_message s)))%N /\
    (active_users st = 0%N <-> db_message s = []) /\
    (exists senders,
       active_users st = N.of_nat (List.length senders) /\ NoDup senders /\
       forall x, In x senders <->
                 exists d, In d (db_message s) /\ Message.from_userauth_id (body d) = x).
Proof.
  eexists. split; [reflexivity|].
  cbn [total_users total_matches verified_users active_users docs
       userauth match_ message].
  assert (Hall : forall A (l : list A), filter (fun _ => true) l = l).
  { intros A l. induction l as [|x l IH]; simpl; [reflexivity | now rewrite IH]. }
  rewrite !Hall.
  split; [reflexivity|]. split; [reflexivity|].
  split.
  { pose proof (filter_length_le (fun d => Userauth.verified (body d)) (db_userauth s)).
    lia. }
  split.
  { pose proof (distinct_values_bounded
                  (map (fun d => Message.from_userauth_id (body d)) (db_message s))) as H.
    rewrite length_map in H. lia. }
  split.
  { split.
    - intros H. destruct (db_message s) as [|d l]; [reflexivity|].
      exfalso.
      assert (Hin : In (Message.from_userauth_id (body d))
                       (nodup string_dec
                          (map (fun d => Message.from_userauth_id (body d)) (d :: l)))).
      { apply nodup_In. now left. }
      destruct (nodup string_dec _) as [|y ys]; [exact Hin | discriminate H].
    - intros ->. reflexivity. }
  exists (nodup string_dec (map (fun d => Message.from_userauth_id (body d)) (db_message s))).
  split; [reflexivity|]. split; [apply NoDup_nodup|].
  intros x. rewrite nodup_In, in_map_iff. split; intros [d Hd]; exists d; tauto.
Qed.

(** ** Invariants of every reachable store *)

Lemma ids_ok_succ {A} (n : N) (l : list (Doc A)) :
  ids_ok n l -> ids_ok (N.succ n) l.
Proof.
  intros [Hnd Hlt]. split; [exact Hnd|].
  intros d Hd. apply Hlt in Hd. lia.
Qed.

Lemma ids_ok_app {A} (n now : N) (l : list (Doc A)) (x : A) :
  ids_ok n l -> ids_ok (N.succ n) (l ++ [mkDoc n now x]).
Proof.
  intros H. split; [exact (unique_ids_app_fresh n now l x H)|].
  destruct H as [_ Hlt]. intros d Hd. apply in_app_or in Hd.
  destruct Hd as [Hd|[<-|[]]]; [apply Hlt in Hd; lia | cbn [_id]; lia].
Qed.

Lemma unique_ids_filter {A} (keep : Doc A -> bool) (docs0 : list (Doc A)) :
  unique_ids docs0 -> unique_ids (filter keep docs0).
Proof.
  unfold unique_ids. induction docs0 as [|d rest IH]; cbn [filter map]; intros Hu.
  - exact Hu.
  - apply NoDup_cons_iff in Hu. destruct Hu as [Hfresh Hrest].
    destruct (keep d); [|now apply IH].
    cbn [map]. apply NoDup_cons_iff. split; [|now apply IH].
    intros Hin. apply Hfresh. apply in_map_iff in Hin.
    destruct Hin as [d' [Hid Hd']]. apply filter_In in Hd'.
    rewrite <- Hid. apply in_map. tauto.
Qed.

Lemma ids_ok_filter {A} (n : N) (p : Doc A -> bool) (l : list (Doc A)) :
  ids_ok n l -> ids_ok n (filter p l).
Proof.
  intros [Hnd Hlt]. split; [now apply unique_ids_filter|].
  intros d Hd. apply filter_In in Hd. now apply Hlt.
Qed.

Lemma ids_ok_remove_first {A} (n : N) (p : Doc A -> bool) (l : list (Doc A)) :
  ids_ok n l -> ids_ok n (remove_first p l).
Proof.
  intros [Hnd Hlt]. split; [now apply remove_first_unique_ids|].
  intros d Hd. apply remove_first_incl in Hd. now apply Hlt.
Qed.

Lemma ids_ok_replace_first {A} (n : N) (p : Doc A -> bool) (g : Doc A -> A)
      (l : list (Doc A)) :
  ids_ok n l ->
  ids_ok n (replace_first p (fun d => mkDoc (_id d) (created_at d) (g d)) l).
Proof.
  intros [Hnd Hlt]. split.
  - rewrite map_replace_first by reflexivity. exact Hnd.
  - intros d Hd. apply in_replace_first in Hd.
    destruct Hd as [Hd|[x [Hx [_ ->]]]]; [now apply Hlt | cbn [_id]; now apply Hlt].
Qed.

Ltac ids_ok_tac :=
  first [ assumption
        | apply ids_ok_app; ids_ok_tac
        | apply ids_ok_succ; ids_ok_tac
        | apply ids_ok_filter; ids_ok_tac
        | apply ids_ok_remove_first; ids_ok_tac
        | apply ids_ok_replace_first; ids_ok_tac ].

(** Proves that an explicit store is well formed from the five facts
    about the store it was computed from. *)
Ltac wf_tac :=
  unfold wf_store, liked_store, with_like, matched_store, deleted_store,
         purged_store;
  cbn [db_userauth db_profile db_like db_match db_message next_oid];
  repeat split_and; ids_ok_tac.

Lemma preserves_bind {A B} (P : Store -> Prop) (m : M A) (k : A -> M B) :
  preserves P m -> (forall a, preserves P (k a)) -> preserves P (bind m k).
Proof.
  intros Hm Hk s Hs. unfold bind. specialize (Hm s Hs).
  destruct (m s) as [[e|a] s']; cbn [snd] in *; [exact Hm | now apply Hk].
Qed.

Lemma require_auth_preserves (P : Store -> Prop) (token : option string) :
  preserves P (require_auth token).
Proof.
  intros s Hs. rewrite require_auth_unfold.
  destruct token as [tok|]; [|exact Hs].
  destruct (tok =? ""); [exact Hs|].
  now destruct (List.find _ (db_userauth s)).
Qed.

Lemma require_admin_preserves (P : Store -> Prop) (env token : option string) :
  preserves P (require_admin env token).
Proof.
  intros s Hs. rewrite require_admin_unfold.
  destruct token as [tok|]; [|exact Hs].
  now destruct (tok =? ADMIN_TOKEN env).
Qed.

Lemma upsert_store (p : Profile.t) (now : N) (user : Doc Userauth.t) (s : Store) :
  snd (create_or_update_profile p now user s) =
  if negb (Userauth.paid (body user)) then s
  else match List.find (owned_by (uid user)) (db_profile s) with
       | Some e =>
           mkStore (db_userauth s)
             (replace_first (fun d => (_id d =? _id e)%N)
                (fun d => mkDoc (_id d) (created_at d)
                                (Profile.set_userauth_id (uid user) p))
                (db_profile s))
             (db_like s) (db_match s) (db_message s) (next_oid s)
       | None =>
           mkStore (db_userauth s)
             (db_profile s ++
                [mkDoc (next_oid s) now (Profile.set_userauth_id (uid user) p)])
             (db_like s) (db_match s) (db_message s) (N.succ (next_oid s))
       end.
Proof.
  unfold create_or_update_profile.
  destruct (Userauth.paid (body user)); cbn [negb]; [|reflexivity].
  unfold bind, find_one, update_one, create_document;
    cbn [docs set_docs profile].
  change (fun d : Doc Profile.t => Profile.userauth_id (body d) =? uid user)
    with (owned_by (uid user)).
  now destruct (List.find (owned_by (uid user)) (db_profile s)).
Qed.

Lemma send_message_store (msg : ChatMessage.t) (now : N) (user : Doc Userauth.t) (s : Store) :
  snd (send_message msg now user s) = s \/
  snd (send_message msg now user s) =
    mkStore (db_userauth s) (db_profile s) (db_like s) (db_match s)
            (db_message s ++
               [mkDoc (next_oid s) now
                  (Message.mk (ChatMessage.match_id msg) (uid user)
                              (ChatMessage.text msg))])
            (N.succ (next_oid s)).
Proof.
  rewrite send_message_unfold.
  destruct (fst (find_match _ s)) as [e|[m|]]; [now left| |now left].
  destruct (participant user m); [now right | now left].
Qed.

Lemma serve_wf (r : Request) (s : Store) : wf_store s -> wf_store (serve r s).
Proof.
  intros Hwf. pose proof Hwf as [H1 [H2 [H3 [H4 H5]]]].
  destruct r as [payload t u now|payload|p now token|payload now token
                 |msg now token|env i token|env i token]; cbn [serve].
  - rewrite checkout_store. cbn [snd]. wf_tac.
  - rewrite confirm_payment_unfold.
    destruct (List.find _ (db_userauth s)); cbn [snd]; [wf_tac | exact Hwf].
  - apply (preserves_bind wf_store); [apply require_auth_preserves| |exact Hwf].
    intros user s0 [G1 [G2 [G3 [G4 G5]]]]. rewrite upsert_store.
    destruct (negb _); [wf_tac|].
    destruct (List.find _ (db_profile s0)); wf_tac.
  - apply (preserves_bind wf_store); [apply require_auth_preserves| |exact Hwf].
    intros user s0 [G1 [G2 [G3 [G4 G5]]]]. rewrite like_user_unfold. cbv zeta.
    destruct (uid user =? _); [wf_tac|].
    destruct (like_edge s0 _ _); [destruct (existsb _ _)|]; cbn [snd]; wf_tac.
  - apply (preserves_bind wf_store); [apply require_auth_preserves| |exact Hwf].
    intros user s0 [G1 [G2 [G3 [G4 G5]]]].
    destruct (send_message_store msg now user s0) as [->| ->]; wf_tac.
  - apply (preserves_bind wf_store); [apply require_admin_preserves| |exact Hwf].
    intros _ s0 [G1 [G2 [G3 [G4 G5]]]]. rewrite admin_verify_user_unfold.
    destruct (ObjectId.parse i); cbn [snd]; wf_tac.
  - apply (preserves_bind wf_store); [apply require_admin_preserves| |exact Hwf].
    intros _ s0 [G1 [G2 [G3 [G4 G5]]]]. rewrite admin_delete_user_unfold.
    destruct (ObjectId.parse i); cbn [snd]; wf_tac.
Qed.

(** X22: whatever sequence of checkouts, confirmations, profile upserts,
    likes, chat messages, verifications and deletions is served, one at a
    time, starting from a well-formed store such as the empty one, the
    store stays well formed: within each collection no two documents
    share an identifier, and every identifier is older than the next
    fresh one. *)
Theorem served_stores_are_well_formed (rs : list Request) (s : Store) :
  wf_store s -> wf_store (serve_all rs s).
Proof.
  unfold serve_all. revert s. induction rs as [|r rs IH]; intros s Hwf; cbn [fold_left].
  - exact Hwf.
  - apply IH. now apply serve_wf.
Qed.

Lemma wf_empty : wf_store empty_store.
Proof.
  unfold wf_store, ids_ok, empty_store; cbn.
  repeat split; try constructor; intros d [].
Qed.

Lemma served_stores_are_well_formed_witness :
  let rs := [Checkout (CheckoutRequest.mk "a@example.com") "tok-a" "ses-a" 1;
             Confirm (ConfirmRequest.mk "ses-a");
             PostProfile (sample_profile "" "1990-01-01") 2 (Some "tok-a");
             PostLike (Like.mk "" "ffffffffffffffffffffffff") 3 (Some "tok-a")] in
  wf_store empty_store /\
  List.length (db_profile (serve_all rs empty_store)) = 1%nat /\
  wf_store (serve_all rs empty_store).
Proof.
  cbv zeta. split; [exact wf_empty|]. split; [reflexivity|].
  exact (served_stores_are_well_formed _ empty_store wf_empty).
Defined.

Lemma existsb_filter_const {A} (p q : A -> bool) (c : bool) (l : list A) :
  (forall d, p d = true -> q d = c) ->
  existsb p (filter q l) = existsb p l && c.
Proof.
  intros H. induction l as [|d l IH]; [reflexivity|].
  cbn [filter existsb].
  destruct (p d) eqn:Ep.
  - rewrite (H d Ep). destruct c; cbn [existsb orb andb].
    + now rewrite Ep.
    + rewrite IH. apply andb_false_r.
  - destruct (q d); cbn [existsb orb]; rewrite ?Ep; exact IH.
Qed.

Lemma like_edge_deleted (s : Store) (a_id : string) (oid : ObjectId.t) (x y : string) :
  like_edge (deleted_store s a_id oid) x y =
  like_edge s x y && negb ((x =? a_id) || (y =? a_id)).
Proof.
  unfold like_edge, deleted_store; cbn [db_like].
  apply existsb_filter_const. intros d Hd.
  apply andb_true_iff in Hd. destruct Hd as [Hf Ht].
  apply String.eqb_eq in Hf, Ht. now rewrite Hf, Ht.
Qed.

Lemma match_count_deleted (s : Store) (a_id : string) (oid : ObjectId.t) (x y : string) :
  match_count (deleted_store s a_id oid) x y =
  if (x =? a_id) || (y =? a_id) then 0%nat else match_count s x y.
Proof.
  unfold match_count, deleted_store; cbn [db_match].
  destruct ((x =? a_id) || (y =? a_id)) eqn:E.
  - apply length_filter_zero.
    destruct (existsb _ _) eqn:Ex; [|reflexivity].
    apply existsb_exists in Ex. destruct Ex as [m [Hm Hj]].
    apply filter_In in Hm. destruct Hm as [_ Hkeep].
    apply orb_true_iff in E. rewrite !String.eqb_eq in E.
    destruct (joins_cases _ _ _ Hj) as [[Ha Hb]|[Ha Hb]];
      unfold involves in Hkeep; rewrite Ha, Hb in Hkeep;
      destruct E as [<-|<-]; rewrite String.eqb_refl in Hkeep;
      cbn in Hkeep; rewrite ?orb_true_r in Hkeep; discriminate.
  - f_equal. apply filter_filter_disjoint. intros m Hj.
    apply orb_false_iff in E. destruct E as [Ex Ey].
    destruct (joins_cases _ _ _ Hj) as [[Ha Hb]|[Ha Hb]];
      unfold involves; rewrite Ha, Hb, Ex, Ey; reflexivity.
Qed.

Lemma delete_preserves_pair_inv (s : Store) (a_id : string) (oid : ObjectId.t) :
  pair_inv s -> pair_inv (deleted_store s a_id oid).
Proof.
  intros Hinv x y Hxy. destruct (Hinv x y Hxy) as [Hle Hboth].
  rewrite match_count_deleted, !like_edge_deleted.
  destruct ((x =? a_id) || (y =? a_id)) eqn:E.
  - split; [lia|]. cbn [negb]. rewrite andb_false_r. discriminate.
  - split; [exact Hle|]. rewrite (orb_comm (y =? a_id)), E. cbn [negb].
    rewrite !andb_true_r. exact Hboth.
Qed.

Lemma delete_preserves_backed (s : Store) (a_id : string) (oid : ObjectId.t) :
  backed s -> backed (deleted_store s a_id oid).
Proof.
  intros Hb m Hm. unfold deleted_store in Hm; cbn [db_match] in Hm.
  apply filter_In in Hm. destruct Hm as [Hm Hkeep].
  destruct (Hb m Hm) as [H1 H2].
  rewrite !like_edge_deleted, H1, H2.
  unfold involves in Hkeep.
  rewrite (orb_comm (Match.userauth_b (body m) =? a_id)), Hkeep. split; reflexivity.
Qed.

Lemma like_user_preserves_backed
    (payload : Like.t) (now : N) (user : Doc Userauth.t) (s : Store) :
  backed s -> backed (snd (like_user payload now user s)).
Proof.
  intros Hb. rewrite like_user_unfold. cbv zeta.
  destruct (String.eqb_spec (uid user) (Like.to_userauth_id payload)) as [|Hne];
    [exact Hb|].
  destruct (like_edge s _ _) eqn:Hrev; [destruct (existsb _ _)|]; cbn [snd].
  - intros m Hm. destruct (Hb m Hm) as [H1 H2].
    rewrite !like_edge_liked, H1, H2. split; reflexivity.
  - intros m Hm. unfold matched_store in Hm; cbn [db_match] in Hm.
    rewrite !like_edge_matched.
    apply in_app_or in Hm. destruct Hm as [Hm|[<-|[]]].
    + destruct (Hb m Hm) as [H1 H2]. rewrite H1, H2. split; reflexivity.
    + cbn [body Match.userauth_a Match.userauth_b].
      rewrite Hrev, !String.eqb_refl. split; [apply orb_true_r | reflexivity].
  - intros m Hm. destruct (Hb m Hm) as [H1 H2].
    rewrite !like_edge_liked, H1, H2. split; reflexivity.
Qed.

Lemma social_ext (s s' : Store) :
  db_like s' = db_like s -> db_match s' = db_match s ->
  pair_inv s /\ backed s -> pair_inv s' /\ backed s'.
Proof.
  intros Hl Hm [Hp Hb]. split.
  - intros x y Hxy. unfold match_count, like_edge. rewrite Hl, Hm.
    exact (Hp x y Hxy).
  - intros m Hin. unfold like_edge. rewrite Hl. rewrite Hm in Hin.
    exact (Hb m Hin).
Qed.

Lemma serve_social (r : Request) (s : Store) :
  pair_inv s /\ backed s -> pair_inv (serve r s) /\ backed (serve r s).
Proof.
  intros H.
  destruct r as [payload t u now|payload|p now token|payload now token
                 |msg now token|env i token|env i token]; cbn [serve].
  - rewrite checkout_store. cbn [snd]. now apply (social_ext s).
  - rewrite confirm_payment_unfold.
    destruct (List.find _ (db_userauth s)); cbn [snd];
      [now apply (social_ext s) | exact H].
  - apply (preserves_bind (fun st => pair_inv st /\ backed st));
      [apply require_auth_preserves| |exact H].
    intros user s0 H0. rewrite upsert_store.
    destruct (negb _); [exact H0|].
    destruct (List.find _ (db_profile s0)); now apply (social_ext s0).
  - apply (preserves_bind (fun st => pair_inv st /\ backed st));
      [apply require_auth_preserves| |exact H].
    intros user s0 [Hp Hb]. split;
      [now apply like_user_preserves_pair_inv | now apply like_user_preserves_backed].
  - apply (preserves_bind (fun st => pair_inv st /\ backed st));
      [apply require_auth_preserves| |exact H].
    intros user s0 H0.
    destruct (send_message_store msg now user s0) as [->| ->];
      [exact H0 | now apply (social_ext s0)].
  - apply (preserves_bind (fun st => pair_inv st /\ backed st));
      [apply require_admin_preserves| |exact H].
    intros _ s0 H0. rewrite admin_verify_user_unfold.
    destruct (ObjectId.parse i); cbn [snd]; [now apply (social_ext s0) | exact H0].
  - apply (preserves_bind (fun st => pair_inv st /\ backed st));
      [apply require_admin_preserves| |exact H].
    intros _ s0 [Hp Hb]. rewrite admin_delete_user_unfold.
    destruct (ObjectId.parse i) as [bytes|]; cbn [snd]; [|now split].
    apply (social_ext (deleted_store s0 i 0%N)); [reflexivity | reflexivity |].
    split; [now apply delete_preserves_pair_inv | now apply delete_preserves_backed].
Qed.

(** X23: the social graph stays consistent under every mix of requests,
    deletions included.  Starting from a store where it holds (the empty
    one does), after any sequence of served requests each pair of
    distinct identities has at most one Match edge, has exactly one when
    both of its Like edges are stored, and every stored Match edge still
    has both Like edges of its pair behind it. *)
Theorem social_graph_stays_consistent (rs : list Request) (s : Store) :
  pair_inv s -> backed s ->
  pair_inv (serve_all rs s) /\ backed (serve_all rs s).
Proof.
  unfold serve_all. revert s.
  induction rs as [|r rs IH]; intros s Hp Hb; cbn [fold_left].
  - now split.
  - destruct (serve_social r s (conj Hp Hb)) as [Hp' Hb']. now apply IH.
Qed.

Lemma social_graph_stays_consistent_witness :
  let a := ObjectId.str 0 in
  let b := ObjectId.str 1 in
  let rs := [Checkout (CheckoutRequest.mk "a@example.com") "tok-a" "ses-a" 1;
             Checkout (CheckoutRequest.mk "b@example.com") "tok-b" "ses-b" 2;
             PostLike (Like.mk "" b) 3 (Some "tok-a");
             PostLike (Like.mk "" a) 4 (Some "tok-b");
             AdminDelete None a (Some "admin-secret")] in
  pair_inv empty_store /\ backed empty_store /\
  db_match (serve_all rs empty_store) = [] /\
  backed (serve_all rs empty_store).
Proof.
  cbv zeta.
  assert (Hb : backed empty_store) by (intros m []).
  split; [exact pair_inv_empty|]. split; [exact Hb|]. split; [reflexivity|].
  exact (proj2 (social_graph_stays_consistent _ empty_store pair_inv_empty Hb)).
Defined.

(** X24: the reading endpoints never write.  Whatever the token and the
    parameters, and whether they answer or fail, [api_me], the search,
    [api_matches], [api_chat_history], the admin profile list and the
    admin statistics return the store they were given. *)
Theorem reading_endpoints_never_write
    (age_of : string -> option Z)
    (regex_search : string -> string -> string -> bool)
    (today : Datetime.date) (a : SearchArgs) (user : Doc Userauth.t)
    (env token : option string) (mid : string) (s : Store) :
  snd (api_me token s) = s /\
  snd (search_profiles age_of regex_search today a user s) = s /\
  snd (api_matches token s) = s /\
  snd (api_chat_history mid token s) = s /\
  snd (api_admin_profiles env token s) = s /\
  snd (api_admin_stats env token s) = s.
Proof.
  split.
  { apply (preserves_bind (fun st => st = s));
      [apply require_auth_preserves| |reflexivity].
    intros u s0 ->. reflexivity. }
  split.
  { unfold search_profiles.
    pose proof (search_profiles_find_store regex_search today a user s) as Hs.
    destruct (search_profiles_find regex_search today a user s) as [[e|ps] s'];
      cbn [snd] in *; [exact Hs|].
    now destruct (build_cards _ _ _ _). }
  split.
  { apply (preserves_bind (fun st => st = s));
      [apply require_auth_preserves| |reflexivity].
    intros u s0 ->. reflexivity. }
  split.
  { apply (preserves_bind (fun st => st = s));
      [apply require_auth_preserves| |reflexivity].
    intros u s0 ->. rewrite get_messages_unfold.
    destruct (fst (find_match mid s)) as [e|[m|]]; try reflexivity.
    now destruct (participant u m). }
  split.
  { apply (preserves_bind (fun st => st = s));
      [apply require_admin_preserves| |reflexivity].
    intros _ s0 ->. reflexivity. }
  apply (preserves_bind (fun st => st = s));
    [apply require_admin_preserves| |reflexivity].
  intros _ s0 ->. reflexivity.
Qed.

Lemma build_cards_owner (age_of : string -> option Z) (only_verified : bool)
      (users : list (Doc Userauth.t)) (profiles : list (Doc Profile.t))
      (cards : list Card) :
  build_cards age_of only_verified users profiles = inr cards ->
  forall c, In c cards ->
    exists r ua, In r profiles /\
                 lookup_owner users (Profile.userauth_id (body r)) = inr ua /\
                 c = card_of age_of r (owner_verified ua).
Proof.
  revert cards. induction profiles as [|r rest IH]; intros cards H c Hc.
  - injection H as <-. contradiction.
  - cbn [build_cards] in H.
    destruct (lookup_owner users (Profile.userauth_id (body r))) as [bad|ua] eqn:El;
      [discriminate|].
    destruct (build_cards age_of only_verified users rest) as [bad|cs] eqn:Eb;
      [discriminate|].
    assert (Hrest : In c cs -> exists r' ua', In r' (r :: rest) /\
              lookup_owner users (Profile.userauth_id (body r')) = inr ua' /\
              c = card_of age_of r' (owner_verified ua')).
    { intros Hcs. destruct (IH cs eq_refl c Hcs) as [r' [ua' [Hr' Hx]]].
      exists r', ua'. split; [now right | exact Hx]. }
    destruct (only_verified && negb (owner_verified ua)); injection H as <-.
    + now apply Hrest.
    + destruct Hc as [<-|Hc]; [|now apply Hrest].
      exists r, ua. split; [now left|]. now split.
Qed.

Lemma uid_not_empty (u : Doc Userauth.t) :
  (_id u < ObjectId.bound)%N -> uid u <> "".
Proof.
  intros Hb He. apply make_str in Hb. unfold uid in He. rewrite He in Hb.
  discriminate Hb.
Qed.

(** X25: the verified mark of a card is never withheld: in the result of
    a search, every card whose [userauth_id] is the identifier string of
    a stored identity with the verified flag is marked verified
    (identifiers being distinct and 12 bytes wide). *)
Theorem verified_owner_shows_on_cards
    (age_of : string -> option Z)
    (regex_search : string -> string -> string -> bool)
    (today : Datetime.date) (a : SearchArgs) (user u : Doc Userauth.t)
    (s : Store) (cards : list Card) :
  unique_ids (db_userauth s) ->
  In u (db_userauth s) -> (_id u < ObjectId.bound)%N ->
  Userauth.verified (body u) = true ->
  fst (search_profiles age_of regex_search today a user s) = inr cards ->
  forall c, In c cards -> card_userauth_id c = uid u -> card_verified c = true.
Proof.
  intros Hu Hin Hb Hv. unfold search_profiles.
  pose proof (search_profiles_find_store regex_search today a user s) as Hs.
  destruct (search_profiles_find regex_search today a user s) as [[e|ps] s'];
    cbn [snd] in Hs; subst s'; [discriminate|].
  destruct (build_cards age_of (verified_only a) (db_userauth s) ps) as [bad|cs] eqn:Eb;
    [discriminate|].
  cbn [fst]. intros H. injection H as <-. intros c Hc Hown.
  destruct (build_cards_owner _ _ _ _ _ Eb c Hc) as [r [ua [_ [Hl ->]]]].
  cbn [card_of card_userauth_id card_verified] in *.
  rewrite Hown in Hl. unfold lookup_owner in Hl.
  rewrite (string_eqb_false _ _ (uid_not_empty u Hb)) in Hl.
  unfold uid in Hl.
  destruct (make_parse _ _ (make_str _ Hb)) as [bytes [Hp He]].
  rewrite Hp in Hl.
  rewrite (find_same _ (fun d => (_id d =? _id u)%N) _ (fun d => He (_id d))) in Hl.
  rewrite (find_by_id_unique _ u Hu Hin) in Hl.
  injection Hl as <-. exact Hv.
Qed.

Lemma verified_owner_shows_on_cards_witness :
  let u := mkDoc 1%N 0%N (Userauth.mk "a@example.com" None None true "tok-a" true) in
  let s := mkStore [u] [mkDoc 2%N 0%N (sample_profile (uid u) "1990-01-01")]
                   [] [] [] 3 in
  let args := mkSearchArgs None None None None None None None None None false in
  unique_ids (db_userauth s) /\ In u (db_userauth s) /\
  (_id u < ObjectId.bound)%N /\ Userauth.verified (body u) = true /\
  exists cards,
    fst (search_profiles (fun _ => None) (fun _ _ _ => true)
           (Datetime.mk 2024 6 15) args u s) = inr cards /\
    forall c, In c cards -> card_userauth_id c = uid u -> card_verified c = true.
Proof.
  cbv zeta.
  set (u := mkDoc 1%N 0%N (Userauth.mk "a@example.com" None None true "tok-a" true)).
  assert (Hu : unique_ids [u]).
  { unfold unique_ids; cbn [map _id u]. constructor; [cbn [In]; tauto | constructor]. }
  assert (Hin : In u [u]) by now left.
  assert (Hb : (_id u < ObjectId.bound)%N) by reflexivity.
  split; [exact Hu|]. split; [exact Hin|]. split; [exact Hb|].
  split; [reflexivity|].
  eexists. split; [reflexivity|].
  exact (verified_owner_shows_on_cards (fun _ => None) (fun _ _ _ => true)
           (Datetime.mk 2024 6 15)
           (mkSearchArgs None None None None None None None None None false) u u
           (mkStore [u] [mkDoc 2%N 0%N (sample_profile (uid u) "1990-01-01")]
                    [] [] [] 3) _ Hu Hin Hb eq_refl eq_refl).
Defined.

(** X26: no endpoint behind [require_auth] acts for a caller it cannot
    authenticate: when the token is rejected, the like, profile, chat,
    matches and own-profile endpoints all fail with that same 401 and
    write nothing. *)
Theorem unauthenticated_requests_are_rejected
    (token : option string) (e : Exception) (s : Store)
    (payload : Like.t) (p : Profile.t) (msg : ChatMessage.t) (mid : string) (now : N) :
  fst (require_auth token s) = inl e ->
  (e = HTTPException 401 "Missing token" \/ e = HTTPException 401 "Invalid token") /\
  api_like payload now token s = (inl e, s) /\
  api_profile p now token s = (inl e, s) /\
  api_chat_send msg now token s = (inl e, s) /\
  api_chat_history mid token s = (inl e, s) /\
  api_matches token s = (inl e, s) /\
  api_me token s = (inl e, s).
Proof.
  intros H.
  assert (Hra : require_auth token s = (inl e, s)).
  { rewrite require_auth_unfold in *.
    destruct token as [tok|]; [|cbn [fst] in H; congruence].
    destruct (tok =? ""); [cbn [fst] in H; congruence|].
    destruct (List.find _ (db_userauth s)); cbn [fst] in H; congruence. }
  split.
  { rewrite require_auth_unfold in H.
    destruct token as [tok|]; [|injection H as <-; now left].
    destruct (tok =? ""); [injection H as <-; now left|].
    destruct (List.find _ (db_userauth s)); [discriminate|].
    injection H as <-. now right. }
  unfold api_like, api_profile, api_chat_send, api_chat_history, api_matches,
         api_me, bind.
  rewrite Hra. repeat split.
Qed.

Lemma unauthenticated_requests_are_rejected_witness :
  let s := mkStore [sample_user 1 "tok-a" true] [] [] [] [] 2 in
  fst (require_auth (Some "nope") s) = inl (HTTPException 401 "Invalid token") /\
  api_like (Like.mk "" (ObjectId.str 1)) 5 (Some "nope") s =
    (inl (HTTPException 401 "Invalid token"), s).
Proof.
  cbv zeta. split; [reflexivity|].
  exact (proj1 (proj2 (unauthenticated_requests_are_rejected (Some "nope") _
           (mkStore [sample_user 1 "tok-a" true] [] [] [] [] 2)
           (Like.mk "" (ObjectId.str 1)) (sample_profile "" "") 
           (ChatMessage.mk "" "") "" 5 eq_refl))).
Defined.

Lemma paid_after_confirm
    (payload : CheckoutRequest.t) (t u : string) (now : N) (s : Store) :
  wf_store s -> t <> "" ->
  (forall d, In d (db_userauth s) -> Userauth.token (body d) <> t) ->
  (forall d, In d (db_userauth s) -> Userauth.stripe_session_id (body d) <> Some u) ->
  snd (confirm_payment (ConfirmRequest.mk u)
         (snd (create_checkout_session payload t u now s))) =
  mkStore (db_userauth s ++
             [mkDoc (next_oid s) now
                (Userauth.mk (CheckoutRequest.email payload) None (Some u) true t false)])
          (db_profile s) (db_like s) (db_match s) (db_message s)
          (N.succ (next_oid s)).
Proof.
  intros Hwf Ht Htok Hses. rewrite checkout_store. cbn [snd].
  rewrite confirm_payment_unfold. cbn [ConfirmRequest.session_id db_userauth].
  rewrite find_app_none.
  2:{ apply find_none_forall. intros d Hd. unfold has_session.
      destruct (Userauth.stripe_session_id (body d)) as [x|] eqn:E; [|reflexivity].
      apply String.eqb_neq. intros ->. now apply (Hses d Hd). }
  cbn [List.find]. unfold has_session at 1.
  cbn [body Userauth.stripe_session_id]. rewrite String.eqb_refl. cbn [snd].
  cbn [db_profile db_like db_match db_message next_oid _id].
  rewrite (replace_first_at _ _ (db_userauth s) []).
  - reflexivity.
  - intros d Hd. destruct Hwf as [Hu _]. exact (ids_ok_fresh _ _ Hu d Hd).
  - apply N.eqb_refl.
Qed.

(** X27: the whole onboarding path works end to end.  After a checkout
    with fresh draws and the confirmation of its session, the token
    drawn at checkout lets its holder store a profile, and [api_me] with
    the same token then returns that profile, owned by the new identity,
    together with the checkout email and an unset verified flag. *)
Theorem onboarding_end_to_end
    (payload : CheckoutRequest.t) (t u : string) (now now' : N)
    (p : Profile.t) (s : Store) :
  wf_store s -> t <> "" ->
  (forall d, In d (db_userauth s) -> Userauth.token (body d) <> t) ->
  (forall d, In d (db_userauth s) -> Userauth.stripe_session_id (body d) <> Some u) ->
  let s2 := snd (confirm_payment (ConfirmRequest.mk u)
                   (snd (create_checkout_session payload t u now s))) in
  let out := api_profile p now' (Some t) s2 in
  (fst out = inr "created" \/ fst out = inr "updated") /\
  exists d,
    In d (db_profile (snd out)) /\
    body d =
      Profile.mk (ObjectId.str (next_oid s)) (Profile.full_name p)
        (Profile.gender p) (Profile.birth_date p) (Profile.marital_status p)
        (Profile.religion p) (Profile.islam_branch p)
        (Profile.religion_level p) (Profile.ethnicity p) (Profile.hobbies p)
        (Profile.height_cm p) (Profile.weight_kg p) (Profile.wears_glasses p)
        (Profile.address_origin p) (Profile.address_current p)
        (Profile.siblings_count p) (Profile.family_condition p)
        (Profile.health_history p) (Profile.health_notes p)
        (Profile.occupation p) (Profile.side_hustle p)
        (Profile.income_range p) (Profile.education_level p)
        (Profile.bahasa_indonesia p) (Profile.bahasa_inggris p)
        (Profile.bahasa_arab p) (Profile.bahasa_daerah p)
        (Profile.bahasa_lain p) (Profile.child_plan p)
        (Profile.love_languages p) (Profile.smoke p) (Profile.alcohol p)
        (Profile.diet p) (Profile.physical_activity p) (Profile.sleep_habit p)
        (Profile.time_management p) (Profile.shopping_habit p)
        (Profile.instagram p) (Profile.facebook p) (Profile.linkedin p)
        (Profile.tiktok p) (Profile.city p) (Profile.country p)
        (Profile.photo_url p) /\
    fst (api_me (Some t) (snd out)) =
      inr (Some (serialize d), (CheckoutRequest.email payload, false)).
Proof.
  intros Hwf Ht Htok Hses. cbv zeta.
  fold (Profile.set_userauth_id (ObjectId.str (next_oid s)) p).
  rewrite (paid_after_confirm payload t u now s Hwf Ht Htok Hses).
  set (new := mkDoc (next_oid s) now
                (Userauth.mk (CheckoutRequest.email payload) None (Some u) true t false)).
  set (s2 := mkStore (db_userauth s ++ [new]) (db_profile s) (db_like s)
                     (db_match s) (db_message s) (N.succ (next_oid s))).
  assert (Hauth : forall st, db_userauth st = (db_userauth s ++ [new])%list ->
                             require_auth (Some t) st = (inr new, st)).
  { intros st Hst. rewrite require_auth_unfold, (string_eqb_false _ _ Ht), Hst.
    rewrite find_app_none.
    2:{ apply find_none_forall. intros d Hd. apply String.eqb_neq. now apply Htok. }
    cbn [List.find new body Userauth.token]. now rewrite String.eqb_refl. }
  assert (Hu2 : unique_ids (db_profile s2)) by (destruct Hwf as [_ [[Hu _] _]]; exact Hu).
  assert (Hpaid : Userauth.paid (body new) = true) by reflexivity.
  unfold api_profile, bind. rewrite (Hauth s2 eq_refl).
  pose proof (create_or_update_profile_unfold p now' new s2 Hpaid Hu2) as Hcase.
  cbv zeta in Hcase.
  split.
  { destruct (List.find _ (db_profile s2)).
    - destruct Hcase as [_ [_ [_ [_ [_ [Hr _]]]]]]. now right.
    - destruct Hcase as [Hr _]. now left. }
  destruct (upsert_result p now' new s2 Hpaid Hu2) as [l1 [d [l2 [Hs [Hl1 [Hd _]]]]]].
  exists d. split; [rewrite Hs; apply in_or_app; right; now left|].
  split; [exact Hd|].
  unfold api_me, bind.
  rewrite Hauth.
  2:{ rewrite upsert_store, Hpaid. cbn [negb].
      now destruct (List.find _ (db_profile s2)). }
  rewrite get_my_profile_unfold. cbn [fst]. rewrite Hs.
  rewrite find_app_none by now apply find_none_forall.
  cbn [List.find]. unfold owned_by at 1. rewrite Hd.
  cbn [Profile.userauth_id Profile.set_userauth_id]. rewrite String.eqb_refl.
  reflexivity.
Qed.

Lemma onboarding_end_to_end_witness :
  let s2 := snd (confirm_payment (ConfirmRequest.mk "ses-a")
                   (snd (create_checkout_session (CheckoutRequest.mk "a@example.com")
                           "tok-a" "ses-a" 1 empty_store))) in
  let out := api_profile (sample_profile "" "1990-01-01") 2 (Some "tok-a") s2 in
  wf_store empty_store /\ "tok-a" <> "" /\
  (fst out = inr "created" \/ fst out = inr "updated") /\
  exists d, body d = sample_profile "000000000000000000000000" "1990-01-01" /\
            fst (api_me (Some "tok-a") (snd out)) =
              inr (Some (serialize d), ("a@example.com", false)).
Proof.
  cbv zeta.
  assert (Ht : "tok-a" <> "") by discriminate.
  split; [exact wf_empty|]. split; [exact Ht|].
  assert (Hnone : forall (P : Doc Userauth.t -> Prop) d,
            In d (db_userauth empty_store) -> P d) by (intros P d []).
  destruct (onboarding_end_to_end (CheckoutRequest.mk "a@example.com")
              "tok-a" "ses-a" 1 2 (sample_profile "" "1990-01-01")
              empty_store wf_empty Ht (Hnone _) (Hnone _))
    as [Hr [d [_ [Hd Hg]]]].
  split; [exact Hr|]. exists d. split; [exact Hd | exact Hg].
Defined.

Lemma admin_stats_counts_witness :
  let mid := ObjectId.str 10 in
  let s := mkStore [sample_user 1 "tok-a" true; sample_user 2 "tok-b" true] [] []
             [mkDoc 10%N 0%N (Match.mk (ObjectId.str 1) (ObjectId.str 2))]
             [mkDoc 11%N 1%N (Message.mk mid (ObjectId.str 1) "hi");
              mkDoc 12%N 2%N (Message.mk mid (ObjectId.str 1) "again")] 13 in
  exists st, admin_stats s = (inr st, s) /\
             (verified_users st <= total_users st)%N /\
             (active_users st <= 2)%N.
Proof.
  cbv zeta.
  match goal with
  | |- exists st, admin_stats ?s = _ /\ _ =>
      destruct (admin_stats_counts s) as [st [Hst [_ [_ [Hv [Ha _]]]]]]
  end.
  exists st. split; [exact Hst|]. split; [exact Hv | exact Ha].
Defined.
